(** * MarlinKimbra-K40 motion core: planner and stepper engine

    A shallow embedding of [MK/module/motion/planner.cpp] and
    [MK/module/motion/stepper.cpp], and the properties of the motion core
    proved (or refuted) on it.

    Build configuration embedded here: AVR target (8-bit, [int] is 16 bits,
    [long] is 32 bits, [float] and [double] are both IEEE-754 binary32),
    Cartesian mechanics, one extruder, and the optional features LASER,
    ADVANCE, COLOR_MIXING_EXTRUDER, DUAL_X_CARRIAGE, Z_LATE_ENABLE,
    Z_PROBE_ENDSTOP, NPR2, AUTO_BED_LEVELING_FEATURE, XY_FREQUENCY_LIMIT,
    FILAMENT_SENSOR, OLD_SLOWDOWN, ZWOBBLE, HYSTERESIS and
    PREVENT_DANGEROUS_EXTRUDE switched off.  Z_DUAL_ENDSTOPS and SLOWDOWN are
    kept as switches of the configuration record.  Constants, tables and
    enumerations that live in headers outside the two files are fields of the
    configuration record. *)

From Stdlib Require Import ZArith Lia Bool List.
From Stdlib Require Import Floats.SpecFloat.
Import ListNotations.

Local Open Scope Z_scope.

(** ** Machine integers of the AVR target *)

Module Int.

Definition uint8 (x : Z) : Z := x mod 2 ^ 8.
Definition int8 (x : Z) : Z := (x + 2 ^ 7) mod 2 ^ 8 - 2 ^ 7.
Definition uint16 (x : Z) : Z := x mod 2 ^ 16.
Definition uint32 (x : Z) : Z := x mod 2 ^ 32.
Definition int32 (x : Z) : Z := (x + 2 ^ 31) mod 2 ^ 32 - 2 ^ 31.

(** [TEST(n,b)], [SBI(n,b)] and [SET_BIT(n,b,value)] of the macro header. *)
Definition TEST (n b : Z) : bool := Z.testbit n b.
Definition SBI (n b : Z) : Z := Z.lor n (Z.shiftl 1 b).
Definition SET_BIT (n b : Z) (value : bool) : Z :=
  if value then Z.setbit n b else Z.clearbit n b.

End Int.

(** ** Axes and per-axis arrays *)

Inductive AxisEnum := X_AXIS | Y_AXIS | Z_AXIS | E_AXIS.

Definition axis_index (a : AxisEnum) : Z :=
  match a with X_AXIS => 0 | Y_AXIS => 1 | Z_AXIS => 2 | E_AXIS => 3 end.

Definition axis_eqb (a b : AxisEnum) : bool :=
  match a, b with
  | X_AXIS, X_AXIS | Y_AXIS, Y_AXIS | Z_AXIS, Z_AXIS | E_AXIS, E_AXIS => true
  | _, _ => false
  end.


(** A C array indexed by an axis: [arr[a] = v]. *)
Definition axis_array (A : Type) := AxisEnum -> A.

Definition aset {A} (arr : axis_array A) (a : AxisEnum) (v : A) : axis_array A :=
  fun b => if axis_eqb a b then v else arr b.



(** ** Endstop inputs *)

Inductive EndstopEnum :=
  X_MIN | Y_MIN | Z_MIN | Z_PROBE | X_MAX | Y_MAX | Z_MAX | Z2_MIN | Z2_MAX.

(** Bit index of each endstop in [endstop_hit_bits] and [old_endstop_bits].
    The enumeration is declared in a header outside the two files; the order
    is the one the comments at the declarations of the two bit fields give. *)
Definition endstop_bit (e : EndstopEnum) : Z :=
  match e with
  | X_MIN => 0 | Y_MIN => 1 | Z_MIN => 2 | Z_PROBE => 3
  | X_MAX => 4 | Y_MAX => 5 | Z_MAX => 6 | Z2_MIN => 7 | Z2_MAX => 8
  end.

(** ** The block record shared by planner and stepper *)

Definition float := spec_float.

(** ** IEEE-754 binary32, the [float] of the AVR target

    The arithmetic is the Standard Library's specification of IEEE-754
    ([SpecFloat]) at precision 24 and maximal exponent 128, rounding to
    nearest, ties to even.  Conversions to integer types are partial: a
    value outside the range of the target type (or a NaN or an infinity) is
    undefined behaviour in C and gives [None]. *)

Module F32.

Definition prec : Z := 24.
Definition emax : Z := 128.

Definition of_Z (z : Z) : float := binary_normalize prec emax z 0 false.

Definition mul : float -> float -> float := SFmul prec emax.
Definition add : float -> float -> float := SFadd prec emax.
Definition sub : float -> float -> float := SFsub prec emax.
Definition div : float -> float -> float := SFdiv prec emax.
Definition sqrt : float -> float := SFsqrt prec emax.
Definition neg : float -> float := SFopp.
Definition fabs : float -> float := SFabs.

Definition ltb : float -> float -> bool := SFltb.
Definition leb : float -> float -> bool := SFleb.
Definition eqb : float -> float -> bool := SFeqb.
Definition gtb (x y : float) : bool := SFltb y x.
Definition neb (x y : float) : bool := negb (SFeqb x y).

(** The macros [min(a,b) ((a)<(b)?(a):(b))] and [max(a,b) ((a)>(b)?(a):(b))]. *)
Definition min (a b : float) : float := if ltb a b then a else b.
Definition max (a b : float) : float := if gtb a b then a else b.

Definition square (x : float) : float := mul x x.

(** The integer nearest to the finite value [(-1)^s * m * 2^e] in the three
    directions used by the code. *)
Definition signed (s : bool) (m : Z) : Z := if s then - m else m.

Definition floorZ (x : float) : option Z :=
  match x with
  | S754_zero _ => Some 0
  | S754_finite s m e =>
      Some (if 0 <=? e then signed s (Z.pos m) * 2 ^ e
            else signed s (Z.pos m) / 2 ^ (- e))
  | _ => None
  end.

Definition ceilZ (x : float) : option Z :=
  match x with
  | S754_zero _ => Some 0
  | S754_finite s m e =>
      Some (if 0 <=? e then signed s (Z.pos m) * 2 ^ e
            else - ((- signed s (Z.pos m)) / 2 ^ (- e)))
  | _ => None
  end.

Definition truncZ (x : float) : option Z :=
  match x with
  | S754_zero _ => Some 0
  | S754_finite s m e =>
      Some (if 0 <=? e then signed s (Z.pos m) * 2 ^ e
            else signed s (Z.pos m / 2 ^ (- e)))
  | _ => None
  end.

(** Round half away from zero. *)
Definition roundZ (x : float) : option Z :=
  match x with
  | S754_zero _ => Some 0
  | S754_finite s m e =>
      Some (if 0 <=? e then signed s (Z.pos m) * 2 ^ e
            else signed s ((2 * Z.pos m + 2 ^ (- e)) / (2 * 2 ^ (- e))))
  | _ => None
  end.

(** [ceil] and [floor] of the C library, float to float. *)
Definition ceil (x : float) : float :=
  match x, ceilZ x with
  | S754_finite s _ _, Some z => binary_normalize prec emax z 0 s
  | _, _ => x
  end.

Definition floor (x : float) : float :=
  match x, floorZ x with
  | S754_finite s _ _, Some z => binary_normalize prec emax z 0 s
  | _, _ => x
  end.

(** Conversion of a float to an integer type: truncation toward zero, defined
    when the truncated value is in the range of the type. *)
Definition in_range (lo hi : Z) (z : option Z) : option Z :=
  match z with
  | Some v => if (lo <=? v) && (v <? hi) then Some v else None
  | None => None
  end.

Definition to_ulong (x : float) : option Z := in_range 0 (2 ^ 32) (truncZ x).
Definition to_long (x : float) : option Z := in_range (- 2 ^ 31) (2 ^ 31) (truncZ x).

(** [lround], defined when the rounded value is a [long]. *)
Definition lround (x : float) : option Z := in_range (- 2 ^ 31) (2 ^ 31) (roundZ x).

End F32.

(** The option monad threads undefined conversions through the planner. *)
Definition bind {A B} (x : option A) (f : A -> option B) : option B :=
  match x with Some a => f a | None => None end.

Notation "x <- e ;; k" := (bind e (fun x => k))
  (at level 61, e at next level, right associativity).

Module Block.

Record block_t := {
  steps : axis_array Z;            (* long steps[NUM_AXIS] *)
  step_event_count : Z;            (* unsigned long *)
  accelerate_until : Z;            (* long *)
  decelerate_after : Z;            (* long *)
  acceleration_rate : Z;           (* long *)
  direction_bits : Z;              (* unsigned char *)
  active_driver : Z;               (* unsigned char *)
  nominal_speed : float;
  entry_speed : float;
  max_entry_speed : float;
  millimeters : float;
  acceleration : float;
  recalculate_flag : bool;
  nominal_length_flag : bool;
  nominal_rate : Z;                (* unsigned long *)
  initial_rate : Z;                (* unsigned long *)
  final_rate : Z;                  (* unsigned long *)
  acceleration_st : Z;             (* unsigned long *)
  fan_speed : Z;                   (* unsigned long *)
  busy : bool
}.

(** Field updates: [with_f r v] is [r] after the assignment [r.f = v]. *)

Definition with_steps (r : block_t) (v : axis_array Z) : block_t :=
  {| steps := v; step_event_count := step_event_count r;
     accelerate_until := accelerate_until r; decelerate_after := decelerate_after r;
     acceleration_rate := acceleration_rate r; direction_bits := direction_bits r;
     active_driver := active_driver r; nominal_speed := nominal_speed r;
     entry_speed := entry_speed r; max_entry_speed := max_entry_speed r;
     millimeters := millimeters r; acceleration := acceleration r;
     recalculate_flag := recalculate_flag r;
     nominal_length_flag := nominal_length_flag r; nominal_rate := nominal_rate r;
     initial_rate := initial_rate r; final_rate := final_rate r;
     acceleration_st := acceleration_st r; fan_speed := fan_speed r; busy := busy r |}.

Definition with_step_event_count (r : block_t) (v : Z) : block_t :=
  {| steps := steps r; step_event_count := v; accelerate_until := accelerate_until r;
     decelerate_after := decelerate_after r; acceleration_rate := acceleration_rate r;
     direction_bits := direction_bits r; active_driver := active_driver r;
     nominal_speed := nominal_speed r; entry_speed := entry_speed r;
     max_entry_speed := max_entry_speed r; millimeters := millimeters r;
     acceleration := acceleration r; recalculate_flag := recalculate_flag r;
     nominal_length_flag := nominal_length_flag r; nominal_rate := nominal_rate r;
     initial_rate := initial_rate r; final_rate := final_rate r;
     acceleration_st := acceleration_st r; fan_speed := fan_speed r; busy := busy r |}.

Definition with_accelerate_until (r : block_t) (v : Z) : block_t :=
  {| steps := steps r; step_event_count := step_event_count r; accelerate_until := v;
     decelerate_after := decelerate_after r; acceleration_rate := acceleration_rate r;
     direction_bits := direction_bits r; active_driver := active_driver r;
     nominal_speed := nominal_speed r; entry_speed := entry_speed r;
     max_entry_speed := max_entry_speed r; millimeters := millimeters r;
     acceleration := acceleration r; recalculate_flag := recalculate_flag r;
     nominal_length_flag := nominal_length_flag r; nominal_rate := nominal_rate r;
     initial_rate := initial_rate r; final_rate := final_rate r;
     acceleration_st := acceleration_st r; fan_speed := fan_speed r; busy := busy r |}.

Definition with_decelerate_after (r : block_t) (v : Z) : block_t :=
  {| steps := steps r; step_event_count := step_event_count r;
     accelerate_until := accelerate_until r; decelerate_after := v;
     acceleration_rate := acceleration_rate r; direction_bits := direction_bits r;
     active_driver := active_driver r; nominal_speed := nominal_speed r;
     entry_speed := entry_speed r; max_entry_speed := max_entry_speed r;
     millimeters := millimeters r; acceleration := acceleration r;
     recalculate_flag := recalculate_flag r;
     nominal_length_flag := nominal_length_flag r; nominal_rate := nominal_rate r;
     initial_rate := initial_rate r; final_rate := final_rate r;
     acceleration_st := acceleration_st r; fan_speed := fan_speed r; busy := busy r |}.

Definition with_acceleration_rate (r : block_t) (v : Z) : block_t :=
  {| steps := steps r; step_event_count := step_event_count r;
     accelerate_until := accelerate_until r; decelerate_after := decelerate_after r;
     acceleration_rate := v; direction_bits := direction_bits r;
     active_driver := active_driver r; nominal_speed := nominal_speed r;
     entry_speed := entry_speed r; max_entry_speed := max_entry_speed r;
     millimeters := millimeters r; acceleration := acceleration r;
     recalculate_flag := recalculate_flag r;
     nominal_length_flag := nominal_length_flag r; nominal_rate := nominal_rate r;
     initial_rate := initial_rate r; final_rate := final_rate r;
     acceleration_st := acceleration_st r; fan_speed := fan_speed r; busy := busy r |}.

Definition with_direction_bits (r : block_t) (v : Z) : block_t :=
  {| steps := steps r; step_event_count := step_event_count r;
     accelerate_until := accelerate_until r; decelerate_after := decelerate_after r;
     acceleration_rate := acceleration_rate r; direction_bits := v;
     active_driver := active_driver r; nominal_speed := nominal_speed r;
     entry_speed := entry_speed r; max_entry_speed := max_entry_speed r;
     millimeters := millimeters r; acceleration := acceleration r;
     recalculate_flag := recalculate_flag r;
     nominal_length_flag := nominal_length_flag r; nominal_rate := nominal_rate r;
     initial_rate := initial_rate r; final_rate := final_rate r;
     acceleration_st := acceleration_st r; fan_speed := fan_speed r; busy := busy r |}.

Definition with_active_driver (r : block_t) (v : Z) : block_t :=
  {| steps := steps r; step_event_count := step_event_count r;
     accelerate_until := accelerate_until r; decelerate_after := decelerate_after r;
     acceleration_rate := acceleration_rate r; direction_bits := direction_bits r;
     active_driver := v; nominal_speed := nominal_speed r;
     entry_speed := entry_speed r; max_entry_speed := max_entry_speed r;
     millimeters := millimeters r; acceleration := acceleration r;
     recalculate_flag := recalculate_flag r;
     nominal_length_flag := nominal_length_flag r; nominal_rate := nominal_rate r;
     initial_rate := initial_rate r; final_rate := final_rate r;
     acceleration_st := acceleration_st r; fan_speed := fan_speed r; busy := busy r |}.

Definition with_nominal_speed (r : block_t) (v : float) : block_t :=
  {| steps := steps r; step_event_count := step_event_count r;
     accelerate_until := accelerate_until r; decelerate_after := decelerate_after r;
     acceleration_rate := acceleration_rate r; direction_bits := direction_bits r;
     active_driver := active_driver r; nominal_speed := v;
     entry_speed := entry_speed r; max_entry_speed := max_entry_speed r;
     millimeters := millimeters r; acceleration := acceleration r;
     recalculate_flag := recalculate_flag r;
     nominal_length_flag := nominal_length_flag r; nominal_rate := nominal_rate r;
     initial_rate := initial_rate r; final_rate := final_rate r;
     acceleration_st := acceleration_st r; fan_speed := fan_speed r; busy := busy r |}.

Definition with_entry_speed (r : block_t) (v : float) : block_t :=
  {| steps := steps r; step_event_count := step_event_count r;
     accelerate_until := accelerate_until r; decelerate_after := decelerate_after r;
     acceleration_rate := acceleration_rate r; direction_bits := direction_bits r;
     active_driver := active_driver r; nominal_speed := nominal_speed r;
     entry_speed := v; max_entry_speed := max_entry_speed r;
     millimeters := millimeters r; acceleration := acceleration r;
     recalculate_flag := recalculate_flag r;
     nominal_length_flag := nominal_length_flag r; nominal_rate := nominal_rate r;
     initial_rate := initial_rate r; final_rate := final_rate r;
     acceleration_st := acceleration_st r; fan_speed := fan_speed r; busy := busy r |}.

Definition with_max_entry_speed (r : block_t) (v : float) : block_t :=
  {| steps := steps r; step_event_count := step_event_count r;
     accelerate_until := accelerate_until r; decelerate_after := decelerate_after r;
     acceleration_rate := acceleration_rate r; direction_bits := direction_bits r;
     active_driver := active_driver r; nominal_speed := nominal_speed r;
     entry_speed := entry_speed r; max_entry_speed := v; millimeters := millimeters r;
     acceleration := acceleration r; recalculate_flag := recalculate_flag r;
     nominal_length_flag := nominal_length_flag r; nominal_rate := nominal_rate r;
     initial_rate := initial_rate r; final_rate := final_rate r;
     acceleration_st := acceleration_st r; fan_speed := fan_speed r; busy := busy r |}.

Definition with_millimeters (r : block_t) (v : float) : block_t :=
  {| steps := steps r; step_event_count := step_event_count r;
     accelerate_until := accelerate_until r; decelerate_after := decelerate_after r;
     acceleration_rate := acceleration_rate r; direction_bits := direction_bits r;
     active_driver := active_driver r; nominal_speed := nominal_speed r;
     entry_speed := entry_speed r; max_entry_speed := max_entry_speed r;
     millimeters := v; acceleration := acceleration r;
     recalculate_flag := recalculate_flag r;
     nominal_length_flag := nominal_length_flag r; nominal_rate := nominal_rate r;
     initial_rate := initial_rate r; final_rate := final_rate r;
     acceleration_st := acceleration_st r; fan_speed := fan_speed r; busy := busy r |}.

Definition with_acceleration (r : block_t) (v : float) : block_t :=
  {| steps := steps r; step_event_count := step_event_count r;
     accelerate_until := accelerate_until r; decelerate_after := decelerate_after r;
     acceleration_rate := acceleration_rate r; direction_bits := direction_bits r;
     active_driver := active_driver r; nominal_speed := nominal_speed r;
     entry_speed := entry_speed r; max_entry_speed := max_entry_speed r;
     millimeters := millimeters r; acceleration := v;
     recalculate_flag := recalculate_flag r;
     nominal_length_flag := nominal_length_flag r; nominal_rate := nominal_rate r;
     initial_rate := initial_rate r; final_rate := final_rate r;
     acceleration_st := acceleration_st r; fan_speed := fan_speed r; busy := busy r |}.

Definition with_recalculate_flag (r : block_t) (v : bool) : block_t :=
  {| steps := steps r; step_event_count := step_event_count r;
     accelerate_until := accelerate_until r; decelerate_after := decelerate_after r;
     acceleration_rate := acceleration_rate r; direction_bits := direction_bits r;
     active_driver := active_driver r; nominal_speed := nominal_speed r;
     entry_speed := entry_speed r; max_entry_speed := max_entry_speed r;
     millimeters := millimeters r; acceleration := acceleration r;
     recalculate_flag := v; nominal_length_flag := nominal_length_flag r;
     nominal_rate := nominal_rate r; initial_rate := initial_rate r;
     final_rate := final_rate r; acceleration_st := acceleration_st r;
     fan_speed := fan_speed r; busy := busy r |}.

Definition with_nominal_length_flag (r : block_t) (v : bool) : block_t :=
  {| steps := steps r; step_event_count := step_event_count r;
     accelerate_until := accelerate_until r; decelerate_after := decelerate_after r;
     acceleration_rate := acceleration_rate r; direction_bits := direction_bits r;
     active_driver := active_driver r; nominal_speed := nominal_speed r;
     entry_speed := entry_speed r; max_entry_speed := max_entry_speed r;
     millimeters := millimeters r; acceleration := acceleration r;
     recalculate_flag := recalculate_flag r; nominal_length_flag := v;
     nominal_rate := nominal_rate r; initial_rate := initial_rate r;
     final_rate := final_rate r; acceleration_st := acceleration_st r;
     fan_speed := fan_speed r; busy := busy r |}.

Definition with_nominal_rate (r : block_t) (v : Z) : block_t :=
  {| steps := steps r; step_event_count := step_event_count r;
     accelerate_until := accelerate_until r; decelerate_after := decelerate_after r;
     acceleration_rate := acceleration_rate r; direction_bits := direction_bits r;
     active_driver := active_driver r; nominal_speed := nominal_speed r;
     entry_speed := entry_speed r; max_entry_speed := max_entry_speed r;
     millimeters := millimeters r; acceleration := acceleration r;
     recalculate_flag := recalculate_flag r;
     nominal_length_flag := nominal_length_flag r; nominal_rate := v;
     initial_rate := initial_rate r; final_rate := final_rate r;
     acceleration_st := acceleration_st r; fan_speed := fan_speed r; busy := busy r |}.

Definition with_initial_rate (r : block_t) (v : Z) : block_t :=
  {| steps := steps r; step_event_count := step_event_count r;
     accelerate_until := accelerate_until r; decelerate_after := decelerate_after r;
     acceleration_rate := acceleration_rate r; direction_bits := direction_bits r;
     active_driver := active_driver r; nominal_speed := nominal_speed r;
     entry_speed := entry_speed r; max_entry_speed := max_entry_speed r;
     millimeters := millimeters r; acceleration := acceleration r;
     recalculate_flag := recalculate_flag r;
     nominal_length_flag := nominal_length_flag r; nominal_rate := nominal_rate r;
     initial_rate := v; final_rate := final_rate r;
     acceleration_st := acceleration_st r; fan_speed := fan_speed r; busy := busy r |}.

Definition with_final_rate (r : block_t) (v : Z) : block_t :=
  {| steps := steps r; step_event_count := step_event_count r;
     accelerate_until := accelerate_until r; decelerate_after := decelerate_after r;
     acceleration_rate := acceleration_rate r; direction_bits := direction_bits r;
     active_driver := active_driver r; nominal_speed := nominal_speed r;
     entry_speed := entry_speed r; max_entry_speed := max_entry_speed r;
     millimeters := millimeters r; acceleration := acceleration r;
     recalculate_flag := recalculate_flag r;
     nominal_length_flag := nominal_length_flag r; nominal_rate := nominal_rate r;
     initial_rate := initial_rate r; final_rate := v;
     acceleration_st := acceleration_st r; fan_speed := fan_speed r; busy := busy r |}.

Definition with_acceleration_st (r : block_t) (v : Z) : block_t :=
  {| steps := steps r; step_event_count := step_event_count r;
     accelerate_until := accelerate_until r; decelerate_after := decelerate_after r;
     acceleration_rate := acceleration_rate r; direction_bits := direction_bits r;
     active_driver := active_driver r; nominal_speed := nominal_speed r;
     entry_speed := entry_speed r; max_entry_speed := max_entry_speed r;
     millimeters := millimeters r; acceleration := acceleration r;
     recalculate_flag := recalculate_flag r;
     nominal_length_flag := nominal_length_flag r; nominal_rate := nominal_rate r;
     initial_rate := initial_rate r; final_rate := final_rate r; acceleration_st := v;
     fan_speed := fan_speed r; busy := busy r |}.

Definition with_fan_speed (r : block_t) (v : Z) : block_t :=
  {| steps := steps r; step_event_count := step_event_count r;
     accelerate_until := accelerate_until r; decelerate_after := decelerate_after r;
     acceleration_rate := acceleration_rate r; direction_bits := direction_bits r;
     active_driver := active_driver r; nominal_speed := nominal_speed r;
     entry_speed := entry_speed r; max_entry_speed := max_entry_speed r;
     millimeters := millimeters r; acceleration := acceleration r;
     recalculate_flag := recalculate_flag r;
     nominal_length_flag := nominal_length_flag r; nominal_rate := nominal_rate r;
     initial_rate := initial_rate r; final_rate := final_rate r;
     acceleration_st := acceleration_st r; fan_speed := v; busy := busy r |}.

Definition with_busy (r : block_t) (v : bool) : block_t :=
  {| steps := steps r; step_event_count := step_event_count r;
     accelerate_until := accelerate_until r; decelerate_after := decelerate_after r;
     acceleration_rate := acceleration_rate r; direction_bits := direction_bits r;
     active_driver := active_driver r; nominal_speed := nominal_speed r;
     entry_speed := entry_speed r; max_entry_speed := max_entry_speed r;
     millimeters := millimeters r; acceleration := acceleration r;
     recalculate_flag := recalculate_flag r;
     nominal_length_flag := nominal_length_flag r; nominal_rate := nominal_rate r;
     initial_rate := initial_rate r; final_rate := final_rate r;
     acceleration_st := acceleration_st r; fan_speed := fan_speed r; busy := v |}.

End Block.
Import Block.

(** ** Build configuration

    What the two files take from headers that are not part of them: CPU
    clock, the two stepping-frequency thresholds, the two timer tables of
    [speed_lookuptable.h] (row, column), the ring capacity, the drop
    threshold, the planner's minimum junction speed, and the feature switches
    kept open by this development. *)

Record config := {
  F_CPU : Z;
  MAX_STEP_FREQUENCY : Z;
  DOUBLE_STEP_FREQUENCY : Z;
  speed_lookuptable_fast : Z -> Z -> Z;
  speed_lookuptable_slow : Z -> Z -> Z;
  BLOCK_BUFFER_SIZE : Z;
  DROP_SEGMENTS : Z;
  EXTRUDERS : Z;
  MINIMUM_PLANNER_SPEED : float;
  SLOWDOWN : bool;
  Z_DUAL_ENDSTOPS : bool;
  HAS : EndstopEnum -> bool
}.

(** ** Planner settings

    The public variables of planner.cpp that the g-code layer sets, and the
    externs the planner reads ([volumetric_multiplier], [extruder_multiplier],
    [fanSpeed]).  Arrays of size [3 + EXTRUDERS] are indexed by
    [axis_index a] for the axes and by [3 + extruder] for the extruders. *)

Record settings := {
  minsegmenttime : Z;                          (* millis_t *)
  max_feedrate : Z -> float;
  axis_steps_per_unit : Z -> float;
  minimumfeedrate : float;
  acceleration : float;
  retract_acceleration : Z -> float;
  travel_acceleration : float;
  max_xy_jerk : float;
  max_z_jerk : float;
  max_e_jerk : Z -> float;
  mintravelfeedrate : float;
  axis_steps_per_sqr_second : Z -> Z;          (* unsigned long *)
  volumetric_multiplier : Z -> float;
  extruder_multiplier : Z -> Z;                (* int *)
  fanSpeed : Z
}.

(** ** Planner and stepper state *)

Record planner_state := {
  block_buffer : Z -> block_t;
  block_buffer_head : Z;           (* volatile unsigned char *)
  block_buffer_tail : Z;           (* volatile unsigned char *)
  position : axis_array Z;         (* long position[NUM_AXIS] *)
  previous_speed : axis_array float;
  previous_nominal_speed : float;
  last_extruder : Z                (* uint8_t *)
}.

Record stepper_state := {
  current_block : option Z;        (* block_t*: a slot of block_buffer, or NULL *)
  out_bits : Z;                    (* unsigned char *)
  cleaning_buffer_counter : Z;     (* unsigned int *)
  counter : axis_array Z;          (* long counter_x, counter_y, counter_z, counter_e *)
  step_events_completed : Z;       (* volatile unsigned long *)
  acceleration_time : Z;           (* long *)
  deceleration_time : Z;           (* long *)
  acc_step_rate : Z;               (* unsigned short *)
  step_loops : Z;                  (* uint8_t *)
  step_loops_nominal : Z;          (* uint8_t *)
  OCR1A_nominal : Z;               (* unsigned short *)
  OCR1A : Z;                       (* 16-bit compare register *)
  endstops_trigsteps : axis_array Z;   (* volatile long endstops_trigsteps[3] *)
  endstop_hit_bits : Z;            (* volatile char *)
  old_endstop_bits : Z;            (* byte, uint16_t with Z_DUAL_ENDSTOPS *)
  check_endstops : bool;
  count_position : axis_array Z;   (* volatile long count_position[NUM_AXIS] *)
  count_direction : axis_array Z;  (* volatile signed char count_direction[NUM_AXIS] *)
  performing_homing : bool
}.

Record machine := {
  planner : planner_state;
  stepper : stepper_state
}.

Definition with_block_buffer (r : planner_state) (v : Z -> block_t) : planner_state :=
  {| block_buffer := v; block_buffer_head := block_buffer_head r;
     block_buffer_tail := block_buffer_tail r; position := position r;
     previous_speed := previous_speed r;
     previous_nominal_speed := previous_nominal_speed r;
     last_extruder := last_extruder r |}.

Definition with_block_buffer_head (r : planner_state) (v : Z) : planner_state :=
  {| block_buffer := block_buffer r; block_buffer_head := v;
     block_buffer_tail := block_buffer_tail r; position := position r;
     previous_speed := previous_speed r;
     previous_nominal_speed := previous_nominal_speed r;
     last_extruder := last_extruder r |}.

Definition with_block_buffer_tail (r : planner_state) (v : Z) : planner_state :=
  {| block_buffer := block_buffer r; block_buffer_head := block_buffer_head r;
     block_buffer_tail := v; position := position r;
     previous_speed := previous_speed r;
     previous_nominal_speed := previous_nominal_speed r;
     last_extruder := last_extruder r |}.

Definition with_position (r : planner_state) (v : axis_array Z) : planner_state :=
  {| block_buffer := block_buffer r; block_buffer_head := block_buffer_head r;
     block_buffer_tail := block_buffer_tail r; position := v;
     previous_speed := previous_speed r;
     previous_nominal_speed := previous_nominal_speed r;
     last_extruder := last_extruder r |}.

Definition with_previous_speed (r : planner_state) (v : axis_array float) : planner_state :=
  {| block_buffer := block_buffer r; block_buffer_head := block_buffer_head r;
     block_buffer_tail := block_buffer_tail r; position := position r;
     previous_speed := v; previous_nominal_speed := previous_nominal_speed r;
     last_extruder := last_extruder r |}.

Definition with_previous_nominal_speed (r : planner_state) (v : float) : planner_state :=
  {| block_buffer := block_buffer r; block_buffer_head := block_buffer_head r;
     block_buffer_tail := block_buffer_tail r; position := position r;
     previous_speed := previous_speed r; previous_nominal_speed := v;
     last_extruder := last_extruder r |}.

Definition with_last_extruder (r : planner_state) (v : Z) : planner_state :=
  {| block_buffer := block_buffer r; block_buffer_head := block_buffer_head r;
     block_buffer_tail := block_buffer_tail r; position := position r;
     previous_speed := previous_speed r;
     previous_nominal_speed := previous_nominal_speed r; last_extruder := v |}.

Definition with_current_block (r : stepper_state) (v : option Z) : stepper_state :=
  {| current_block := v; out_bits := out_bits r;
     cleaning_buffer_counter := cleaning_buffer_counter r; counter := counter r;
     step_events_completed := step_events_completed r;
     acceleration_time := acceleration_time r;
     deceleration_time := deceleration_time r; acc_step_rate := acc_step_rate r;
     step_loops := step_loops r; step_loops_nominal := step_loops_nominal r;
     OCR1A_nominal := OCR1A_nominal r; OCR1A := OCR1A r;
     endstops_trigsteps := endstops_trigsteps r;
     endstop_hit_bits := endstop_hit_bits r; old_endstop_bits := old_endstop_bits r;
     check_endstops := check_endstops r; count_position := count_position r;
     count_direction := count_direction r; performing_homing := performing_homing r |}.

Definition with_out_bits (r : stepper_state) (v : Z) : stepper_state :=
  {| current_block := current_block r; out_bits := v;
     cleaning_buffer_counter := cleaning_buffer_counter r; counter := counter r;
     step_events_completed := step_events_completed r;
     acceleration_time := acceleration_time r;
     deceleration_time := deceleration_time r; acc_step_rate := acc_step_rate r;
     step_loops := step_loops r; step_loops_nominal := step_loops_nominal r;
     OCR1A_nominal := OCR1A_nominal r; OCR1A := OCR1A r;
     endstops_trigsteps := endstops_trigsteps r;
     endstop_hit_bits := endstop_hit_bits r; old_endstop_bits := old_endstop_bits r;
     check_endstops := check_endstops r; count_position := count_position r;
     count_direction := count_direction r; performing_homing := performing_homing r |}.

Definition with_cleaning_buffer_counter (r : stepper_state) (v : Z) : stepper_state :=
  {| current_block := current_block r; out_bits := out_bits r;
     cleaning_buffer_counter := v; counter := counter r;
     step_events_completed := step_events_completed r;
     acceleration_time := acceleration_time r;
     deceleration_time := deceleration_time r; acc_step_rate := acc_step_rate r;
     step_loops := step_loops r; step_loops_nominal := step_loops_nominal r;
     OCR1A_nominal := OCR1A_nominal r; OCR1A := OCR1A r;
     endstops_trigsteps := endstops_trigsteps r;
     endstop_hit_bits := endstop_hit_bits r; old_endstop_bits := old_endstop_bits r;
     check_endstops := check_endstops r; count_position := count_position r;
     count_direction := count_direction r; performing_homing := performing_homing r |}.

Definition with_counter (r : stepper_state) (v : axis_array Z) : stepper_state :=
  {| current_block := current_block r; out_bits := out_bits r;
     cleaning_buffer_counter := cleaning_buffer_counter r; counter := v;
     step_events_completed := step_events_completed r;
     acceleration_time := acceleration_time r;
     deceleration_time := deceleration_time r; acc_step_rate := acc_step_rate r;
     step_loops := step_loops r; step_loops_nominal := step_loops_nominal r;
     OCR1A_nominal := OCR1A_nominal r; OCR1A := OCR1A r;
     endstops_trigsteps := endstops_trigsteps r;
     endstop_hit_bits := endstop_hit_bits r; old_endstop_bits := old_endstop_bits r;
     check_endstops := check_endstops r; count_position := count_position r;
     count_direction := count_direction r; performing_homing := performing_homing r |}.

Definition with_step_events_completed (r : stepper_state) (v : Z) : stepper_state :=
  {| current_block := current_block r; out_bits := out_bits r;
     cleaning_buffer_counter := cleaning_buffer_counter r; counter := counter r;
     step_events_completed := v; acceleration_time := acceleration_time r;
     deceleration_time := deceleration_time r; acc_step_rate := acc_step_rate r;
     step_loops := step_loops r; step_loops_nominal := step_loops_nominal r;
     OCR1A_nominal := OCR1A_nominal r; OCR1A := OCR1A r;
     endstops_trigsteps := endstops_trigsteps r;
     endstop_hit_bits := endstop_hit_bits r; old_endstop_bits := old_endstop_bits r;
     check_endstops := check_endstops r; count_position := count_position r;
     count_direction := count_direction r; performing_homing := performing_homing r |}.

Definition with_acceleration_time (r : stepper_state) (v : Z) : stepper_state :=
  {| current_block := current_block r; out_bits := out_bits r;
     cleaning_buffer_counter := cleaning_buffer_counter r; counter := counter r;
     step_events_completed := step_events_completed r; acceleration_time := v;
     deceleration_time := deceleration_time r; acc_step_rate := acc_step_rate r;
     step_loops := step_loops r; step_loops_nominal := step_loops_nominal r;
     OCR1A_nominal := OCR1A_nominal r; OCR1A := OCR1A r;
     endstops_trigsteps := endstops_trigsteps r;
     endstop_hit_bits := endstop_hit_bits r; old_endstop_bits := old_endstop_bits r;
     check_endstops := check_endstops r; count_position := count_position r;
     count_direction := count_direction r; performing_homing := performing_homing r |}.

Definition with_deceleration_time (r : stepper_state) (v : Z) : stepper_state :=
  {| current_block := current_block r; out_bits := out_bits r;
     cleaning_buffer_counter := cleaning_buffer_counter r; counter := counter r;
     step_events_completed := step_events_completed r;
     acceleration_time := acceleration_time r; deceleration_time := v;
     acc_step_rate := acc_step_rate r; step_loops := step_loops r;
     step_loops_nominal := step_loops_nominal r; OCR1A_nominal := OCR1A_nominal r;
     OCR1A := OCR1A r; endstops_trigsteps := endstops_trigsteps r;
     endstop_hit_bits := endstop_hit_bits r; old_endstop_bits := old_endstop_bits r;
     check_endstops := check_endstops r; count_position := count_position r;
     count_direction := count_direction r; performing_homing := performing_homing r |}.

Definition with_acc_step_rate (r : stepper_state) (v : Z) : stepper_state :=
  {| current_block := current_block r; out_bits := out_bits r;
     cleaning_buffer_counter := cleaning_buffer_counter r; counter := counter r;
     step_events_completed := step_events_completed r;
     acceleration_time := acceleration_time r;
     deceleration_time := deceleration_time r; acc_step_rate := v;
     step_loops := step_loops r; step_loops_nominal := step_loops_nominal r;
     OCR1A_nominal := OCR1A_nominal r; OCR1A := OCR1A r;
     endstops_trigsteps := endstops_trigsteps r;
     endstop_hit_bits := endstop_hit_bits r; old_endstop_bits := old_endstop_bits r;
     check_endstops := check_endstops r; count_position := count_position r;
     count_direction := count_direction r; performing_homing := performing_homing r |}.

Definition with_step_loops (r : stepper_state) (v : Z) : stepper_state :=
  {| current_block := current_block r; out_bits := out_bits r;
     cleaning_buffer_counter := cleaning_buffer_counter r; counter := counter r;
     step_events_completed := step_events_completed r;
     acceleration_time := acceleration_time r;
     deceleration_time := deceleration_time r; acc_step_rate := acc_step_rate r;
     step_loops := v; step_loops_nominal := step_loops_nominal r;
     OCR1A_nominal := OCR1A_nominal r; OCR1A := OCR1A r;
     endstops_trigsteps := endstops_trigsteps r;
     endstop_hit_bits := endstop_hit_bits r; old_endstop_bits := old_endstop_bits r;
     check_endstops := check_endstops r; count_position := count_position r;
     count_direction := count_direction r; performing_homing := performing_homing r |}.

Definition with_step_loops_nominal (r : stepper_state) (v : Z) : stepper_state :=
  {| current_block := current_block r; out_bits := out_bits r;
     cleaning_buffer_counter := cleaning_buffer_counter r; counter := counter r;
     step_events_completed := step_events_completed r;
     acceleration_time := acceleration_time r;
     deceleration_time := deceleration_time r; acc_step_rate := acc_step_rate r;
     step_loops := step_loops r; step_loops_nominal := v;
     OCR1A_nominal := OCR1A_nominal r; OCR1A := OCR1A r;
     endstops_trigsteps := endstops_trigsteps r;
     endstop_hit_bits := endstop_hit_bits r; old_endstop_bits := old_endstop_bits r;
     check_endstops := check_endstops r; count_position := count_position r;
     count_direction := count_direction r; performing_homing := performing_homing r |}.

Definition with_OCR1A_nominal (r : stepper_state) (v : Z) : stepper_state :=
  {| current_block := current_block r; out_bits := out_bits r;
     cleaning_buffer_counter := cleaning_buffer_counter r; counter := counter r;
     step_events_completed := step_events_completed r;
     acceleration_time := acceleration_time r;
     deceleration_time := deceleration_time r; acc_step_rate := acc_step_rate r;
     step_loops := step_loops r; step_loops_nominal := step_loops_nominal r;
     OCR1A_nominal := v; OCR1A := OCR1A r; endstops_trigsteps := endstops_trigsteps r;
     endstop_hit_bits := endstop_hit_bits r; old_endstop_bits := old_endstop_bits r;
     check_endstops := check_endstops r; count_position := count_position r;
     count_direction := count_direction r; performing_homing := performing_homing r |}.

Definition with_OCR1A (r : stepper_state) (v : Z) : stepper_state :=
  {| current_block := current_block r; out_bits := out_bits r;
     cleaning_buffer_counter := cleaning_buffer_counter r; counter := counter r;
     step_events_completed := step_events_completed r;
     acceleration_time := acceleration_time r;
     deceleration_time := deceleration_time r; acc_step_rate := acc_step_rate r;
     step_loops := step_loops r; step_loops_nominal := step_loops_nominal r;
     OCR1A_nominal := OCR1A_nominal r; OCR1A := v;
     endstops_trigsteps := endstops_trigsteps r;
     endstop_hit_bits := endstop_hit_bits r; old_endstop_bits := old_endstop_bits r;
     check_endstops := check_endstops r; count_position := count_position r;
     count_direction := count_direction r; performing_homing := performing_homing r |}.

Definition with_endstops_trigsteps (r : stepper_state) (v : axis_array Z) : stepper_state :=
  {| current_block := current_block r; out_bits := out_bits r;
     cleaning_buffer_counter := cleaning_buffer_counter r; counter := counter r;
     step_events_completed := step_events_completed r;
     acceleration_time := acceleration_time r;
     deceleration_time := deceleration_time r; acc_step_rate := acc_step_rate r;
     step_loops := step_loops r; step_loops_nominal := step_loops_nominal r;
     OCR1A_nominal := OCR1A_nominal r; OCR1A := OCR1A r; endstops_trigsteps := v;
     endstop_hit_bits := endstop_hit_bits r; old_endstop_bits := old_endstop_bits r;
     check_endstops := check_endstops r; count_position := count_position r;
     count_direction := count_direction r; performing_homing := performing_homing r |}.

Definition with_endstop_hit_bits (r : stepper_state) (v : Z) : stepper_state :=
  {| current_block := current_block r; out_bits := out_bits r;
     cleaning_buffer_counter := cleaning_buffer_counter r; counter := counter r;
     step_events_completed := step_events_completed r;
     acceleration_time := acceleration_time r;
     deceleration_time := deceleration_time r; acc_step_rate := acc_step_rate r;
     step_loops := step_loops r; step_loops_nominal := step_loops_nominal r;
     OCR1A_nominal := OCR1A_nominal r; OCR1A := OCR1A r;
     endstops_trigsteps := endstops_trigsteps r; endstop_hit_bits := v;
     old_endstop_bits := old_endstop_bits r; check_endstops := check_endstops r;
     count_position := count_position r; count_direction := count_direction r;
     performing_homing := performing_homing r |}.

Definition with_old_endstop_bits (r : stepper_state) (v : Z) : stepper_state :=
  {| current_block := current_block r; out_bits := out_bits r;
     cleaning_buffer_counter := cleaning_buffer_counter r; counter := counter r;
     step_events_completed := step_events_completed r;
     acceleration_time := acceleration_time r;
     deceleration_time := deceleration_time r; acc_step_rate := acc_step_rate r;
     step_loops := step_loops r; step_loops_nominal := step_loops_nominal r;
     OCR1A_nominal := OCR1A_nominal r; OCR1A := OCR1A r;
     endstops_trigsteps := endstops_trigsteps r;
     endstop_hit_bits := endstop_hit_bits r; old_endstop_bits := v;
     check_endstops := check_endstops r; count_position := count_position r;
     count_direction := count_direction r; performing_homing := performing_homing r |}.

Definition with_check_endstops (r : stepper_state) (v : bool) : stepper_state :=
  {| current_block := current_block r; out_bits := out_bits r;
     cleaning_buffer_counter := cleaning_buffer_counter r; counter := counter r;
     step_events_completed := step_events_completed r;
     acceleration_time := acceleration_time r;
     deceleration_time := deceleration_time r; acc_step_rate := acc_step_rate r;
     step_loops := step_loops r; step_loops_nominal := step_loops_nominal r;
     OCR1A_nominal := OCR1A_nominal r; OCR1A := OCR1A r;
     endstops_trigsteps := endstops_trigsteps r;
     endstop_hit_bits := endstop_hit_bits r; old_endstop_bits := old_endstop_bits r;
     check_endstops := v; count_position := count_position r;
     count_direction := count_direction r; performing_homing := performing_homing r |}.

Definition with_count_position (r : stepper_state) (v : axis_array Z) : stepper_state :=
  {| current_block := current_block r; out_bits := out_bits r;
     cleaning_buffer_counter := cleaning_buffer_counter r; counter := counter r;
     step_events_completed := step_events_completed r;
     acceleration_time := acceleration_time r;
     deceleration_time := deceleration_time r; acc_step_rate := acc_step_rate r;
     step_loops := step_loops r; step_loops_nominal := step_loops_nominal r;
     OCR1A_nominal := OCR1A_nominal r; OCR1A := OCR1A r;
     endstops_trigsteps := endstops_trigsteps r;
     endstop_hit_bits := endstop_hit_bits r; old_endstop_bits := old_endstop_bits r;
     check_endstops := check_endstops r; count_position := v;
     count_direction := count_direction r; performing_homing := performing_homing r |}.

Definition with_count_direction (r : stepper_state) (v : axis_array Z) : stepper_state :=
  {| current_block := current_block r; out_bits := out_bits r;
     cleaning_buffer_counter := cleaning_buffer_counter r; counter := counter r;
     step_events_completed := step_events_completed r;
     acceleration_time := acceleration_time r;
     deceleration_time := deceleration_time r; acc_step_rate := acc_step_rate r;
     step_loops := step_loops r; step_loops_nominal := step_loops_nominal r;
     OCR1A_nominal := OCR1A_nominal r; OCR1A := OCR1A r;
     endstops_trigsteps := endstops_trigsteps r;
     endstop_hit_bits := endstop_hit_bits r; old_endstop_bits := old_endstop_bits r;
     check_endstops := check_endstops r; count_position := count_position r;
     count_direction := v; performing_homing := performing_homing r |}.

Definition with_performing_homing (r : stepper_state) (v : bool) : stepper_state :=
  {| current_block := current_block r; out_bits := out_bits r;
     cleaning_buffer_counter := cleaning_buffer_counter r; counter := counter r;
     step_events_completed := step_events_completed r;
     acceleration_time := acceleration_time r;
     deceleration_time := deceleration_time r; acc_step_rate := acc_step_rate r;
     step_loops := step_loops r; step_loops_nominal := step_loops_nominal r;
     OCR1A_nominal := OCR1A_nominal r; OCR1A := OCR1A r;
     endstops_trigsteps := endstops_trigsteps r;
     endstop_hit_bits := endstop_hit_bits r; old_endstop_bits := old_endstop_bits r;
     check_endstops := check_endstops r; count_position := count_position r;
     count_direction := count_direction r; performing_homing := v |}.

Definition with_planner (m : machine) (p : planner_state) : machine :=
  {| planner := p; stepper := stepper m |}.

Definition with_stepper (m : machine) (s : stepper_state) : machine :=
  {| planner := planner m; stepper := s |}.

(** [block_buffer[i] = b]. *)
Definition upd_block (buf : Z -> block_t) (i : Z) (b : block_t) : Z -> block_t :=
  fun j => if Z.eqb i j then b else buf j.

(** ** The ring of blocks *)

(** [BLOCK_MOD(n)], the mask of the ring (the capacity is a power of two). *)
Definition BLOCK_MOD (cfg : config) (n : Z) : Z :=
  Z.land n (BLOCK_BUFFER_SIZE cfg - 1).

(** [int8_t next_block_index(int8_t block_index)] and [prev_block_index]:
    the argument is converted to [int8_t] at the call and the masked value
    at the return. *)
Definition next_block_index (cfg : config) (block_index : Z) : Z :=
  Int.int8 (BLOCK_MOD cfg (Int.int8 block_index + 1)).

Definition prev_block_index (cfg : config) (block_index : Z) : Z :=
  Int.int8 (BLOCK_MOD cfg (Int.int8 block_index - 1)).

(** ** stepper.cpp *)

Module Stepper.
Import Int.

(** Byte [k] of a multi-byte operand of the inline assembly (%A = 0, %B = 1, ...). *)
Definition byte_of (x k : Z) : Z := Z.land (Z.shiftr x (8 * k)) 255.

(** [MultiU16X8toH16(intRes, charIn1, intIn2)]: the two [mul]s, the add of the
    high byte of the low product, and the [lsr r0] whose carry (bit 0 of the
    low byte of the low product) is added last. *)
Definition MultiU16X8toH16 (charIn1 intIn2 : Z) : Z :=
  let c := byte_of charIn1 0 in
  let hi := c * byte_of intIn2 1 in
  let lo := c * byte_of intIn2 0 in
  uint16 (hi + Z.shiftr lo 8 + Z.land lo 1).

(** [MultiU24X32toH16(intRes, longIn1, longIn2)]: the partial products are
    summed in the 24-bit accumulator B0:A0:r27 (carries out of B0 are lost),
    [lsr r27] moves bit 0 of r27 into the carry, which is added to the 16-bit
    result, and the two products with byte D of [longIn2] are added last. *)
Definition MultiU24X32toH16 (longIn1 longIn2 : Z) : Z :=
  let a1 := byte_of longIn1 0 in
  let b1 := byte_of longIn1 1 in
  let c1 := byte_of longIn1 2 in
  let a2 := byte_of longIn2 0 in
  let b2 := byte_of longIn2 1 in
  let c2 := byte_of longIn2 2 in
  let d2 := byte_of longIn2 3 in
  let acc := (Z.shiftr (a1 * b2) 8
              + Z.shiftl (b1 * c2) 8
              + Z.shiftl (Z.land (c1 * c2) 255) 16
              + Z.shiftl (c1 * b2) 8
              + a1 * c2 + b1 * b2 + c1 * a2
              + Z.shiftr (b1 * a2) 8) mod 2 ^ 24 in
  uint16 (Z.shiftr acc 8 + Z.land acc 1
          + d2 * a1 + Z.shiftl (Z.land (d2 * b1) 255) 8).

Section WithConfig.
Context (cfg : config).

(** The first half of [calc_timer]: the clamp to [MAX_STEP_FREQUENCY] and the
    choice of the step-loop multiplier.  Returns the reduced [step_rate] and
    the new value of [step_loops]. *)
Definition calc_timer_step_loops (step_rate : Z) : Z * Z :=
  let step_rate :=
    if MAX_STEP_FREQUENCY cfg <? step_rate
    then uint16 (MAX_STEP_FREQUENCY cfg) else step_rate in
  if 2 * DOUBLE_STEP_FREQUENCY cfg <? step_rate then
    (Z.land (Z.shiftr step_rate 2) 16383, 4)
  else if DOUBLE_STEP_FREQUENCY cfg <? step_rate then
    (Z.land (Z.shiftr step_rate 1) 32767, 2)
  else (step_rate, 1).

(** The second half: the table lookup with interpolation and the floor at
    100 ticks. *)
Definition calc_timer_lookup (step_rate : Z) : Z :=
  let min_rate := F_CPU cfg / 500000 in
  let step_rate := if step_rate <? min_rate then uint16 min_rate else step_rate in
  let step_rate := uint16 (step_rate - min_rate) in
  let timer :=
    if 8 * 256 <=? step_rate then
      let row := uint8 (Z.shiftr step_rate 8) in
      let tmp_step_rate := Z.land step_rate 255 in
      let gain := uint16 (speed_lookuptable_fast cfg row 1) in
      let timer := MultiU16X8toH16 tmp_step_rate gain in
      uint16 (uint16 (speed_lookuptable_fast cfg row 0) - timer)
    else
      (* byte offset ((step_rate >> 1) & 0xfffc) into rows of four bytes *)
      let row := Z.land (Z.shiftr step_rate 1) 65532 / 4 in
      let timer := uint16 (speed_lookuptable_slow cfg row 0) in
      uint16 (timer - Z.shiftr (uint16 (uint16 (speed_lookuptable_slow cfg row 1)
                                        * uint8 (Z.land step_rate 7))) 3)
  in
  if timer <? 100 then 100 else timer.

(** [calc_timer(unsigned short step_rate)]: the argument is converted to 16
    bits at the call; the result is the timer period, and [step_loops] is
    assigned. *)
Definition calc_timer (step_rate : Z) (s : stepper_state) : Z * stepper_state :=
  let '(rate, loops) := calc_timer_step_loops (uint16 step_rate) in
  (calc_timer_lookup rate, with_step_loops s loops).

(** [step_rate] as [calc_timer] holds it after [NOMORE(step_rate,
    MAX_STEP_FREQUENCY)]. *)
Definition clamped_rate (step_rate : Z) : Z :=
  if MAX_STEP_FREQUENCY cfg <? uint16 step_rate
  then uint16 (MAX_STEP_FREQUENCY cfg) else uint16 step_rate.

(** [set_stepper_direction()] with [onlye = false]. *)
Definition SET_STEP_DIR (a : AxisEnum) (s : stepper_state) : stepper_state :=
  if TEST (out_bits s) (axis_index a)
  then with_count_direction s (aset (count_direction s) a (-1))
  else with_count_direction s (aset (count_direction s) a 1).

Definition set_stepper_direction (s : stepper_state) : stepper_state :=
  SET_STEP_DIR E_AXIS (SET_STEP_DIR Z_AXIS (SET_STEP_DIR Y_AXIS (SET_STEP_DIR X_AXIS s))).

Definition trapezoid_generator_reset (b : block_t) (s : stepper_state) : stepper_state :=
  let s :=
    if Z.eqb (direction_bits b) (out_bits s) then s
    else set_stepper_direction (with_out_bits s (direction_bits b)) in
  let s := with_deceleration_time s 0 in
  let '(t, s) := calc_timer (nominal_rate b) s in
  let s := with_OCR1A_nominal s t in
  let s := with_step_loops_nominal s (step_loops s) in
  let s := with_acc_step_rate s (uint16 (initial_rate b)) in
  let '(t, s) := calc_timer (acc_step_rate s) s in
  let s := with_acceleration_time s t in
  with_OCR1A s (acceleration_time s).


(** Inputs sampled by one run of the interrupt handler: the level of every
    endstop line, already compared with its [_ENDSTOP_INVERTING] constant
    ([READ(pin) != inverting]), and the two reads of the timer counter at the
    end of the handler: [TCNT1] is the value read in the comparison with
    [OCR1A], [TCNT1_reread] the value read for the period that is stored (the
    register is volatile and counts between the two reads). *)
Record isr_input := {
  endstop_read : EndstopEnum -> bool;
  TCNT1 : Z;
  TCNT1_reread : Z
}.

(** Width of [current_endstop_bits] and [old_endstop_bits]. *)
Definition endstop_bits_t (x : Z) : Z :=
  if Z_DUAL_ENDSTOPS cfg then uint16 x else uint8 x.

Definition SET_ENDSTOP_BIT (inp : isr_input) (e : EndstopEnum) (cur : Z) : Z :=
  endstop_bits_t (SET_BIT cur (endstop_bit e) (endstop_read inp e)).

Definition COPY_BIT (bits : Z) (from to : EndstopEnum) : Z :=
  endstop_bits_t (SET_BIT bits (endstop_bit to) (TEST bits (endstop_bit from))).

Definition TEST_ENDSTOP (cur : Z) (s : stepper_state) (e : EndstopEnum) : bool :=
  TEST cur (endstop_bit e) && TEST (old_endstop_bits s) (endstop_bit e).

(** [_ENDSTOP(AXIS, MIN)], the bit [_ENDSTOP_HIT(AXIS)] sets. *)
Definition axis_min (a : AxisEnum) : EndstopEnum :=
  match a with X_AXIS => X_MIN | Y_AXIS => Y_MIN | _ => Z_MIN end.

(** [UPDATE_ENDSTOP(AXIS, MINMAX)], on the pair of the local
    [current_endstop_bits] and the stepper state. *)
Definition UPDATE_ENDSTOP (inp : isr_input) (b : block_t) (a : AxisEnum)
    (e : EndstopEnum) (cs : Z * stepper_state) : Z * stepper_state :=
  let '(cur, s) := cs in
  let cur := SET_ENDSTOP_BIT inp e cur in
  if TEST_ENDSTOP cur s e && (0 <? steps b a) then
    let s := with_endstops_trigsteps s (aset (endstops_trigsteps s) a (count_position s a)) in
    let s := with_endstop_hit_bits s (uint8 (SBI (endstop_hit_bits s) (endstop_bit (axis_min a)))) in
    (cur, with_step_events_completed s (step_event_count b))
  else (cur, s).

(** The Z branch under Z_DUAL_ENDSTOPS, for the side [e] / [e2]. *)
Definition update_z_dual (inp : isr_input) (b : block_t) (e e2 : EndstopEnum)
    (cs : Z * stepper_state) : Z * stepper_state :=
  let '(cur, s) := cs in
  let cur := SET_ENDSTOP_BIT inp e cur in
  let cur := if HAS cfg e2 then SET_ENDSTOP_BIT inp e2 cur else COPY_BIT cur e e2 in
  let z_test := Z.lor (Z.b2z (TEST_ENDSTOP cur s e))
                      (Z.shiftl (Z.b2z (TEST_ENDSTOP cur s e2)) 1) in
  if negb (Z.eqb z_test 0) && (0 <? steps b Z_AXIS) then
    let s := with_endstops_trigsteps s
               (aset (endstops_trigsteps s) Z_AXIS (count_position s Z_AXIS)) in
    let s := with_endstop_hit_bits s (uint8 (SBI (endstop_hit_bits s) (endstop_bit Z_MIN))) in
    if negb (performing_homing s) || Z.eqb z_test 3
    then (cur, with_step_events_completed s (step_event_count b))
    else (cur, s)
  else (cur, s).

Definition update_endstops (inp : isr_input) (b : block_t) (s : stepper_state)
  : stepper_state :=
  let cs := (0, s) in
  let cs :=
    if TEST (out_bits s) (axis_index X_AXIS) then
      if HAS cfg X_MIN then UPDATE_ENDSTOP inp b X_AXIS X_MIN cs else cs
    else
      if HAS cfg X_MAX then UPDATE_ENDSTOP inp b X_AXIS X_MAX cs else cs in
  let cs :=
    if TEST (out_bits s) (axis_index Y_AXIS) then
      if HAS cfg Y_MIN then UPDATE_ENDSTOP inp b Y_AXIS Y_MIN cs else cs
    else
      if HAS cfg Y_MAX then UPDATE_ENDSTOP inp b Y_AXIS Y_MAX cs else cs in
  let cs :=
    if TEST (out_bits s) (axis_index Z_AXIS) then
      if HAS cfg Z_MIN then
        if Z_DUAL_ENDSTOPS cfg then update_z_dual inp b Z_MIN Z2_MIN cs
        else UPDATE_ENDSTOP inp b Z_AXIS Z_MIN cs
      else cs
    else
      if HAS cfg Z_MAX then
        if Z_DUAL_ENDSTOPS cfg then update_z_dual inp b Z_MAX Z2_MAX cs
        else UPDATE_ENDSTOP inp b Z_AXIS Z_MAX cs
      else cs in
  with_old_endstop_bits (snd cs) (fst cs).


Definition endstop_is_min (e : EndstopEnum) : bool :=
  match e with
  | X_MIN | Y_MIN | Z_MIN | Z_PROBE | Z2_MIN => true
  | _ => false
  end.

(** The second endstop of the same side of Z under Z_DUAL_ENDSTOPS. *)
Definition z2_of (e : EndstopEnum) : EndstopEnum :=
  if endstop_is_min e then Z2_MIN else Z2_MAX.



Definition primary (e : EndstopEnum) : bool :=
  match e with
  | X_MIN | X_MAX | Y_MIN | Y_MAX | Z_MIN | Z_MAX => true
  | _ => false
  end.

(** Modelled from the spec: [plan_get_current_block] is declared in planner.h,
    which is not among the files.  The ring is empty iff head equals tail; the
    block to execute is the one at tail. *)
Definition plan_get_current_block (p : planner_state) : option Z :=
  if Z.eqb (block_buffer_head p) (block_buffer_tail p) then None
  else Some (block_buffer_tail p).

(** Modelled from the spec: [plan_discard_current_block] is declared in
    planner.h.  Retiring a block advances tail by one slot, unless the ring
    is empty. *)
Definition plan_discard_current_block (p : planner_state) : planner_state :=
  if Z.eqb (block_buffer_head p) (block_buffer_tail p) then p
  else with_block_buffer_tail p (BLOCK_MOD cfg (block_buffer_tail p + 1)).

(** [STEP_START(axis, AXIS)] and [STEP_END(axis, AXIS)] (the pin writes have no
    effect on the modelled state). *)
Definition STEP_START (b : block_t) (a : AxisEnum) (s : stepper_state) : stepper_state :=
  with_counter s (aset (counter s) a (int32 (counter s a + steps b a))).

Definition STEP_END (b : block_t) (a : AxisEnum) (s : stepper_state) : stepper_state :=
  if 0 <? counter s a then
    let s := with_counter s (aset (counter s) a (int32 (counter s a - step_event_count b))) in
    with_count_position s
      (aset (count_position s) a (int32 (count_position s a + count_direction s a)))
  else s.

(** One pass of the body of the step loop, up to and including
    [step_events_completed++]. *)
Definition step_once (b : block_t) (s : stepper_state) : stepper_state :=
  let s := STEP_START b X_AXIS s in
  let s := STEP_START b Y_AXIS s in
  let s := STEP_START b Z_AXIS s in
  let s := STEP_START b E_AXIS s in
  let s := STEP_END b X_AXIS s in
  let s := STEP_END b Y_AXIS s in
  let s := STEP_END b Z_AXIS s in
  let s := STEP_END b E_AXIS s in
  with_step_events_completed s (uint32 (step_events_completed s + 1)).

(** [for (uint8_t i = 0; i < step_loops; i++) { ...; if (step_events_completed
    >= step_event_count) break; }] with [n] passes left. *)
Fixpoint step_loop (n : nat) (b : block_t) (s : stepper_state) : stepper_state :=
  match n with
  | O => s
  | S n' =>
      let s := step_once b s in
      if step_event_count b <=? step_events_completed s then s
      else step_loop n' b s
  end.

(** "Calculate new timer value": the three phases of the trapezoid. *)
Definition next_timer (b : block_t) (s : stepper_state) : stepper_state :=
  if step_events_completed s <=? uint32 (accelerate_until b) then
    let s := with_acc_step_rate s
               (MultiU24X32toH16 (acceleration_time s) (acceleration_rate b)) in
    let s := with_acc_step_rate s (uint16 (acc_step_rate s + initial_rate b)) in
    let s := if nominal_rate b <? acc_step_rate s
             then with_acc_step_rate s (uint16 (nominal_rate b)) else s in
    let '(timer, s) := calc_timer (acc_step_rate s) s in
    let s := with_OCR1A s timer in
    with_acceleration_time s (int32 (acceleration_time s + timer))
  else if uint32 (decelerate_after b) <? step_events_completed s then
    let step_rate := MultiU24X32toH16 (deceleration_time s) (acceleration_rate b) in
    let step_rate :=
      if step_rate <=? acc_step_rate s then
        let step_rate := uint16 (acc_step_rate s - step_rate) in
        if step_rate <? final_rate b then uint16 (final_rate b) else step_rate
      else uint16 (final_rate b) in
    let '(timer, s) := calc_timer step_rate s in
    let s := with_OCR1A s timer in
    with_deceleration_time s (int32 (deceleration_time s + timer))
  else
    let s := with_OCR1A s (OCR1A_nominal s) in
    with_step_loops s (step_loops_nominal s).

(** [ISR(TIMER1_COMPA_vect)], in its two halves.  First half: "If there is
    no current block, attempt to pop one from the buffer". *)
Definition ISR_latch (p : planner_state) (s : stepper_state)
  : planner_state * stepper_state :=
  match current_block s with
  | Some _ => (p, s)
  | None =>
      match plan_get_current_block p with
      | Some i =>
          let s := with_current_block s (Some i) in
          let p := with_block_buffer p
                     (upd_block (block_buffer p) i (with_busy (block_buffer p i) true)) in
          let b := block_buffer p i in
          let s := trapezoid_generator_reset b s in
          (* Initialize Bresenham counters to 1/2 the ceiling *)
          let new_count := int32 (uint32 (- Z.shiftr (step_event_count b) 1)) in
          let s := with_counter s (fun _ => new_count) in
          (p, with_step_events_completed s 0)
      | None => (p, with_OCR1A s 2000)
      end
  end.

(** Second half: [if (current_block != NULL) { ... }]. *)
Definition ISR_execute (inp : isr_input) (p : planner_state) (s : stepper_state)
  : machine :=
  match current_block s with
  | None => {| planner := p; stepper := s |}
  | Some i =>
      let b := block_buffer p i in
      let s := if check_endstops s then update_endstops inp b s else s in
      let s := step_loop (Z.to_nat (step_loops s)) b s in
      let s := next_timer b s in
      let s := with_OCR1A s
                 (if OCR1A s <? uint16 (TCNT1 inp + 16)
                  then uint16 (TCNT1_reread inp + 16) else OCR1A s) in
      (* If current block is finished, reset pointer *)
      if step_event_count b <=? step_events_completed s then
        {| planner := plan_discard_current_block p;
           stepper := with_current_block s None |}
      else {| planner := p; stepper := s |}
  end.

Definition ISR (inp : isr_input) (m : machine) : machine :=
  let s := stepper m in
  let p := planner m in
  if negb (Z.eqb (cleaning_buffer_counter s) 0) then
    let s := with_current_block s None in
    let p := plan_discard_current_block p in
    let s := with_cleaning_buffer_counter s (uint16 (cleaning_buffer_counter s - 1)) in
    {| planner := p; stepper := with_OCR1A s 200 |}
  else
    let '(p, s) := ISR_latch p s in
    ISR_execute inp p s.

(** [st_init()], as far as the modelled state goes: endstops are enabled and
    the direction of every axis is set from [out_bits]. *)
Definition st_init (s : stepper_state) : stepper_state :=
  set_stepper_direction (with_check_endstops s true).

(** The direction of every axis agrees with [out_bits]: what
    [set_stepper_direction] establishes, first in [st_init]. *)
Definition dir_consistent (s : stepper_state) : Prop :=
  forall a, count_direction s a = if TEST (out_bits s) (axis_index a) then -1 else 1.

(** No endstop line reads active. *)
Definition quiet (inp : isr_input) : Prop := forall e, endstop_read inp e = false.

(** The timer has not gone back between the two reads of [TCNT1]: the value
    stored is not below the value compared (no compare match or overflow
    of the counter fell between them). *)
Definition timer_not_behind (inp : isr_input) : Prop :=
  uint16 (TCNT1 inp + 16) <= uint16 (TCNT1_reread inp + 16).

(** The endstop poll of the run of the handler on [inp] ends a block early:
    endstop checking is on and [update_endstops] overwrites
    [step_events_completed] of the block that is latched, or that this run
    latches. *)
Definition endstop_ends_block (inp : isr_input) (m : machine) : bool :=
  let '(p, s) := ISR_latch (planner m) (stepper m) in
  match current_block s with
  | Some i =>
      check_endstops s
      && negb (step_events_completed (update_endstops inp (block_buffer p i) s)
               =? step_events_completed s)
  | None => false
  end.

(** The signed step count of axis [a] in block [b]: negative when the
    direction bit of the axis is set. *)
Definition signed_steps (b : block_t) (a : AxisEnum) : Z :=
  if TEST (direction_bits b) (axis_index a) then - steps b a else steps b a.

(** The handler run [n] times on successive inputs. *)
Fixpoint run_ISR (inps : list isr_input) (m : machine) : machine :=
  match inps with
  | [] => m
  | inp :: rest => run_ISR rest (ISR inp m)
  end.

End WithConfig.
End Stepper.

(** ** planner.cpp *)

Module Planner.
Import Int.

Definition estimate_acceleration_distance (initial_rate target_rate acceleration : float)
  : float :=
  if F32.eqb acceleration (F32.of_Z 0) then F32.of_Z 0
  else F32.div (F32.sub (F32.mul target_rate target_rate)
                        (F32.mul initial_rate initial_rate))
               (F32.mul acceleration (F32.of_Z 2)).

Definition intersection_distance (initial_rate final_rate acceleration distance : float)
  : float :=
  if F32.eqb acceleration (F32.of_Z 0) then F32.of_Z 0
  else F32.div
         (F32.add (F32.sub (F32.mul (F32.mul acceleration (F32.of_Z 2)) distance)
                           (F32.mul initial_rate initial_rate))
                  (F32.mul final_rate final_rate))
         (F32.mul acceleration (F32.of_Z 4)).

(** [NOLESS(v, n)] on integers. *)
Definition NOLESS (v n : Z) : Z := if v <? n then n else v.

(** The values [calculate_trapezoid_for_block] computes before it enters the
    critical section: [initial_rate], [final_rate], [accelerate_steps] and
    [plateau_steps]. *)
Record trapezoid := {
  tz_initial_rate : Z;
  tz_final_rate : Z;
  tz_accelerate_steps : Z;
  tz_plateau_steps : Z
}.

Definition solve_trapezoid (block : block_t) (entry_factor exit_factor : float)
  : option trapezoid :=
  initial_rate <- F32.to_ulong (F32.ceil (F32.mul (F32.of_Z (nominal_rate block)) entry_factor)) ;;
  final_rate <- F32.to_ulong (F32.ceil (F32.mul (F32.of_Z (nominal_rate block)) exit_factor)) ;;
  let initial_rate := NOLESS initial_rate 120 in
  let final_rate := NOLESS final_rate 120 in
  let acceleration := int32 (acceleration_st block) in
  accelerate_steps <- F32.to_long (F32.ceil
      (estimate_acceleration_distance (F32.of_Z initial_rate)
         (F32.of_Z (nominal_rate block)) (F32.of_Z acceleration))) ;;
  decelerate_steps <- F32.to_long (F32.floor
      (estimate_acceleration_distance (F32.of_Z (nominal_rate block))
         (F32.of_Z final_rate) (F32.of_Z (int32 (- acceleration))))) ;;
  let plateau_steps :=
    int32 (uint32 (uint32 (step_event_count block - accelerate_steps) - decelerate_steps)) in
  if plateau_steps <? 0 then
    accelerate_steps <- F32.to_long (F32.ceil
        (intersection_distance (F32.of_Z initial_rate) (F32.of_Z final_rate)
           (F32.of_Z acceleration) (F32.of_Z (step_event_count block)))) ;;
    let accelerate_steps := if 0 <? accelerate_steps then accelerate_steps else 0 in
    let accelerate_steps :=
      int32 (if uint32 accelerate_steps <? step_event_count block
             then uint32 accelerate_steps else step_event_count block) in
    Some {| tz_initial_rate := initial_rate; tz_final_rate := final_rate;
            tz_accelerate_steps := accelerate_steps; tz_plateau_steps := 0 |}
  else
    Some {| tz_initial_rate := initial_rate; tz_final_rate := final_rate;
            tz_accelerate_steps := accelerate_steps;
            tz_plateau_steps := plateau_steps |}.

Definition calculate_trapezoid_for_block (block : block_t)
    (entry_factor exit_factor : float) : option block_t :=
  t <- solve_trapezoid block entry_factor exit_factor ;;
  if negb (busy block) then
    let block := with_accelerate_until block (tz_accelerate_steps t) in
    let block := with_decelerate_after block
                   (int32 (tz_accelerate_steps t + tz_plateau_steps t)) in
    let block := with_initial_rate block (tz_initial_rate t) in
    Some (with_final_rate block (tz_final_rate t))
  else Some block.

Definition max_allowable_speed (acceleration target_velocity distance : float) : float :=
  F32.sqrt (F32.sub (F32.mul target_velocity target_velocity)
                    (F32.mul (F32.mul (F32.of_Z 2) acceleration) distance)).

Section WithConfig.
Context (cfg : config).

(** Block pointers are slots of [block_buffer]; [None] is [NULL]. *)
Definition planner_reverse_pass_kernel (buf : Z -> block_t)
    (previous current next : option Z) : Z -> block_t :=
  match current with
  | None => buf
  | Some c =>
      match next with
      | None => buf
      | Some n =>
          let cur := buf c in
          let max_entry_speed := max_entry_speed cur in
          if F32.neb (entry_speed cur) max_entry_speed then
            let cur :=
              if negb (nominal_length_flag cur)
                 && F32.gtb max_entry_speed (entry_speed (buf n))
              then with_entry_speed cur
                     (F32.min max_entry_speed
                        (max_allowable_speed (F32.neg (Block.acceleration cur))
                           (entry_speed (buf n)) (millimeters cur)))
              else with_entry_speed cur max_entry_speed in
            upd_block buf c (with_recalculate_flag cur true)
          else buf
      end
  end.

(** The loop of [planner_reverse_pass]; [fuel] bounds the number of passes by
    the capacity of the ring.  [blk0] and [blk1] are [block[0]] and
    [block[1]] on entry to the pass. *)
Fixpoint reverse_loop (fuel : nat) (tail block_index : Z) (blk0 blk1 : option Z)
    (buf : Z -> block_t) : Z -> block_t :=
  match fuel with
  | O => buf
  | S fuel' =>
      if Z.eqb block_index tail then buf
      else
        let block_index := uint8 (prev_block_index cfg block_index) in
        let blk2 := blk1 in
        let blk1 := blk0 in
        let blk0 := Some block_index in
        let buf := planner_reverse_pass_kernel buf blk0 blk1 blk2 in
        reverse_loop fuel' tail block_index blk0 blk1 buf
  end.

Definition planner_reverse_pass (p : planner_state) : planner_state :=
  let tail := block_buffer_tail p in
  if 3 <? BLOCK_MOD cfg (block_buffer_head p - tail + BLOCK_BUFFER_SIZE cfg) then
    let block_index := uint8 (BLOCK_MOD cfg (block_buffer_head p - 3)) in
    with_block_buffer p
      (reverse_loop (Z.to_nat (BLOCK_BUFFER_SIZE cfg)) tail block_index None None
         (block_buffer p))
  else p.

Definition planner_forward_pass_kernel (buf : Z -> block_t)
    (previous current next : option Z) : Z -> block_t :=
  match previous, current with
  | Some pv, Some c =>
      let prev := buf pv in
      let cur := buf c in
      if negb (nominal_length_flag prev) then
        if F32.ltb (entry_speed prev) (entry_speed cur) then
          let entry_speed' :=
            F32.min (entry_speed cur)
              (max_allowable_speed (F32.neg (Block.acceleration prev))
                 (entry_speed prev) (millimeters prev)) in
          if F32.neb (entry_speed cur) entry_speed' then
            upd_block buf c (with_recalculate_flag (with_entry_speed cur entry_speed') true)
          else buf
        else buf
      else buf
  | _, _ => buf
  end.

Fixpoint forward_loop (fuel : nat) (head block_index : Z) (blk1 blk2 : option Z)
    (buf : Z -> block_t) : (Z -> block_t) * option Z * option Z :=
  match fuel with
  | O => (buf, blk1, blk2)
  | S fuel' =>
      if Z.eqb block_index head then (buf, blk1, blk2)
      else
        let blk0 := blk1 in
        let blk1 := blk2 in
        let blk2 := Some block_index in
        let buf := planner_forward_pass_kernel buf blk0 blk1 blk2 in
        forward_loop fuel' head (uint8 (next_block_index cfg block_index)) blk1 blk2 buf
  end.

Definition planner_forward_pass (p : planner_state) : planner_state :=
  let '(buf, blk1, blk2) :=
    forward_loop (Z.to_nat (BLOCK_BUFFER_SIZE cfg)) (block_buffer_head p)
      (block_buffer_tail p) None None (block_buffer p) in
  with_block_buffer p (planner_forward_pass_kernel buf blk1 blk2 None).

(** The loop of [planner_recalculate_trapezoids].  Its [block_index] is an
    [int8_t] compared with the [unsigned char] head; an index outside
    [block_buffer] has no defined behaviour ([None]), and so has a loop that
    has not met the head when [fuel] runs out: the indices it visits are
    distinct slots of the ring, so one pass more than the capacity is
    enough for every loop that ends. *)
Fixpoint trapezoids_loop (fuel : nat) (head block_index : Z) (next : option Z)
    (buf : Z -> block_t) : option ((Z -> block_t) * option Z) :=
  match fuel with
  | O => None
  | S fuel' =>
      if Z.eqb block_index head then Some (buf, next)
      else if negb ((0 <=? block_index) && (block_index <? BLOCK_BUFFER_SIZE cfg))
      then None
      else
        let current := next in
        let next := Some block_index in
        buf <- match current with
               | Some c =>
                   let cur := buf c in
                   if recalculate_flag cur || recalculate_flag (buf block_index) then
                     let nom := nominal_speed cur in
                     cur <- calculate_trapezoid_for_block cur
                              (F32.div (entry_speed cur) nom)
                              (F32.div (entry_speed (buf block_index)) nom) ;;
                     Some (upd_block buf c (with_recalculate_flag cur false))
                   else Some buf
               | None => Some buf
               end ;;
        trapezoids_loop fuel' head (next_block_index cfg block_index) next buf
  end.

Definition planner_recalculate_trapezoids (p : planner_state) : option planner_state :=
  r <- trapezoids_loop (S (Z.to_nat (BLOCK_BUFFER_SIZE cfg))) (block_buffer_head p)
         (int8 (block_buffer_tail p)) None (block_buffer p) ;;
  let '(buf, next) := r in
  match next with
  | Some n =>
      let nx := buf n in
      let nom := nominal_speed nx in
      nx <- calculate_trapezoid_for_block nx (F32.div (entry_speed nx) nom)
              (F32.div (MINIMUM_PLANNER_SPEED cfg) nom) ;;
      Some (with_block_buffer p (upd_block buf n (with_recalculate_flag nx false)))
  | None => Some (with_block_buffer p buf)
  end.

Definition planner_recalculate (p : planner_state) : option planner_state :=
  planner_recalculate_trapezoids (planner_forward_pass (planner_reverse_pass p)).

(** [plan_init()]. *)
Definition plan_init (p : planner_state) : planner_state :=
  let p := with_block_buffer_head p 0 in
  let p := with_block_buffer_tail p 0 in
  let p := with_position p (fun _ => 0) in
  let p := with_previous_speed p (fun _ => F32.of_Z 0) in
  with_previous_nominal_speed p (F32.of_Z 0).

(** Modelled from the spec: [movesplanned] is declared in planner.h, which is
    not among the files; it returns the number of blocks in the ring, the
    count [planner_reverse_pass] computes for "moves queued". *)
Definition movesplanned (p : planner_state) : Z :=
  BLOCK_MOD cfg (block_buffer_head p - block_buffer_tail p + BLOCK_BUFFER_SIZE cfg).

(** How a call of [plan_buffer_line] ends. *)
Inductive outcome :=
  | Appended (p : planner_state)    (* ran to the end of the function *)
  | Discarded (p : planner_state)   (* [return] at the zero-length check *)
  | Waiting                         (* the ring is full: [idle()] is called in a loop *)
  | Undefined.                      (* a conversion to an integer type out of its range *)

Definition E_index (extruder : Z) : Z := axis_index E_AXIS + extruder.

(** [NOLESS(v, n)] on floats. *)
Definition NOLESS_f (v n : float) : float := if F32.ltb v n then n else v.

Definition labs (x : Z) : Z := int32 (Z.abs x).

(** [max(a,b)] of the Arduino core on [long] values. *)
Definition max_l (a b : Z) : Z := if b <? a then a else b.

Section WithSettings.
Context (g : settings).

(** The first part of [plan_buffer_line], up to the zero-length check: the
    target in steps, the rescaled E position on an extruder change, the step
    deltas and the block prepared in the slot at the head of the ring. *)
Record prepared := {
  pr_planner : planner_state;
  pr_target : axis_array Z;
  pr_delta : axis_array Z;          (* dx, dy, dz, de *)
  pr_block : block_t
}.

Definition prepare_block (p : planner_state) (x y z e : float) (extruder : Z)
  : option prepared :=
  tx <- F32.lround (F32.mul x (axis_steps_per_unit g (axis_index X_AXIS))) ;;
  ty <- F32.lround (F32.mul y (axis_steps_per_unit g (axis_index Y_AXIS))) ;;
  tz <- F32.lround (F32.mul z (axis_steps_per_unit g (axis_index Z_AXIS))) ;;
  te <- F32.lround (F32.mul e (axis_steps_per_unit g (E_index extruder))) ;;
  let target : axis_array Z :=
    fun a => match a with X_AXIS => tx | Y_AXIS => ty | Z_AXIS => tz | E_AXIS => te end in
  p <- (if (1 <? EXTRUDERS cfg)
           && negb (Z.eqb (last_extruder p) extruder)
           && F32.neb (axis_steps_per_unit g (E_index extruder))
                      (axis_steps_per_unit g (E_index (last_extruder p)))
        then
          let factor := F32.div (axis_steps_per_unit g (E_index extruder))
                                (axis_steps_per_unit g (E_index (last_extruder p))) in
          pe <- F32.lround (F32.mul (F32.of_Z (position p E_AXIS)) factor) ;;
          Some (with_position p (aset (position p) E_AXIS pe))
        else Some p) ;;
  let delta : axis_array Z := fun a => int32 (target a - position p a) in
  let block := block_buffer p (block_buffer_head p) in
  let block := with_busy block false in
  let block := with_steps block (aset (steps block) X_AXIS (labs (delta X_AXIS))) in
  let block := with_steps block (aset (steps block) Y_AXIS (labs (delta Y_AXIS))) in
  let block := with_steps block (aset (steps block) Z_AXIS (labs (delta Z_AXIS))) in
  let se := labs (delta E_AXIS) in
  se <- F32.to_long (F32.mul (F32.of_Z se) (volumetric_multiplier g extruder)) ;;
  let se := int32 (se * extruder_multiplier g extruder) in
  let se := Z.quot se 100 in
  let block := with_steps block (aset (steps block) E_AXIS se) in
  let block := with_step_event_count block
    (uint32 (max_l (steps block X_AXIS)
               (max_l (steps block Y_AXIS)
                  (max_l (steps block Z_AXIS) (steps block E_AXIS))))) in
  Some {| pr_planner := p; pr_target := target; pr_delta := delta; pr_block := block |}.

(** Direction bits of the block (Cartesian mechanics). *)
Definition direction_bits_of (delta : axis_array Z) : Z :=
  let dirb := 0 in
  let dirb := if delta X_AXIS <? 0 then uint8 (SBI dirb (axis_index X_AXIS)) else dirb in
  let dirb := if delta Y_AXIS <? 0 then uint8 (SBI dirb (axis_index Y_AXIS)) else dirb in
  let dirb := if delta Z_AXIS <? 0 then uint8 (SBI dirb (axis_index Z_AXIS)) else dirb in
  if delta E_AXIS <? 0 then uint8 (SBI dirb (axis_index E_AXIS)) else dirb.

(** [delta_mm[]]. *)
Definition delta_mm_of (delta : axis_array Z) (extruder : Z) : axis_array float :=
  fun a =>
    match a with
    | E_AXIS =>
        F32.div
          (F32.mul
             (F32.mul (F32.div (F32.of_Z (delta E_AXIS))
                               (axis_steps_per_unit g (E_index extruder)))
                      (volumetric_multiplier g extruder))
             (F32.of_Z (extruder_multiplier g extruder)))
          (F32.of_Z 100)
    | _ => F32.div (F32.of_Z (delta a)) (axis_steps_per_unit g (axis_index a))
    end.

(** [block->millimeters]. *)
Definition millimeters_of (block : block_t) (delta_mm : axis_array float) : float :=
  if (steps block X_AXIS <=? DROP_SEGMENTS cfg)
     && (steps block Y_AXIS <=? DROP_SEGMENTS cfg)
     && (steps block Z_AXIS <=? DROP_SEGMENTS cfg)
  then F32.fabs (delta_mm E_AXIS)
  else F32.sqrt (F32.add (F32.add (F32.square (delta_mm X_AXIS))
                                  (F32.square (delta_mm Y_AXIS)))
                         (F32.square (delta_mm Z_AXIS))).

(** The SLOWDOWN block: [inverse_second] after the buffer-draining
    correction. *)
Definition slowdown (moves_queued : Z) (inverse_second : float) : option float :=
  if SLOWDOWN cfg then
    let mq := (1 <? moves_queued) && (moves_queued <? BLOCK_BUFFER_SIZE cfg / 2) in
    segment_time <- F32.lround (F32.div (F32.of_Z 1000000) inverse_second) ;;
    let segment_time := uint32 segment_time in
    if mq && (segment_time <? minsegmenttime g) then
      extra <- F32.lround
                 (F32.of_Z (uint32 (2 * uint32 (minsegmenttime g - segment_time))
                            / moves_queued)) ;;
      Some (F32.div (F32.of_Z 1000000) (F32.of_Z (uint32 (segment_time + extra))))
    else Some inverse_second
  else Some inverse_second.

(** One pass of the loop that computes [current_speed[i]] and lowers
    [speed_factor]. *)
Definition speed_factor_step (delta_mm : axis_array float) (inverse_second : float)
    (speed_factor : float) (i : AxisEnum) : float :=
  let cs := F32.fabs (F32.mul (delta_mm i) inverse_second) in
  let mf := max_feedrate g (axis_index i) in
  if F32.gtb cs mf then F32.min speed_factor (F32.div mf cs) else speed_factor.

Definition speed_factor_of (delta_mm : axis_array float) (inverse_second : float) : float :=
  fold_left (speed_factor_step delta_mm inverse_second)
            [X_AXIS; Y_AXIS; Z_AXIS; E_AXIS] (F32.of_Z 1).

(** "Compute and limit the acceleration rate for the trapezoid generator":
    [acc_st] after the per-axis limits. *)
Definition limit_acceleration (block : block_t) (extruder : Z) (acc_st : Z) : Z :=
  let sec := F32.of_Z (step_event_count block) in
  let lim (acc_st bs axis_steps : Z) : Z :=
    if F32.gtb (F32.div (F32.mul (F32.of_Z acc_st) (F32.of_Z bs)) sec)
               (F32.of_Z axis_steps)
    then axis_steps else acc_st in
  let acc_st := lim acc_st (steps block X_AXIS)
                  (axis_steps_per_sqr_second g (axis_index X_AXIS)) in
  let acc_st := lim acc_st (steps block Y_AXIS)
                  (axis_steps_per_sqr_second g (axis_index Y_AXIS)) in
  let acc_st := lim acc_st (steps block Z_AXIS)
                  (axis_steps_per_sqr_second g (axis_index Z_AXIS)) in
  lim acc_st (steps block E_AXIS) (axis_steps_per_sqr_second g (E_index extruder)).

(** The junction speeds: [(vmax_junction, safe_speed)]. *)
Definition junction_speeds (p : planner_state) (moves_queued : Z) (extruder : Z)
    (current_speed : axis_array float) (nominal_speed : float) : float * float :=
  let vmax_junction := F32.div (max_xy_jerk g) (F32.of_Z 2) in
  let vmax_junction_factor := F32.of_Z 1 in
  let mz2 := F32.div (max_z_jerk g) (F32.of_Z 2) in
  let me2 := F32.div (max_e_jerk g extruder) (F32.of_Z 2) in
  let csz := current_speed Z_AXIS in
  let cse := current_speed E_AXIS in
  let vmax_junction :=
    if F32.gtb (F32.fabs csz) mz2 then F32.min vmax_junction mz2 else vmax_junction in
  let vmax_junction :=
    if F32.gtb (F32.fabs cse) me2 then F32.min vmax_junction me2 else vmax_junction in
  let vmax_junction := F32.min vmax_junction nominal_speed in
  let safe_speed := vmax_junction in
  if (1 <? moves_queued)
     && F32.gtb (previous_nominal_speed p) (F32.div (F32.of_Z 1) (F32.of_Z 10000))
  then
    let dsx := F32.sub (current_speed X_AXIS) (previous_speed p X_AXIS) in
    let dsy := F32.sub (current_speed Y_AXIS) (previous_speed p Y_AXIS) in
    let dsz := F32.fabs (F32.sub csz (previous_speed p Z_AXIS)) in
    let dse := F32.fabs (F32.sub cse (previous_speed p E_AXIS)) in
    let jerk := F32.sqrt (F32.add (F32.mul dsx dsx) (F32.mul dsy dsy)) in
    let vmax_junction := nominal_speed in
    let vmax_junction_factor :=
      if F32.gtb jerk (max_xy_jerk g) then F32.div (max_xy_jerk g) jerk
      else vmax_junction_factor in
    let vmax_junction_factor :=
      if F32.gtb dsz (max_z_jerk g)
      then F32.min vmax_junction_factor (F32.div (max_z_jerk g) dsz)
      else vmax_junction_factor in
    let vmax_junction_factor :=
      if F32.gtb dse (max_e_jerk g extruder)
      then F32.min vmax_junction_factor (F32.div (max_e_jerk g extruder) dse)
      else vmax_junction_factor in
    (F32.min (previous_nominal_speed p) (F32.mul vmax_junction vmax_junction_factor),
     safe_speed)
  else (vmax_junction, safe_speed).

(** The second part of [plan_buffer_line], from the zero-length check to the
    end: the block is completed, the head of the ring advances, [position]
    takes the target and the plan is recalculated. *)
Definition complete_block (pr : prepared) (feed_rate : float) (extruder driver : Z)
    (next_buffer_head : Z) : option planner_state :=
  let p := pr_planner pr in
  let delta := pr_delta pr in
  let block := pr_block pr in
  let block := with_fan_speed block (fanSpeed g) in
  let block := with_direction_bits block (direction_bits_of delta) in
  let block := with_active_driver block driver in
  let feed_rate :=
    if negb (Z.eqb (steps block E_AXIS) 0)
    then NOLESS_f feed_rate (minimumfeedrate g)
    else NOLESS_f feed_rate (mintravelfeedrate g) in
  let delta_mm := delta_mm_of delta extruder in
  let block := with_millimeters block (millimeters_of block delta_mm) in
  let inverse_millimeters := F32.div (F32.of_Z 1) (millimeters block) in
  let inverse_second := F32.mul feed_rate inverse_millimeters in
  let moves_queued := movesplanned p in
  inverse_second <- slowdown moves_queued inverse_second ;;
  let block := with_nominal_speed block (F32.mul (millimeters block) inverse_second) in
  nominal_rate <- F32.to_ulong
      (F32.ceil (F32.mul (F32.of_Z (step_event_count block)) inverse_second)) ;;
  let block := with_nominal_rate block nominal_rate in
  let current_speed : axis_array float := fun i => F32.mul (delta_mm i) inverse_second in
  let speed_factor := speed_factor_of delta_mm inverse_second in
  r <- (if F32.ltb speed_factor (F32.of_Z 1) then
          nominal_rate <- F32.to_ulong
              (F32.mul (F32.of_Z (Block.nominal_rate block)) speed_factor) ;;
          Some (fun i => F32.mul (current_speed i) speed_factor,
                with_nominal_rate
                  (with_nominal_speed block (F32.mul (nominal_speed block) speed_factor))
                  nominal_rate)
        else Some (current_speed, block)) ;;
  let '(current_speed, block) := r in
  let steps_per_mm := F32.div (F32.of_Z (step_event_count block)) (millimeters block) in
  let bsx := steps block X_AXIS in
  let bsy := steps block Y_AXIS in
  let bsz := steps block Z_AXIS in
  let bse := steps block E_AXIS in
  acc_st <- F32.to_ulong (F32.ceil (F32.mul
      (if Z.eqb bsx 0 && Z.eqb bsy 0 && Z.eqb bsz 0 then retract_acceleration g extruder
       else if Z.eqb bse 0 then travel_acceleration g
       else acceleration g)
      steps_per_mm)) ;;
  let acc_st := limit_acceleration block extruder acc_st in
  let block := with_acceleration_st block acc_st in
  let block := with_acceleration block (F32.div (F32.of_Z acc_st) steps_per_mm) in
  acceleration_rate <- F32.to_long
      (F32.div (F32.mul (F32.of_Z acc_st) (F32.of_Z 16777216))
               (F32.div (F32.of_Z (F_CPU cfg)) (F32.of_Z 8))) ;;
  let block := with_acceleration_rate block acceleration_rate in
  let '(vmax_junction, safe_speed) :=
    junction_speeds p moves_queued extruder current_speed (nominal_speed block) in
  let block := with_max_entry_speed block vmax_junction in
  let v_allowable :=
    max_allowable_speed (F32.neg (Block.acceleration block))
      (MINIMUM_PLANNER_SPEED cfg) (millimeters block) in
  let block := with_entry_speed block (F32.min vmax_junction v_allowable) in
  let block := with_nominal_length_flag block (F32.leb (nominal_speed block) v_allowable) in
  let block := with_recalculate_flag block true in
  let p := with_previous_speed p current_speed in
  let p := with_previous_nominal_speed p (nominal_speed block) in
  block <- calculate_trapezoid_for_block block
             (F32.div (entry_speed block) (nominal_speed block))
             (F32.div safe_speed (nominal_speed block)) ;;
  let p := with_block_buffer p (upd_block (block_buffer p) (block_buffer_head p) block) in
  (* Move buffer head: the [int] is stored in an [unsigned char] *)
  let p := with_block_buffer_head p (uint8 next_buffer_head) in
  let p := with_position p (pr_target pr) in
  planner_recalculate p.

Definition plan_buffer_line (p : planner_state) (x y z e feed_rate : float)
    (extruder driver : Z) : outcome :=
  let next_buffer_head := next_block_index cfg (block_buffer_head p) in
  if Z.eqb (block_buffer_tail p) next_buffer_head then Waiting
  else
    match prepare_block p x y z e extruder with
    | None => Undefined
    | Some pr =>
        if step_event_count (pr_block pr) <=? DROP_SEGMENTS cfg then
          (* Bail if this is a zero-length block *)
          let p := pr_planner pr in
          Discarded (with_block_buffer p
                       (upd_block (block_buffer p) (block_buffer_head p) (pr_block pr)))
        else
          match complete_block pr feed_rate extruder driver next_buffer_head with
          | None => Undefined
          | Some p => Appended p
          end
    end.

(** [plan_set_position(x, y, z, e)] with [active_extruder]; it also re-seeds
    the stepper's [count_position] through [st_set_position]. *)
Definition plan_set_position (m : machine) (x y z e : float) (active_extruder : Z)
  : option machine :=
  nx <- F32.lround (F32.mul x (axis_steps_per_unit g (axis_index X_AXIS))) ;;
  ny <- F32.lround (F32.mul y (axis_steps_per_unit g (axis_index Y_AXIS))) ;;
  nz <- F32.lround (F32.mul z (axis_steps_per_unit g (axis_index Z_AXIS))) ;;
  ne <- F32.lround (F32.mul e (axis_steps_per_unit g (E_index active_extruder))) ;;
  let pos : axis_array Z :=
    fun a => match a with X_AXIS => nx | Y_AXIS => ny | Z_AXIS => nz | E_AXIS => ne end in
  let p := with_position (planner m) pos in
  let p := with_last_extruder p active_extruder in
  let p := with_previous_nominal_speed p (F32.of_Z 0) in
  let p := with_previous_speed p (fun _ => F32.of_Z 0) in
  Some {| planner := p; stepper := with_count_position (stepper m) pos |}.

End WithSettings.
End WithConfig.
End Planner.

(** ** stepper.cpp: the functions called from outside the handler *)

Module StepperControl.
Import Int Stepper.

(** [endstops_hit_on_purpose()]. *)
Definition endstops_hit_on_purpose (s : stepper_state) : stepper_state :=
  with_endstop_hit_bits s 0.

(** [enable_endstops(check)]. *)
Definition enable_endstops (check : bool) (s : stepper_state) : stepper_state :=
  with_check_endstops s check.

(** An index into [count_position[NUM_AXIS]]; an index past the end has no
    element. *)
Definition axis_of_index (i : Z) : option AxisEnum :=
  if Z.eqb i 0 then Some X_AXIS
  else if Z.eqb i 1 then Some Y_AXIS
  else if Z.eqb i 2 then Some Z_AXIS
  else if Z.eqb i 3 then Some E_AXIS
  else None.

(** [st_set_position(x, y, z, e)], [st_set_e_position(e)] and
    [st_get_position(axis)]; the critical sections make each of them one
    step with respect to the handler.  Reading past the end of the array is
    undefined. *)
Definition st_set_position (x y z e : Z) (s : stepper_state) : stepper_state :=
  let s := with_count_position s (aset (count_position s) X_AXIS x) in
  let s := with_count_position s (aset (count_position s) Y_AXIS y) in
  let s := with_count_position s (aset (count_position s) Z_AXIS z) in
  with_count_position s (aset (count_position s) E_AXIS e).

Definition st_set_e_position (e : Z) (s : stepper_state) : stepper_state :=
  with_count_position s (aset (count_position s) E_AXIS e).

Definition st_get_position (axis : Z) (s : stepper_state) : option Z :=
  match axis_of_index (uint8 axis) with
  | Some a => Some (count_position s a)
  | None => None
  end.

Section WithSettings.
Context (g : settings).

(** [st_get_axis_position_mm(axis)], Cartesian mechanics. *)
Definition st_get_axis_position_mm (axis : AxisEnum) (s : stepper_state) : option float :=
  pos <- st_get_position (axis_index axis) s ;;
  Some (F32.div (F32.of_Z pos) (axis_steps_per_unit g (axis_index axis))).

(** One line of the report of [checkHitEndstops]: the axis and the position
    of the trigger in millimetres, printed when the bit of the axis is set. *)
Definition endstop_report (s : stepper_state) (a : AxisEnum) : list (AxisEnum * float) :=
  if TEST (endstop_hit_bits s) (endstop_bit (axis_min a))
  then [(a, F32.div (F32.of_Z (endstops_trigsteps s a))
                    (axis_steps_per_unit g (axis_index a)))]
  else [].

(** [checkHitEndstops()], built without ABORT_ON_ENDSTOP_HIT_FEATURE_ENABLED:
    the lines printed and the new state. *)
Definition checkHitEndstops (s : stepper_state) : list (AxisEnum * float) * stepper_state :=
  if negb (Z.eqb (endstop_hit_bits s) 0) then
    (endstop_report s X_AXIS ++ endstop_report s Y_AXIS ++ endstop_report s Z_AXIS,
     endstops_hit_on_purpose s)
  else ([], s).

End WithSettings.

Section WithConfig.
Context (cfg : config).

(** Modelled from the spec: [blocks_queued] is declared in planner.h, which is
    not among the files; the ring holds a block iff head differs from tail. *)
Definition blocks_queued (p : planner_state) : bool :=
  negb (Z.eqb (block_buffer_head p) (block_buffer_tail p)).

(** [while (blocks_queued()) plan_discard_current_block();] with [fuel]
    passes allowed; [None] when the loop has not ended by then. *)
Fixpoint discard_queued (fuel : nat) (p : planner_state) : option planner_state :=
  match fuel with
  | O => None
  | S fuel' =>
      if blocks_queued p then discard_queued fuel' (plan_discard_current_block cfg p)
      else Some p
  end.

(** [quickStop()]. *)
Definition quickStop (fuel : nat) (m : machine) : option machine :=
  let s := with_cleaning_buffer_counter (stepper m) 5000 in
  p <- discard_queued fuel (planner m) ;;
  Some {| planner := p; stepper := with_current_block s None |}.

End WithConfig.
End StepperControl.

(** ** planner.cpp: the functions beside the queue of moves *)

Module PlannerControl.
Import Int Planner StepperControl.

(** The switches [DISABLE_X], [DISABLE_Y], [DISABLE_Z] and [DISABLE_E] of the
    configuration header. *)
Record idle_config := {
  DISABLE_X : bool;
  DISABLE_Y : bool;
  DISABLE_Z : bool;
  DISABLE_E : bool
}.

Definition DISABLE (ic : idle_config) (a : AxisEnum) : bool :=
  match a with
  | X_AXIS => DISABLE_X ic
  | Y_AXIS => DISABLE_Y ic
  | Z_AXIS => DISABLE_Z ic
  | E_AXIS => DISABLE_E ic
  end.

(** What [check_axes_activity] does to the outside: the drivers it disables
    (all extruder drivers go together) and the value written to the fan. *)
Record activity := {
  disabled : axis_array bool;
  fan_output : Z
}.

Section WithConfig.
Context (cfg : config).

(** The loop over the queued blocks: [axis_active[i]++] for every axis the
    block steps. *)
Fixpoint count_active (fuel : nat) (head block_index : Z) (buf : Z -> block_t)
    (axis_active : axis_array Z) : axis_array Z :=
  match fuel with
  | O => axis_active
  | S fuel' =>
      if Z.eqb block_index head then axis_active
      else
        let block := buf block_index in
        let axis_active : axis_array Z :=
          fun i => if negb (Z.eqb (steps block i) 0)
                   then uint8 (axis_active i + 1) else axis_active i in
        count_active fuel' head (uint8 (next_block_index cfg block_index)) buf axis_active
  end.

(** [check_axes_activity()], built with a fan and without FAN_KICKSTART_TIME,
    FAN_MIN_PWM, FAN_SOFT_PWM, AUTOTEMP, BARICUDA and LASERBEAM. *)
Definition check_axes_activity (ic : idle_config) (g : settings) (p : planner_state)
  : activity :=
  let r :=
    if blocks_queued p then
      (count_active (Z.to_nat (BLOCK_BUFFER_SIZE cfg)) (block_buffer_head p)
         (block_buffer_tail p) (block_buffer p) (fun _ => 0),
       uint8 (fan_speed (block_buffer p (block_buffer_tail p))))
    else (fun _ => 0, uint8 (fanSpeed g)) in
  {| disabled := fun a => DISABLE ic a && Z.eqb (fst r a) 0;
     fan_output := snd r |}.

Section WithSettings.
Context (g : settings).

(** [plan_set_e_position(e)] with [active_extruder]. *)
Definition plan_set_e_position (m : machine) (e : float) (active_extruder : Z)
  : option machine :=
  ne <- F32.lround (F32.mul e (axis_steps_per_unit g (E_index active_extruder))) ;;
  let p := with_position (planner m) (aset (position (planner m)) E_AXIS ne) in
  let p := with_last_extruder p active_extruder in
  Some {| planner := p; stepper := st_set_e_position ne (stepper m) |}.

End WithSettings.
End WithConfig.
End PlannerControl.

(** ** Concrete configurations and states

    Used to run the model: as witnesses of the theorems below and as inputs
    on which a property fails. *)

Module Examples.
Import Int Stepper.

(** A 16 MHz board with the usual frequency thresholds, a ring of 16 blocks
    and every endstop line present.  The timer tables are not among the
    files; a constant table stands for them (no statement below depends on
    the period looked up). *)
Definition cfg_example : config :=
  {| F_CPU := 16000000;
     MAX_STEP_FREQUENCY := 40000;
     DOUBLE_STEP_FREQUENCY := 10000;
     speed_lookuptable_fast := fun _ _ => 1000;
     speed_lookuptable_slow := fun _ _ => 1000;
     BLOCK_BUFFER_SIZE := 16;
     DROP_SEGMENTS := 5;
     EXTRUDERS := 1;
     MINIMUM_PLANNER_SPEED := F32.div (F32.of_Z 5) (F32.of_Z 100);
     SLOWDOWN := true;
     Z_DUAL_ENDSTOPS := false;
     HAS := fun _ => true |}.


Definition zero : float := F32.of_Z 0.

(** A block with the given step counts, total and direction bits. *)
Definition block_of (sx sy sz se n dirb : Z) : block_t :=
  {| steps := fun a => match a with
                       | X_AXIS => sx | Y_AXIS => sy | Z_AXIS => sz | E_AXIS => se
                       end;
     step_event_count := n;
     accelerate_until := 0; decelerate_after := n; acceleration_rate := 0;
     direction_bits := dirb; active_driver := 0;
     nominal_speed := zero; entry_speed := zero; max_entry_speed := zero;
     millimeters := zero; Block.acceleration := zero;
     recalculate_flag := false; nominal_length_flag := false;
     nominal_rate := 1000; initial_rate := 1000; final_rate := 1000;
     acceleration_st := 0; fan_speed := 0; busy := false |}.

(** A planner state whose ring holds the single block [b] in slot 0. *)
Definition planner_with (b : block_t) : planner_state :=
  {| block_buffer := fun _ => b;
     block_buffer_head := 1;
     block_buffer_tail := 0;
     position := fun _ => 0;
     previous_speed := fun _ => zero;
     previous_nominal_speed := zero;
     last_extruder := 0 |}.

(** The stepper state after [st_init], with endstop checking as given, no
    latched block and all positions zero. *)
Definition stepper_idle (check : bool) (old_bits : Z) (homing : bool) : stepper_state :=
  {| current_block := None; out_bits := 0; cleaning_buffer_counter := 0;
     counter := fun _ => 0; step_events_completed := 0;
     acceleration_time := 0; deceleration_time := 0; acc_step_rate := 0;
     step_loops := 1; step_loops_nominal := 1; OCR1A_nominal := 0; OCR1A := 0;
     endstops_trigsteps := fun _ => 0; endstop_hit_bits := 0;
     old_endstop_bits := old_bits; check_endstops := check;
     count_position := fun _ => 0; count_direction := fun _ => 1;
     performing_homing := homing |}.

(** Inputs: no endstop active; only the given endstop active. *)
Definition input_quiet : isr_input :=
  {| endstop_read := fun _ => false; TCNT1 := 0; TCNT1_reread := 0 |}.

Definition input_active (e0 : EndstopEnum) : isr_input :=
  {| endstop_read := fun e => match e0, e with
                              | X_MIN, X_MIN | Z_MIN, Z_MIN => true
                              | _, _ => false
                              end;
     TCNT1 := 0; TCNT1_reread := 0 |}.

(** A move of 3 steps in +X, 2 steps in -Y and 1 step of E. *)
Definition machine_xy : machine :=
  {| planner := planner_with (block_of 3 2 0 1 3 2);
     stepper := stepper_idle false 0 false |}.


(** A move of 10 steps in -X with endstop checking on and the X_MIN line
    already seen active at the previous sample. *)
Definition machine_homing_x : machine :=
  {| planner := planner_with (block_of 10 0 0 0 10 1);
     stepper := stepper_idle true 1 false |}.



(** Planner settings: 80 steps/mm and 300 mm/s on X and Y, 3200 steps/mm and
    2 mm/s on Z, 625 steps/mm and 100 mm/s on the first extruder, 500
    steps/mm on a second one; acceleration 1000 mm/s^2, XY jerk 20 mm/s. *)
Definition settings_example : settings :=
  {| minsegmenttime := 20000;
     max_feedrate := fun k => F32.of_Z (if k <? 2 then 300 else if k =? 2 then 2 else 100);
     axis_steps_per_unit :=
       fun k => F32.of_Z (if k <? 2 then 80 else if k =? 2 then 3200
                          else if k =? 3 then 625 else 500);
     minimumfeedrate := zero;
     acceleration := F32.of_Z 1000;
     retract_acceleration := fun _ => F32.of_Z 2500;
     travel_acceleration := F32.of_Z 1000;
     max_xy_jerk := F32.of_Z 20;
     max_z_jerk := F32.div (F32.of_Z 4) (F32.of_Z 10);
     max_e_jerk := fun _ => F32.of_Z 5;
     mintravelfeedrate := zero;
     axis_steps_per_sqr_second :=
       fun k => if k <? 2 then 240000 else if k =? 2 then 160000 else 1875000;
     volumetric_multiplier := fun _ => F32.of_Z 1;
     extruder_multiplier := fun _ => 100;
     fanSpeed := 0 |}.

(** The planner after [plan_init]: head, tail and positions zero, and in
    every slot a block without steps ([block_of] gives it rates of 1000
    steps/s and speeds of zero). *)
Definition planner_empty : planner_state :=
  {| block_buffer := fun _ => block_of 0 0 0 0 0 0;
     block_buffer_head := 0;
     block_buffer_tail := 0;
     position := fun _ => 0;
     previous_speed := fun _ => zero;
     previous_nominal_speed := zero;
     last_extruder := 0 |}.

(** The board built for two extruders. *)
Definition cfg_two_extruders : config :=
  {| F_CPU := 16000000;
     MAX_STEP_FREQUENCY := 40000;
     DOUBLE_STEP_FREQUENCY := 10000;
     speed_lookuptable_fast := fun _ _ => 1000;
     speed_lookuptable_slow := fun _ _ => 1000;
     BLOCK_BUFFER_SIZE := 16;
     DROP_SEGMENTS := 5;
     EXTRUDERS := 2;
     MINIMUM_PLANNER_SPEED := F32.div (F32.of_Z 5) (F32.of_Z 100);
     SLOWDOWN := true;
     Z_DUAL_ENDSTOPS := false;
     HAS := fun _ => true |}.

(** The empty planner with the first extruder at 1000 steps. *)
Definition planner_e1000 : planner_state :=
  {| block_buffer := fun _ => block_of 0 0 0 0 0 0;
     block_buffer_head := 0;
     block_buffer_tail := 0;
     position := fun a => match a with E_AXIS => 1000 | _ => 0 end;
     previous_speed := fun _ => zero;
     previous_nominal_speed := zero;
     last_extruder := 0 |}.

(** [n / d] as a float, for decimal arguments. *)
Definition ratio (n d : Z) : float := F32.div (F32.of_Z n) (F32.of_Z d).

End Examples.

(** ** States reached by running the model

    The states of [Examples] after a first move has been planned, latched or
    stopped; they serve as witnesses of the properties of the planner and of
    the handler. *)

Module Scenarios.
Import Int Stepper Planner Examples.

(** The planner after a first move of 10 steps on X (1/8 mm at 80 steps/mm)
    at 60 mm/s has been appended to the empty ring; the empty planner if the
    call does not append. *)
Definition planner_after_first_move : planner_state :=
  match plan_buffer_line cfg_example settings_example planner_empty
          (ratio 1 8) zero zero zero (F32.of_Z 60) 0 0 with
  | Appended p => p
  | _ => planner_empty
  end.

(** The same planner once the handler has latched the move: the block in
    slot 0 is busy. *)
Definition planner_latched_first : planner_state :=
  fst (ISR_latch cfg_example planner_after_first_move (stepper_idle true 0 false)).

(** The idle machine with an empty ring, and with the first move queued. *)
Definition machine_idle : machine :=
  {| planner := planner_empty; stepper := stepper_idle true 0 false |}.

Definition machine_first_move : machine :=
  {| planner := planner_after_first_move; stepper := stepper_idle true 0 false |}.

(** The first move queued while [quickStop] is being served: two runs of
    the handler are left on the cleaning counter. *)
Definition machine_cleaning : machine :=
  {| planner := planner_after_first_move;
     stepper := with_cleaning_buffer_counter (stepper_idle true 0 false) 2 |}.

(** Every driver may be switched off when idle. *)
Definition idle_all : PlannerControl.idle_config :=
  {| PlannerControl.DISABLE_X := true; PlannerControl.DISABLE_Y := true;
     PlannerControl.DISABLE_Z := true; PlannerControl.DISABLE_E := true |}.

End Scenarios.

(** * Properties *)

(** ** Machine integers and arrays *)

Module IntFacts.
Import Int.

Lemma uint8_range x : 0 <= uint8 x < 2 ^ 8.
Proof. unfold uint8. apply Z.mod_pos_bound. lia. Qed.

Lemma uint16_range x : 0 <= uint16 x < 2 ^ 16.
Proof. unfold uint16. apply Z.mod_pos_bound. lia. Qed.

Lemma uint32_range x : 0 <= uint32 x < 2 ^ 32.
Proof. unfold uint32. apply Z.mod_pos_bound. lia. Qed.

Lemma int32_range x : - 2 ^ 31 <= int32 x < 2 ^ 31.
Proof.
  unfold int32.
  pose proof (Z.mod_pos_bound (x + 2 ^ 31) (2 ^ 32) ltac:(lia)). lia.
Qed.

Lemma uint8_small x : 0 <= x < 2 ^ 8 -> uint8 x = x.
Proof. intros H. unfold uint8. apply Z.mod_small. exact H. Qed.

Lemma uint16_small x : 0 <= x < 2 ^ 16 -> uint16 x = x.
Proof. intros H. unfold uint16. apply Z.mod_small. exact H. Qed.

Lemma uint32_small x : 0 <= x < 2 ^ 32 -> uint32 x = x.
Proof. intros H. unfold uint32. apply Z.mod_small. exact H. Qed.

Lemma int32_small x : - 2 ^ 31 <= x < 2 ^ 31 -> int32 x = x.
Proof.
  intros H. unfold int32. rewrite Z.mod_small by lia. lia.
Qed.

(** Arithmetic on a [long] wraps once, however many steps it is done in. *)
Lemma int32_add_idemp x y : int32 (int32 x + y) = int32 (x + y).
Proof.
  unfold int32. f_equal.
  replace ((x + 2 ^ 31) mod 2 ^ 32 - 2 ^ 31 + y + 2 ^ 31)
    with ((x + 2 ^ 31) mod 2 ^ 32 + y) by ring.
  rewrite Zplus_mod_idemp_l. f_equal. ring.
Qed.

Lemma int8_range x : - 2 ^ 7 <= int8 x < 2 ^ 7.
Proof.
  unfold int8.
  pose proof (Z.mod_pos_bound (x + 2 ^ 7) (2 ^ 8) ltac:(lia)). lia.
Qed.

Lemma int8_small x : - 2 ^ 7 <= x < 2 ^ 7 -> int8 x = x.
Proof.
  intros H. unfold int8. rewrite Z.mod_small by lia. lia.
Qed.

(** An [int8_t] stored in an [unsigned char] is the value modulo 256. *)
Lemma uint8_int8 x : uint8 (int8 x) = uint8 x.
Proof.
  unfold uint8, int8.
  replace ((x + 2 ^ 7) mod 2 ^ 8 - 2 ^ 7) with ((x + 2 ^ 7) mod 2 ^ 8 + - 2 ^ 7) by ring.
  rewrite Zplus_mod_idemp_l. f_equal. ring.
Qed.

Lemma int8_uint8 x : int8 (uint8 x) = int8 x.
Proof.
  unfold uint8, int8. rewrite Zplus_mod_idemp_l. reflexivity.
Qed.

End IntFacts.

Lemma axis_eqb_spec a b : reflect (a = b) (axis_eqb a b).
Proof. destruct a, b; simpl; constructor; congruence. Qed.

Lemma aset_same {A} (arr : axis_array A) a v : aset arr a v a = v.
Proof. unfold aset. destruct (axis_eqb_spec a a); congruence. Qed.

Lemma aset_other {A} (arr : axis_array A) a b v : a <> b -> aset arr a v b = arr b.
Proof. unfold aset. destruct (axis_eqb_spec a b); congruence. Qed.

(** ** The timer period: [calc_timer] *)

Module StepperFacts.
Import Int IntFacts Stepper.

Lemma shiftr_mask_16 (r k : Z) :
  0 <= r < 2 ^ 16 -> 1 <= k <= 2 ->
  Z.land (Z.shiftr r k) (2 ^ (16 - k) - 1) = Z.shiftr r k.
Proof.
  intros Hr Hk.
  replace (2 ^ (16 - k) - 1) with (Z.ones (16 - k))
    by (rewrite Z.ones_equiv; lia).
  rewrite Z.land_ones by lia.
  apply Z.mod_small.
  rewrite Z.shiftr_div_pow2 by lia.
  split.
  - apply Z.div_pos; lia.
  - apply Z.div_lt_upper_bound; [lia|].
    rewrite <- Z.pow_add_r by lia.
    replace (k + (16 - k)) with 16 by lia. lia.
Qed.

Lemma clamped_rate_range cfg x : 0 <= clamped_rate cfg x < 2 ^ 16.
Proof.
  unfold clamped_rate. destruct (_ <? _); apply uint16_range.
Qed.

Lemma calc_timer_lookup_floor cfg r : 100 <= calc_timer_lookup cfg r.
Proof.
  unfold calc_timer_lookup.
  match goal with |- 100 <= (if ?t <? 100 then _ else _) =>
    destruct (Z.ltb_spec t 100); lia end.
Qed.

(** C6.  After the clamp to [MAX_STEP_FREQUENCY], [calc_timer] sets
    [step_loops] to 4 and shifts [step_rate] right by 2 when the rate exceeds
    [2 * DOUBLE_STEP_FREQUENCY], sets it to 2 and shifts right by 1 when the
    rate exceeds [DOUBLE_STEP_FREQUENCY], and sets it to 1 and keeps the rate
    otherwise; and for every input the returned timer period is at least 100
    ticks. *)
Theorem calc_timer_step_loops_and_floor (cfg : config) (step_rate : Z) (s : stepper_state) :
  let r := clamped_rate cfg step_rate in
  step_loops (snd (calc_timer cfg step_rate s))
    = (if 2 * DOUBLE_STEP_FREQUENCY cfg <? r then 4
       else if DOUBLE_STEP_FREQUENCY cfg <? r then 2 else 1)
  /\ fst (calc_timer_step_loops cfg (uint16 step_rate))
    = (if 2 * DOUBLE_STEP_FREQUENCY cfg <? r then Z.shiftr r 2
       else if DOUBLE_STEP_FREQUENCY cfg <? r then Z.shiftr r 1 else r)
  /\ fst (calc_timer cfg step_rate s)
    = calc_timer_lookup cfg (fst (calc_timer_step_loops cfg (uint16 step_rate)))
  /\ 100 <= fst (calc_timer cfg step_rate s).
Proof.
  intros r.
  pose proof (clamped_rate_range cfg step_rate) as Hr. fold r in Hr.
  unfold calc_timer, calc_timer_step_loops.
  fold (clamped_rate cfg step_rate). fold r.
  destruct (2 * DOUBLE_STEP_FREQUENCY cfg <? r);
    [|destruct (DOUBLE_STEP_FREQUENCY cfg <? r)]; cbn [fst snd step_loops with_step_loops].
  - rewrite (shiftr_mask_16 r 2 Hr ltac:(lia) : Z.land (Z.shiftr r 2) 16383 = _).
    repeat split; auto using calc_timer_lookup_floor.
  - rewrite (shiftr_mask_16 r 1 Hr ltac:(lia) : Z.land (Z.shiftr r 1) 32767 = _).
    repeat split; auto using calc_timer_lookup_floor.
  - repeat split; auto using calc_timer_lookup_floor.
Qed.

(** ** Endstops *)

Section Endstops.
Context (cfg : config).

Lemma TEST_SBI (h k k' : Z) :
  0 <= k -> 0 <= k' < 8 ->
  TEST (uint8 (SBI h k)) k' = (k' =? k) || TEST h k'.
Proof.
  intros Hk Hk'. unfold TEST, uint8, SBI.
  rewrite Z.mod_pow2_bits_low by lia.
  rewrite Z.lor_spec, Z.shiftl_spec by lia.
  rewrite orb_comm. f_equal.
  destruct (Z.eqb_spec k' k) as [->|Hne].
  - now rewrite Z.sub_diag.
  - destruct (Z.ltb_spec k' k).
    + rewrite Z.testbit_neg_r by lia. reflexivity.
    + apply Z.bits_above_log2; [lia|simpl; lia].
Qed.

Lemma endstop_bit_range e : 0 <= endstop_bit e < 9.
Proof. destruct e; simpl; lia. Qed.

Lemma TEST_endstop_bits_t (x k : Z) :
  0 <= k -> (k < 8 \/ (Z_DUAL_ENDSTOPS cfg = true /\ k < 16)) ->
  TEST (endstop_bits_t cfg x) k = TEST x k.
Proof.
  intros Hk Hw. unfold endstop_bits_t, TEST, uint16, uint8.
  destruct (Z_DUAL_ENDSTOPS cfg).
  - apply Z.mod_pow2_bits_low. lia.
  - apply Z.mod_pow2_bits_low. destruct Hw as [?|[? _]]; [lia|discriminate].
Qed.

(** The width of the bit field holds the bit of [e]. *)
Definition fits (e : EndstopEnum) : Prop :=
  endstop_bit e < 8 \/ Z_DUAL_ENDSTOPS cfg = true.

Lemma fits_primary e : primary e = true -> fits e.
Proof. destruct e; simpl; intros; try discriminate; left; simpl; lia. Qed.

Lemma TEST_SET_ENDSTOP_BIT_same inp e cur :
  fits e -> TEST (SET_ENDSTOP_BIT cfg inp e cur) (endstop_bit e) = endstop_read inp e.
Proof.
  intros Hf. unfold SET_ENDSTOP_BIT.
  pose proof (endstop_bit_range e) as Hr.
  rewrite TEST_endstop_bits_t; [|lia|destruct Hf; [left; lia|right; split; [assumption|lia]]].
  unfold SET_BIT, TEST. destruct (endstop_read inp e).
  - apply Z.setbit_eq. lia.
  - apply Z.clearbit_eq.
Qed.

(** What one [UPDATE_ENDSTOP] keeps. *)
Definition recorded (a : AxisEnum) (s : stepper_state) : Prop :=
  endstops_trigsteps s a = count_position s a
  /\ TEST (endstop_hit_bits s) (endstop_bit (axis_min a)) = true.

Definition same_frame (s s' : stepper_state) : Prop :=
  count_position s' = count_position s
  /\ out_bits s' = out_bits s
  /\ old_endstop_bits s' = old_endstop_bits s
  /\ performing_homing s' = performing_homing s
  /\ current_block s' = current_block s
  /\ step_loops s' = step_loops s.

Lemma same_frame_refl s : same_frame s s.
Proof. repeat split. Qed.

Lemma same_frame_trans s1 s2 s3 :
  same_frame s1 s2 -> same_frame s2 s3 -> same_frame s1 s3.
Proof.
  unfold same_frame. intros (A1 & A2 & A3 & A4 & A5 & A6) (B1 & B2 & B3 & B4 & B5 & B6).
  repeat split; congruence.
Qed.

Lemma axis_min_bit_range a : 0 <= endstop_bit (axis_min a) < 8.
Proof. destruct a; simpl; lia. Qed.

Lemma UPDATE_ENDSTOP_keeps inp b a e cs :
  let cs' := UPDATE_ENDSTOP cfg inp b a e cs in
  same_frame (snd cs) (snd cs')
  /\ (forall a', recorded a' (snd cs) -> recorded a' (snd cs'))
  /\ (step_events_completed (snd cs) = step_event_count b ->
      step_events_completed (snd cs') = step_event_count b)
  /\ (forall e', fits e' -> endstop_bit e' <> endstop_bit e ->
      TEST (fst cs') (endstop_bit e') = TEST (fst cs) (endstop_bit e')).
Proof.
  destruct cs as [cur s]. unfold UPDATE_ENDSTOP. cbn [fst snd].
  assert (Hcur : forall e', fits e' -> endstop_bit e' <> endstop_bit e ->
            TEST (SET_ENDSTOP_BIT cfg inp e cur) (endstop_bit e') = TEST cur (endstop_bit e')).
  { intros e' Hf Hne. unfold SET_ENDSTOP_BIT.
    pose proof (endstop_bit_range e') as Hr. pose proof (endstop_bit_range e) as Hr'.
    rewrite TEST_endstop_bits_t;
      [|lia|destruct Hf; [left; lia|right; split; [assumption|lia]]].
    unfold SET_BIT, TEST. destruct (endstop_read inp e).
    - apply Z.setbit_neq; lia.
    - apply Z.clearbit_neq; lia. }
  destruct (TEST_ENDSTOP _ _ _ && _); cbn [fst snd].
  - split; [repeat split|]. split; [|split; [reflexivity|exact Hcur]].
    intros a' [H1 H2]. split; cbn.
    + unfold aset. destruct (axis_eqb_spec a a') as [->|_]; [reflexivity|exact H1].
    + rewrite TEST_SBI by (pose proof (axis_min_bit_range a); pose proof (axis_min_bit_range a'); lia).
      rewrite H2. apply orb_true_r.
  - split; [apply same_frame_refl|]. split; [auto|]. split; [auto|exact Hcur].
Qed.


Lemma TEST_COPY_BIT_other bits from to e' :
  fits e' -> endstop_bit e' <> endstop_bit to ->
  TEST (COPY_BIT cfg bits from to) (endstop_bit e') = TEST bits (endstop_bit e').
Proof.
  intros Hf Hne. unfold COPY_BIT.
  pose proof (endstop_bit_range e') as Hr. pose proof (endstop_bit_range to) as Hr'.
  rewrite TEST_endstop_bits_t;
    [|lia|destruct Hf; [left; lia|right; split; [assumption|lia]]].
  unfold SET_BIT, TEST. destruct (Z.testbit bits (endstop_bit from)).
  - apply Z.setbit_neq; lia.
  - apply Z.clearbit_neq; lia.
Qed.

Lemma TEST_COPY_BIT_same bits from to :
  fits to ->
  TEST (COPY_BIT cfg bits from to) (endstop_bit to) = TEST bits (endstop_bit from).
Proof.
  intros Hf. unfold COPY_BIT.
  pose proof (endstop_bit_range to) as Hr.
  rewrite TEST_endstop_bits_t;
    [|lia|destruct Hf; [left; lia|right; split; [assumption|lia]]].
  unfold SET_BIT, TEST. destruct (Z.testbit bits (endstop_bit from)).
  - apply Z.setbit_eq. lia.
  - apply Z.clearbit_eq.
Qed.

Lemma TEST_SET_ENDSTOP_BIT_other inp e e' cur :
  fits e' -> endstop_bit e' <> endstop_bit e ->
  TEST (SET_ENDSTOP_BIT cfg inp e cur) (endstop_bit e') = TEST cur (endstop_bit e').
Proof.
  intros Hf Hne. unfold SET_ENDSTOP_BIT.
  pose proof (endstop_bit_range e') as Hr. pose proof (endstop_bit_range e) as Hr'.
  rewrite TEST_endstop_bits_t;
    [|lia|destruct Hf; [left; lia|right; split; [assumption|lia]]].
  unfold SET_BIT, TEST. destruct (endstop_read inp e).
  - apply Z.setbit_neq; lia.
  - apply Z.clearbit_neq; lia.
Qed.

(** What every stage of [update_endstops] keeps. *)
Definition keeps (b : block_t) (s s' : stepper_state) : Prop :=
  same_frame s s'
  /\ (forall a', recorded a' s -> recorded a' s')
  /\ (step_events_completed s = step_event_count b ->
      step_events_completed s' = step_event_count b).

Lemma keeps_refl b s : keeps b s s.
Proof. split; [apply same_frame_refl|auto]. Qed.

Lemma keeps_trans b s1 s2 s3 : keeps b s1 s2 -> keeps b s2 s3 -> keeps b s1 s3.
Proof.
  intros (A1 & A2 & A3) (B1 & B2 & B3).
  split; [eapply same_frame_trans; eauto|auto].
Qed.

Lemma UPDATE_ENDSTOP_keeps' inp b a e cs :
  keeps b (snd cs) (snd (UPDATE_ENDSTOP cfg inp b a e cs)).
Proof.
  pose proof (UPDATE_ENDSTOP_keeps inp b a e cs) as (H1 & H2 & H3 & _).
  split; [exact H1|auto].
Qed.

Lemma update_z_dual_keeps inp b e e2 cs :
  keeps b (snd cs) (snd (update_z_dual cfg inp b e e2 cs)).
Proof.
  destruct cs as [cur s]. unfold update_z_dual. cbn [snd].
  destruct (negb _ && _); [|apply keeps_refl].
  assert (K : keeps b s
    (with_endstop_hit_bits
       (with_endstops_trigsteps s
          (aset (endstops_trigsteps s) Z_AXIS (count_position s Z_AXIS)))
       (uint8 (SBI (endstop_hit_bits s) (endstop_bit Z_MIN))))).
  { split; [repeat split|]. split; [|auto].
    intros a' [H1 H2]. split; cbn.
    - unfold aset. destruct (axis_eqb_spec Z_AXIS a') as [<-|_]; [reflexivity|exact H1].
    - rewrite TEST_SBI by (pose proof (axis_min_bit_range a'); simpl; lia).
      rewrite H2. apply orb_true_r. }
  destruct (negb _ || _); cbn [snd]; [|exact K].
  eapply keeps_trans; [exact K|].
  split; [repeat split|]. split; [|reflexivity].
  intros a' H. exact H.
Qed.


(** The stages of [update_endstops] for the three axes. *)
Lemma update_endstops_stages inp b s :
  exists csx csy csz,
    keeps b s (snd csx) /\ keeps b (snd csx) (snd csy) /\ keeps b (snd csy) (snd csz)
    /\ update_endstops cfg inp b s = with_old_endstop_bits (snd csz) (fst csz)
    /\ csx = (if TEST (out_bits s) (axis_index X_AXIS)
              then if HAS cfg X_MIN then UPDATE_ENDSTOP cfg inp b X_AXIS X_MIN (0, s) else (0, s)
              else if HAS cfg X_MAX then UPDATE_ENDSTOP cfg inp b X_AXIS X_MAX (0, s) else (0, s))
    /\ csy = (if TEST (out_bits s) (axis_index Y_AXIS)
              then if HAS cfg Y_MIN then UPDATE_ENDSTOP cfg inp b Y_AXIS Y_MIN csx else csx
              else if HAS cfg Y_MAX then UPDATE_ENDSTOP cfg inp b Y_AXIS Y_MAX csx else csx)
    /\ csz = (if TEST (out_bits s) (axis_index Z_AXIS)
              then if HAS cfg Z_MIN
                   then if Z_DUAL_ENDSTOPS cfg then update_z_dual cfg inp b Z_MIN Z2_MIN csy
                        else UPDATE_ENDSTOP cfg inp b Z_AXIS Z_MIN csy
                   else csy
              else if HAS cfg Z_MAX
                   then if Z_DUAL_ENDSTOPS cfg then update_z_dual cfg inp b Z_MAX Z2_MAX csy
                        else UPDATE_ENDSTOP cfg inp b Z_AXIS Z_MAX csy
                   else csy).
Proof.
  eexists; eexists; eexists.
  split; [|split; [|split; [|split; [reflexivity|split; [reflexivity|split; reflexivity]]]]].
  - destruct (TEST (out_bits s) (axis_index X_AXIS));
      [destruct (HAS cfg X_MIN)|destruct (HAS cfg X_MAX)];
      try apply keeps_refl; apply (UPDATE_ENDSTOP_keeps' inp b _ _ (0, s)).
  - destruct (TEST (out_bits s) (axis_index Y_AXIS));
      [destruct (HAS cfg Y_MIN)|destruct (HAS cfg Y_MAX)];
      try apply keeps_refl; apply UPDATE_ENDSTOP_keeps'.
  - destruct (TEST (out_bits s) (axis_index Z_AXIS));
      [destruct (HAS cfg Z_MIN)|destruct (HAS cfg Z_MAX)];
      try apply keeps_refl; destruct (Z_DUAL_ENDSTOPS cfg);
      try apply UPDATE_ENDSTOP_keeps'; apply update_z_dual_keeps.
Qed.



Lemma keeps_position b s s' : keeps b s s' -> count_position s' = count_position s.
Proof. intros ((H & _) & _). exact H. Qed.




(** *** Frames of the parts of the handler *)

(** The fields the step loop reads and writes, and the endstop record. *)
Definition core_eq (s s' : stepper_state) : Prop :=
  current_block s' = current_block s
  /\ counter s' = counter s
  /\ step_events_completed s' = step_events_completed s
  /\ count_position s' = count_position s
  /\ count_direction s' = count_direction s
  /\ out_bits s' = out_bits s
  /\ check_endstops s' = check_endstops s
  /\ cleaning_buffer_counter s' = cleaning_buffer_counter s
  /\ step_loops_nominal s' = step_loops_nominal s
  /\ endstops_trigsteps s' = endstops_trigsteps s
  /\ endstop_hit_bits s' = endstop_hit_bits s
  /\ performing_homing s' = performing_homing s.

Lemma core_eq_refl s : core_eq s s.
Proof. repeat split. Qed.

Lemma core_eq_trans s1 s2 s3 : core_eq s1 s2 -> core_eq s2 s3 -> core_eq s1 s3.
Proof.
  unfold core_eq.
  intros (A1 & A2 & A3 & A4 & A5 & A6 & A7 & A8 & A9 & A10 & A11 & A12)
         (B1 & B2 & B3 & B4 & B5 & B6 & B7 & B8 & B9 & B10 & B11 & B12).
  repeat split; congruence.
Qed.

Definition good_loops (k : Z) : Prop := k = 1 \/ k = 2 \/ k = 4.

Lemma calc_timer_state r s :
  exists k, good_loops k /\ snd (calc_timer cfg r s) = with_step_loops s k.
Proof.
  unfold calc_timer, calc_timer_step_loops.
  repeat match goal with |- context [if ?c then _ else _] => destruct c end;
    cbn [snd]; eexists; (split; [|reflexivity]); unfold good_loops; auto.
Qed.

Lemma calc_timer_pair r s : calc_timer cfg r s = (fst (calc_timer cfg r s), snd (calc_timer cfg r s)).
Proof. apply surjective_pairing. Qed.

Lemma next_timer_frame b s :
  good_loops (step_loops_nominal s) ->
  core_eq s (next_timer cfg b s)
  /\ good_loops (step_loops (next_timer cfg b s))
  /\ old_endstop_bits (next_timer cfg b s) = old_endstop_bits s.
Proof.
  intros Hn. unfold next_timer.
  destruct (_ <=? _); [|destruct (_ <? _)].
  - match goal with |- context [calc_timer cfg ?r ?s0] =>
      rewrite (calc_timer_pair r s0);
      destruct (calc_timer_state r s0) as (k & Hk & ->) end.
    destruct (nominal_rate b <? _); cbn; (split; [repeat split|split; [exact Hk|reflexivity]]).
  - match goal with |- context [calc_timer cfg ?r ?s0] =>
      rewrite (calc_timer_pair r s0);
      destruct (calc_timer_state r s0) as (k & Hk & ->) end.
    cbn. split; [repeat split|split; [exact Hk|reflexivity]].
  - cbn. split; [repeat split|split; [exact Hn|reflexivity]].
Qed.

Lemma update_endstops_silent inp b s :
  (forall e, endstop_read inp e = false) ->
  exists bits, update_endstops cfg inp b s = with_old_endstop_bits s bits.
Proof.
  intros Hq.
  assert (U : forall a e cs, primary e = true ->
            snd (UPDATE_ENDSTOP cfg inp b a e cs) = snd cs).
  { intros a e [cur s0] Hp. unfold UPDATE_ENDSTOP, TEST_ENDSTOP.
    rewrite TEST_SET_ENDSTOP_BIT_same by (apply fits_primary; exact Hp).
    rewrite Hq. reflexivity. }
  assert (D : forall e cs, Z_DUAL_ENDSTOPS cfg = true -> (e = Z_MIN \/ e = Z_MAX) ->
            snd (update_z_dual cfg inp b e (z2_of e) cs) = snd cs).
  { intros e [cur s0] Hd He.
    assert (Hf : forall e', fits e') by (intros e'; right; exact Hd).
    assert (Hne : endstop_bit e <> endstop_bit (z2_of e))
      by (destruct He; subst e; simpl; lia).
    unfold update_z_dual, TEST_ENDSTOP.
    destruct (HAS cfg (z2_of e)).
    - rewrite TEST_SET_ENDSTOP_BIT_other, !TEST_SET_ENDSTOP_BIT_same, !Hq by auto.
      reflexivity.
    - rewrite TEST_COPY_BIT_other, TEST_COPY_BIT_same, !TEST_SET_ENDSTOP_BIT_same, !Hq by auto.
      reflexivity. }
  destruct (update_endstops_stages inp b s)
    as (csx & csy & csz & _ & _ & _ & -> & Ex & Ey & Ez).
  assert (Sx : snd csx = s).
  { rewrite Ex. repeat match goal with |- context [if ?c then _ else _] => destruct c end;
      try reflexivity; apply (U _ _ (0, s)); reflexivity. }
  assert (Sy : snd csy = s).
  { rewrite Ey. repeat match goal with |- context [if ?c then _ else _] => destruct c end;
      rewrite ?U by reflexivity; exact Sx. }
  assert (Sz : snd csz = s).
  { rewrite Ez. destruct (Z_DUAL_ENDSTOPS cfg) eqn:Hd;
      repeat match goal with |- context [if ?c then _ else _] => destruct c end;
      rewrite ?U by reflexivity; try exact Sy.
    - change Z2_MIN with (z2_of Z_MIN). rewrite D by auto. exact Sy.
    - change Z2_MAX with (z2_of Z_MAX). rewrite D by auto. exact Sy. }
  rewrite Sz. eexists. reflexivity.
Qed.

End Endstops.

(** ** The Bresenham line tracer *)

Section Bresenham.
Context (cfg : config).

(** One pass of the step loop, axis by axis. *)
Definition axis_counter_step (b : block_t) (s : stepper_state) (a : AxisEnum) : Z :=
  let c1 := int32 (counter s a + steps b a) in
  if 0 <? c1 then int32 (c1 - step_event_count b) else c1.

Definition axis_position_step (b : block_t) (s : stepper_state) (a : AxisEnum) : Z :=
  let c1 := int32 (counter s a + steps b a) in
  if 0 <? c1 then int32 (count_position s a + count_direction s a) else count_position s a.

Lemma STEP_START_counter b a a' s :
  counter (STEP_START b a s) a'
  = if axis_eqb a a' then int32 (counter s a' + steps b a') else counter s a'.
Proof.
  unfold STEP_START. cbn [counter with_counter]. unfold aset.
  destruct (axis_eqb_spec a a') as [->|_]; reflexivity.
Qed.

Lemma STEP_END_counter b a a' s :
  counter (STEP_END b a s) a'
  = if axis_eqb a a' && (0 <? counter s a')
    then int32 (counter s a' - step_event_count b) else counter s a'.
Proof.
  unfold STEP_END.
  destruct (axis_eqb_spec a a') as [->|Hne]; cbn [andb].
  - destruct (0 <? counter s a'); [|reflexivity].
    cbn [counter with_counter with_count_position]. apply aset_same.
  - destruct (0 <? counter s a); [|reflexivity].
    cbn [counter with_counter with_count_position]. apply aset_other. exact Hne.
Qed.

Lemma STEP_END_position b a a' s :
  count_position (STEP_END b a s) a'
  = if axis_eqb a a' && (0 <? counter s a')
    then int32 (count_position s a' + count_direction s a') else count_position s a'.
Proof.
  unfold STEP_END.
  destruct (axis_eqb_spec a a') as [->|Hne]; cbn [andb].
  - destruct (0 <? counter s a'); [|reflexivity].
    cbn [count_position count_direction with_counter with_count_position].
    apply aset_same.
  - destruct (0 <? counter s a); [|reflexivity].
    cbn [count_position count_direction with_counter with_count_position].
    apply aset_other. exact Hne.
Qed.

(** The fields the step loop leaves alone. *)
Definition loop_frame (s s' : stepper_state) : Prop :=
  current_block s' = current_block s
  /\ count_direction s' = count_direction s
  /\ out_bits s' = out_bits s
  /\ check_endstops s' = check_endstops s
  /\ cleaning_buffer_counter s' = cleaning_buffer_counter s
  /\ step_loops s' = step_loops s
  /\ step_loops_nominal s' = step_loops_nominal s
  /\ endstops_trigsteps s' = endstops_trigsteps s
  /\ endstop_hit_bits s' = endstop_hit_bits s
  /\ old_endstop_bits s' = old_endstop_bits s
  /\ performing_homing s' = performing_homing s.


Lemma loop_frame_trans s1 s2 s3 : loop_frame s1 s2 -> loop_frame s2 s3 -> loop_frame s1 s3.
Proof.
  unfold loop_frame.
  intros (A1 & A2 & A3 & A4 & A5 & A6 & A7 & A8 & A9 & A10 & A11)
         (B1 & B2 & B3 & B4 & B5 & B6 & B7 & B8 & B9 & B10 & B11).
  repeat split; congruence.
Qed.

Lemma STEP_START_frame b a s :
  loop_frame s (STEP_START b a s)
  /\ count_position (STEP_START b a s) = count_position s
  /\ step_events_completed (STEP_START b a s) = step_events_completed s.
Proof. unfold STEP_START. repeat split. Qed.

Lemma STEP_END_frame b a s :
  loop_frame s (STEP_END b a s)
  /\ step_events_completed (STEP_END b a s) = step_events_completed s.
Proof. unfold STEP_END. destruct (0 <? counter s a); repeat split. Qed.

(** The eight macro expansions of one pass, named. *)
Definition after_starts (b : block_t) (s : stepper_state) : stepper_state :=
  STEP_START b E_AXIS (STEP_START b Z_AXIS (STEP_START b Y_AXIS (STEP_START b X_AXIS s))).

Definition after_ends (b : block_t) (s : stepper_state) : stepper_state :=
  STEP_END b E_AXIS (STEP_END b Z_AXIS (STEP_END b Y_AXIS (STEP_END b X_AXIS s))).

Lemma step_once_unfold b s :
  step_once b s
  = with_step_events_completed (after_ends b (after_starts b s))
      (uint32 (step_events_completed (after_ends b (after_starts b s)) + 1)).
Proof. unfold step_once, after_ends, after_starts. cbv zeta. reflexivity. Qed.

Lemma after_starts_counter b s a :
  counter (after_starts b s) a = int32 (counter s a + steps b a).
Proof.
  unfold after_starts. rewrite !STEP_START_counter.
  destruct a; reflexivity.
Qed.

Lemma after_starts_frame b s :
  loop_frame s (after_starts b s)
  /\ count_position (after_starts b s) = count_position s
  /\ step_events_completed (after_starts b s) = step_events_completed s.
Proof.
  unfold after_starts.
  destruct (STEP_START_frame b X_AXIS s) as (F1 & P1 & S1).
  destruct (STEP_START_frame b Y_AXIS (STEP_START b X_AXIS s)) as (F2 & P2 & S2).
  destruct (STEP_START_frame b Z_AXIS (STEP_START b Y_AXIS (STEP_START b X_AXIS s)))
    as (F3 & P3 & S3).
  destruct (STEP_START_frame b E_AXIS
              (STEP_START b Z_AXIS (STEP_START b Y_AXIS (STEP_START b X_AXIS s))))
    as (F4 & P4 & S4).
  split; [|split; congruence].
  eapply loop_frame_trans; [|exact F4].
  eapply loop_frame_trans; [|exact F3].
  eapply loop_frame_trans; [exact F1|exact F2].
Qed.

Lemma after_ends_frame b s :
  loop_frame s (after_ends b s)
  /\ step_events_completed (after_ends b s) = step_events_completed s.
Proof.
  unfold after_ends.
  destruct (STEP_END_frame b X_AXIS s) as (F1 & S1).
  destruct (STEP_END_frame b Y_AXIS (STEP_END b X_AXIS s)) as (F2 & S2).
  destruct (STEP_END_frame b Z_AXIS (STEP_END b Y_AXIS (STEP_END b X_AXIS s))) as (F3 & S3).
  destruct (STEP_END_frame b E_AXIS
              (STEP_END b Z_AXIS (STEP_END b Y_AXIS (STEP_END b X_AXIS s)))) as (F4 & S4).
  split; [|congruence].
  eapply loop_frame_trans; [|exact F4].
  eapply loop_frame_trans; [|exact F3].
  eapply loop_frame_trans; [exact F1|exact F2].
Qed.

Lemma after_ends_counter b s a :
  counter (after_ends b s) a
  = if 0 <? counter s a then int32 (counter s a - step_event_count b) else counter s a.
Proof.
  unfold after_ends. rewrite !STEP_END_counter.
  destruct a; cbn [axis_eqb andb]; rewrite ?STEP_END_counter; cbn [axis_eqb andb];
    rewrite ?STEP_END_counter; cbn [axis_eqb andb];
    rewrite ?STEP_END_counter; cbn [axis_eqb andb]; reflexivity.
Qed.

Lemma after_ends_position b s a :
  count_position (after_ends b s) a
  = if 0 <? counter s a
    then int32 (count_position s a + count_direction s a) else count_position s a.
Proof.
  unfold after_ends.
  destruct (STEP_END_frame b X_AXIS s) as ((_ & D1 & _) & _).
  destruct (STEP_END_frame b Y_AXIS (STEP_END b X_AXIS s)) as ((_ & D2 & _) & _).
  destruct (STEP_END_frame b Z_AXIS (STEP_END b Y_AXIS (STEP_END b X_AXIS s)))
    as ((_ & D3 & _) & _).
  destruct a; rewrite !STEP_END_position, ?STEP_END_counter; cbn [axis_eqb andb];
    rewrite ?STEP_END_counter; cbn [axis_eqb andb];
    rewrite ?STEP_END_counter; cbn [axis_eqb andb];
    rewrite ?D3, ?D2, ?D1; reflexivity.
Qed.

Lemma with_sec_counter r v : counter (with_step_events_completed r v) = counter r.
Proof. reflexivity. Qed.

Lemma with_sec_position r v :
  count_position (with_step_events_completed r v) = count_position r.
Proof. reflexivity. Qed.

Lemma with_sec_sec r v : step_events_completed (with_step_events_completed r v) = v.
Proof. reflexivity. Qed.

Lemma with_sec_frame r v : loop_frame r (with_step_events_completed r v).
Proof. repeat split. Qed.

Lemma step_once_counter b s a :
  counter (step_once b s) a = axis_counter_step b s a.
Proof.
  rewrite step_once_unfold, with_sec_counter.
  rewrite after_ends_counter, after_starts_counter. reflexivity.
Qed.

Lemma step_once_position b s a :
  count_position (step_once b s) a = axis_position_step b s a.
Proof.
  rewrite step_once_unfold, with_sec_position.
  rewrite after_ends_position, after_starts_counter.
  destruct (after_starts_frame b s) as ((_ & D & _) & Pz & _).
  rewrite Pz, D. reflexivity.
Qed.

Lemma step_once_rest b s :
  step_events_completed (step_once b s) = uint32 (step_events_completed s + 1)
  /\ loop_frame s (step_once b s).
Proof.
  rewrite step_once_unfold.
  destruct (after_starts_frame b s) as (F1 & _ & S1).
  destruct (after_ends_frame b (after_starts b s)) as (F2 & S2).
  split.
  - rewrite with_sec_sec, S2, S1. reflexivity.
  - eapply loop_frame_trans; [exact F1|].
    eapply loop_frame_trans; [exact F2|]. apply with_sec_frame.
Qed.

Section Trace.
Context (b : block_t) (cp0 d : axis_array Z).
Let N := step_event_count b.
Hypothesis HN : 1 <= N < 2 ^ 31.
Hypothesis Hsteps : forall a, 0 <= steps b a <= N.
Hypothesis Hd : forall a, d a = 1 \/ d a = -1.
Hypothesis Hcp : forall a, - 2 ^ 31 <= cp0 a < 2 ^ 31.

(** After [c] passes of the step loop, axis [a] has taken [t] steps: the
    Bresenham counter is the initial [-(N/2)] plus [c] increments minus [t]
    decrements, it lies in [(-N, 0]], and the position has moved by [t] in
    the direction of the axis, in the arithmetic of a [long]. *)
Definition traced (c : Z) (s : stepper_state) (a : AxisEnum) : Prop :=
  exists t, 0 <= t <= steps b a
    /\ counter s a = - (N / 2) + c * steps b a - t * N
    /\ - N < counter s a <= 0
    /\ count_position s a = int32 (cp0 a + d a * t).

Lemma traced_step c s a :
  traced c s a -> 0 <= c < N -> count_direction s a = d a ->
  traced (c + 1) (step_once b s) a.
Proof.
  intros (t & Ht & Hc & Hb & Hp) Hcn Hdir.
  pose proof (Hsteps a) as Hs. pose proof (Hcp a) as Hr. pose proof (Hd a) as Hda.
  unfold traced. rewrite step_once_counter, step_once_position.
  unfold axis_counter_step, axis_position_step. fold N.
  rewrite (int32_small (counter s a + steps b a)) by lia.
  destruct (Z.ltb_spec 0 (counter s a + steps b a)) as [Hpos|Hneg].
  - assert (Hle : (c + 1) * steps b a <= N * steps b a) by nia.
    assert (Hdiv : 0 <= N / 2) by (apply Z.div_pos; lia).
    assert (Ht1 : t + 1 <= steps b a) by nia.
    exists (t + 1). rewrite int32_small by lia.
    rewrite Hdir, Hp, int32_add_idemp.
    repeat split; try lia. f_equal. ring.
  - exists t. repeat split; try lia.
Qed.

Lemma traced_final s a :
  traced N s a -> count_position s a = int32 (cp0 a + d a * steps b a).
Proof.
  intros (t & Ht & Hc & Hb & Hp).
  pose proof (Hsteps a) as Hs.
  assert (Hdiv : 0 <= N / 2 < N) by (split; [apply Z.div_pos|apply Z.div_lt_upper_bound]; lia).
  assert (t = steps b a) by nia.
  subst t. exact Hp.
Qed.

Lemma traced_start s a :
  counter s a = int32 (uint32 (- Z.shiftr N 1)) ->
  count_position s a = cp0 a ->
  traced 0 s a.
Proof.
  intros Hc Hp.
  assert (Hdiv : 0 <= N / 2 < N) by (split; [apply Z.div_pos|apply Z.div_lt_upper_bound]; lia).
  assert (E : int32 (uint32 (- Z.shiftr N 1)) = - (N / 2)).
  { rewrite Z.shiftr_div_pow2 by lia. change (2 ^ 1) with 2.
    unfold int32, uint32. rewrite Zplus_mod_idemp_l.
    rewrite Z.mod_small by lia. lia. }
  exists 0. rewrite Hc, E, Hp. pose proof (Hsteps a). pose proof (Hcp a).
  rewrite Z.mul_0_r, Z.add_0_r, int32_small by lia. repeat split; lia.
Qed.

Lemma step_once_frame s : loop_frame s (step_once b s).
Proof.
  pose proof (step_once_rest b s) as (_ & H). exact H.
Qed.

Lemma step_loop_traced n : forall s c,
  (forall a, traced c s a) ->
  step_events_completed s = c -> 0 <= c < N ->
  (forall a, count_direction s a = d a) ->
  let s' := step_loop n b s in
  exists c', c <= c' <= N
    /\ (c' = N \/ c' = c + Z.of_nat n)
    /\ step_events_completed s' = c'
    /\ (forall a, traced c' s' a)
    /\ loop_frame s s'.
Proof.
  induction n as [|n IH]; intros s c Htr Hsec Hc Hdir; cbn zeta.
  - exists c. cbn [step_loop]. repeat split; try lia; auto.
  - cbn [step_loop].
    pose proof (step_once_rest b s) as (Hsec' & Hrest).
    assert (Hs1 : step_events_completed (step_once b s) = c + 1).
    { rewrite Hsec', Hsec. apply uint32_small. lia. }
    assert (Htr1 : forall a, traced (c + 1) (step_once b s) a).
    { intros a. apply traced_step; auto. }
    fold N. rewrite Hs1.
    destruct (Z.leb_spec N (c + 1)) as [Hfin|Hmore].
    + exists (c + 1). assert (c + 1 = N) by lia.
      repeat split; try lia; auto; apply step_once_frame.
    + destruct (IH (step_once b s) (c + 1) Htr1 Hs1 ltac:(lia)) as (c' & Hc' & Hn & Hs' & Ht' & Hf').
      { destruct Hrest as (_ & Hcd & _). rewrite Hcd. exact Hdir. }
      exists c'. split; [lia|]. split; [lia|]. split; [exact Hs'|]. split; [exact Ht'|].
      eapply loop_frame_trans; [apply step_once_frame|exact Hf'].
Qed.

Lemma traced_ext c s s' a :
  counter s' = counter s -> count_position s' = count_position s ->
  traced c s a -> traced c s' a.
Proof.
  intros H1 H2 (t & Ht). exists t. rewrite H1, H2. exact Ht.
Qed.

Context (i : Z) (P : planner_state).
Hypothesis HP : block_buffer P i = b.

(** A block that is being traced, [c] step events done. *)
Definition executing (c : Z) (s : stepper_state) : Prop :=
  current_block s = Some i
  /\ step_events_completed s = c
  /\ 0 <= c < N
  /\ (forall a, traced c s a)
  /\ (forall a, count_direction s a = d a)
  /\ good_loops (step_loops s)
  /\ good_loops (step_loops_nominal s)
  /\ cleaning_buffer_counter s = 0.

(** The block has retired with every axis at its target. *)
Definition retired (m : machine) : Prop :=
  current_block (stepper m) = None
  /\ planner m = plan_discard_current_block cfg P
  /\ forall a, count_position (stepper m) a = int32 (cp0 a + d a * steps b a).

Lemma ISR_of_executing inp s c :
  executing c s ->
  ISR cfg inp {| planner := P; stepper := s |} = ISR_execute cfg inp P s.
Proof.
  intros (Hcur & _ & _ & _ & _ & _ & _ & Hcl).
  unfold ISR, ISR_latch. cbn [planner stepper]. rewrite Hcl, Hcur. reflexivity.
Qed.

End Trace.

Lemma SET_STEP_DIR_spec a s :
  out_bits (SET_STEP_DIR a s) = out_bits s
  /\ current_block (SET_STEP_DIR a s) = current_block s
  /\ count_position (SET_STEP_DIR a s) = count_position s
  /\ cleaning_buffer_counter (SET_STEP_DIR a s) = cleaning_buffer_counter s
  /\ check_endstops (SET_STEP_DIR a s) = check_endstops s
  /\ forall a', count_direction (SET_STEP_DIR a s) a'
       = if axis_eqb a a'
         then (if TEST (out_bits s) (axis_index a') then -1 else 1)
         else count_direction s a'.
Proof.
  unfold SET_STEP_DIR.
  destruct (TEST (out_bits s) (axis_index a)) eqn:E;
    (repeat split; intros a'; cbn [count_direction with_count_direction]; unfold aset;
     destruct (axis_eqb_spec a a') as [<-|_]; [rewrite E|]; reflexivity).
Qed.

Lemma set_stepper_direction_spec s :
  out_bits (set_stepper_direction s) = out_bits s
  /\ current_block (set_stepper_direction s) = current_block s
  /\ count_position (set_stepper_direction s) = count_position s
  /\ cleaning_buffer_counter (set_stepper_direction s) = cleaning_buffer_counter s
  /\ check_endstops (set_stepper_direction s) = check_endstops s
  /\ forall a, count_direction (set_stepper_direction s) a
       = if TEST (out_bits s) (axis_index a) then -1 else 1.
Proof.
  unfold set_stepper_direction.
  destruct (SET_STEP_DIR_spec X_AXIS s) as (A1 & A2 & A3 & A4 & A5 & A6).
  set (s1 := SET_STEP_DIR X_AXIS s) in *.
  destruct (SET_STEP_DIR_spec Y_AXIS s1) as (B1 & B2 & B3 & B4 & B5 & B6).
  set (s2 := SET_STEP_DIR Y_AXIS s1) in *.
  destruct (SET_STEP_DIR_spec Z_AXIS s2) as (C1 & C2 & C3 & C4 & C5 & C6).
  set (s3 := SET_STEP_DIR Z_AXIS s2) in *.
  destruct (SET_STEP_DIR_spec E_AXIS s3) as (D1 & D2 & D3 & D4 & D5 & D6).
  repeat split; try congruence.
  intros a. rewrite D6, C1, B1, A1.
  destruct a; cbn [axis_eqb]; try reflexivity.
  - rewrite C6, B6, A6. cbn [axis_eqb]. reflexivity.
  - rewrite C6, B6, A1. cbn [axis_eqb]. reflexivity.
  - rewrite C6, B1, A1. cbn [axis_eqb]. reflexivity.
Qed.

Lemma set_stepper_direction_consistent s : dir_consistent (set_stepper_direction s).
Proof.
  intros a. destruct (set_stepper_direction_spec s) as (O & _ & _ & _ & _ & D).
  rewrite D, O. reflexivity.
Qed.

Lemma st_init_consistent s : dir_consistent (st_init s).
Proof. apply set_stepper_direction_consistent. Qed.

Lemma trapezoid_generator_reset_spec b s :
  dir_consistent s ->
  let s' := trapezoid_generator_reset cfg b s in
  (forall a, count_direction s' a
             = if TEST (direction_bits b) (axis_index a) then -1 else 1)
  /\ good_loops (step_loops s')
  /\ good_loops (step_loops_nominal s')
  /\ current_block s' = current_block s
  /\ count_position s' = count_position s
  /\ cleaning_buffer_counter s' = cleaning_buffer_counter s
  /\ check_endstops s' = check_endstops s.
Proof.
  intros Hdc. unfold trapezoid_generator_reset.
  set (s0 := if direction_bits b =? out_bits s then s
             else set_stepper_direction (with_out_bits s (direction_bits b))).
  assert (H0 : (forall a, count_direction s0 a
                          = if TEST (direction_bits b) (axis_index a) then -1 else 1)
               /\ current_block s0 = current_block s
               /\ count_position s0 = count_position s
               /\ cleaning_buffer_counter s0 = cleaning_buffer_counter s
               /\ check_endstops s0 = check_endstops s).
  { unfold s0. destruct (Z.eqb_spec (direction_bits b) (out_bits s)) as [E|_].
    - rewrite E. split; [exact Hdc|auto].
    - destruct (set_stepper_direction_spec (with_out_bits s (direction_bits b)))
        as (_ & S2 & S3 & S4 & S5 & S6).
      split; [exact S6|]. rewrite S2, S3, S4, S5. repeat split. }
  clearbody s0.
  destruct H0 as (D & C1 & C2 & C3 & C4).
  rewrite (calc_timer_pair cfg (nominal_rate b) (with_deceleration_time s0 0)).
  destruct (calc_timer_state cfg (nominal_rate b) (with_deceleration_time s0 0))
    as (k1 & Hk1 & ->).
  cbn [step_loops with_step_loops with_OCR1A_nominal].
  match goal with |- context [calc_timer cfg ?r ?s1] =>
    rewrite (calc_timer_pair cfg r s1);
    destruct (calc_timer_state cfg r s1) as (k2 & Hk2 & ->) end.
  cbn. repeat split; auto.
Qed.

End Bresenham.

(** ** An endstop trigger retires the block *)

Section Trigger.
Context (cfg : config).




End Trigger.

Import Examples.




End StepperFacts.

(** ** The planner front end: zero-length moves *)

Module PlannerFacts.
Import Int IntFacts Planner Examples.

Section FrontEnd.
Context (cfg : config) (g : settings).

(** The lookahead passes only rewrite [block_buffer]. *)
Lemma planner_recalculate_buffer_only p p' :
  planner_recalculate cfg p = Some p' ->
  exists buf, p' = with_block_buffer p buf.
Proof.
  unfold planner_recalculate, planner_recalculate_trapezoids.
  set (p1 := planner_forward_pass cfg (planner_reverse_pass cfg p)).
  assert (H1 : exists buf, p1 = with_block_buffer p buf).
  { unfold p1, planner_forward_pass, planner_reverse_pass.
    destruct (3 <? _).
    - match goal with |- context [forward_loop ?c ?f ?h ?t ?a ?b ?bf] =>
        destruct (forward_loop c f h t a b bf) as [[bf1 k1] k2] end.
      eexists. reflexivity.
    - match goal with |- context [forward_loop ?c ?f ?h ?t ?a ?b ?bf] =>
        destruct (forward_loop c f h t a b bf) as [[bf1 k1] k2] end.
      destruct p. eexists. reflexivity. }
  destruct H1 as (buf1 & ->). cbn [block_buffer_head block_buffer_tail block_buffer
                                    with_block_buffer].
  destruct (trapezoids_loop _ _ _ _ _ _) as [[bf2 nx]|]; cbn [bind]; [|discriminate].
  destruct nx as [n|].
  - destruct (calculate_trapezoid_for_block _ _ _); cbn [bind]; [|discriminate].
    intros [= <-]. eexists. reflexivity.
  - intros [= <-]. eexists. reflexivity.
Qed.

(** The part of the planner a discarded move can touch: the free slot at the
    head of the ring, and [position[E_AXIS]] on an extruder change. *)
Lemma prepare_block_planner p x y z e extruder pr :
  prepare_block cfg g p x y z e extruder = Some pr ->
  block_buffer (pr_planner pr) = block_buffer p
  /\ block_buffer_head (pr_planner pr) = block_buffer_head p
  /\ block_buffer_tail (pr_planner pr) = block_buffer_tail p
  /\ previous_speed (pr_planner pr) = previous_speed p
  /\ previous_nominal_speed (pr_planner pr) = previous_nominal_speed p
  /\ last_extruder (pr_planner pr) = last_extruder p
  /\ (forall a, a <> E_AXIS -> position (pr_planner pr) a = position p a)
  /\ (EXTRUDERS cfg <= 1 \/ last_extruder p = extruder -> pr_planner pr = p)
  /\ (forall a, pr_delta pr a = int32 (pr_target pr a - position (pr_planner pr) a)).
Proof.
  unfold prepare_block.
  destruct (F32.lround _) as [tx|]; cbn [bind]; [|discriminate].
  destruct (F32.lround _) as [ty|]; cbn [bind]; [|discriminate].
  destruct (F32.lround _) as [tz|]; cbn [bind]; [|discriminate].
  destruct (F32.lround _) as [te|]; cbn [bind]; [|discriminate].
  set (cond := (1 <? EXTRUDERS cfg) && negb (last_extruder p =? extruder) && _).
  destruct cond eqn:Hcond.
  - destruct (F32.lround _) as [pe|]; cbn [bind]; [|discriminate].
    destruct (F32.to_long _) as [se|]; cbn [bind]; [|discriminate].
    intros [= <-]. cbn.
    repeat split; auto.
    + intros a Ha. apply aset_other. congruence.
    + intros Hno. exfalso. unfold cond in Hcond.
      apply andb_prop in Hcond. destruct Hcond as [Hc _].
      apply andb_prop in Hc. destruct Hc as [Hc1 Hc2].
      destruct Hno as [Hle|Heq].
      * apply Z.ltb_lt in Hc1. lia.
      * rewrite Heq, Z.eqb_refl in Hc2. discriminate.
  - cbn [bind].
    destruct (F32.to_long _) as [se|]; cbn [bind]; [|discriminate].
    intros [= <-]. cbn. repeat split; auto.
Qed.

Lemma complete_block_head pr feed_rate extruder driver nbh p' :
  complete_block cfg g pr feed_rate extruder driver nbh = Some p' ->
  block_buffer_head p' = uint8 nbh
  /\ block_buffer_tail p' = block_buffer_tail (pr_planner pr)
  /\ position p' = pr_target pr.
Proof.
  unfold complete_block.
  destruct (slowdown _ _ _ _) as [isec|]; cbn [bind]; [|discriminate].
  destruct (F32.to_ulong _) as [nr|]; cbn [bind]; [|discriminate].
  match goal with |- context [if ?c then _ else _] => destruct c end.
  - destruct (F32.to_ulong _) as [nr'|]; cbn [bind]; [|discriminate].
    destruct (F32.to_ulong _) as [acc|]; cbn [bind]; [|discriminate].
    destruct (F32.to_long _) as [ar|]; cbn [bind]; [|discriminate].
    destruct (junction_speeds _ _ _ _ _ _) as [vmax safe].
    destruct (calculate_trapezoid_for_block _ _ _) as [blk|]; cbn [bind]; [|discriminate].
    intros H. apply planner_recalculate_buffer_only in H. destruct H as (buf & ->).
    repeat split.
  - cbn [bind].
    destruct (F32.to_ulong _) as [acc|]; cbn [bind]; [|discriminate].
    destruct (F32.to_long _) as [ar|]; cbn [bind]; [|discriminate].
    destruct (junction_speeds _ _ _ _ _ _) as [vmax safe].
    destruct (calculate_trapezoid_for_block _ _ _) as [blk|]; cbn [bind]; [|discriminate].
    intros H. apply planner_recalculate_buffer_only in H. destruct H as (buf & ->).
    repeat split.
Qed.

(** C5 (amended).  With room in the ring and the target conversions
    defined, [plan_buffer_line] discards the move exactly when the computed
    [step_event_count] is less than or equal to [DROP_SEGMENTS]; for every
    input with [step_event_count > DROP_SEGMENTS] it goes on to complete the
    block, and when it returns the head of the ring has advanced by one
    slot. *)
Theorem plan_buffer_line_discards_iff (p : planner_state) (x y z e feed_rate : float)
    (extruder driver : Z) (pr : prepared) :
  block_buffer_tail p <> next_block_index cfg (block_buffer_head p) ->
  prepare_block cfg g p x y z e extruder = Some pr ->
  ((exists p', plan_buffer_line cfg g p x y z e feed_rate extruder driver = Discarded p')
   <-> step_event_count (pr_block pr) <= DROP_SEGMENTS cfg)
  /\ (DROP_SEGMENTS cfg < step_event_count (pr_block pr) ->
      plan_buffer_line cfg g p x y z e feed_rate extruder driver
      = match complete_block cfg g pr feed_rate extruder driver
                (next_block_index cfg (block_buffer_head p)) with
        | Some p' => Appended p'
        | None => Undefined
        end)
  /\ (forall p', plan_buffer_line cfg g p x y z e feed_rate extruder driver = Appended p' ->
        DROP_SEGMENTS cfg < step_event_count (pr_block pr)
        /\ block_buffer_head p' = uint8 (next_block_index cfg (block_buffer_head p))).
Proof.
  intros Hroom Hpr. unfold plan_buffer_line. rewrite Hpr.
  destruct (Z.eqb_spec (block_buffer_tail p) (next_block_index cfg (block_buffer_head p)));
    [contradiction|].
  destruct (Z.leb_spec (step_event_count (pr_block pr)) (DROP_SEGMENTS cfg)) as [Hle|Hgt].
  - split; [split; [intros _; exact Hle|intros _; eexists; reflexivity]|].
    split; [intros; lia|]. intros p' H. discriminate.
  - split; [split; [|intros; lia]|].
    + intros (p' & H).
      destruct (complete_block _ _ _ _ _ _ _); discriminate.
    + split; [reflexivity|].
      intros p' H.
      destruct (complete_block _ _ _ _ _ _ _) as [p1|] eqn:Hc; [|discriminate].
      injection H as <-. split; [exact Hgt|].
      apply complete_block_head in Hc. apply Hc.
Qed.

(** C10 (amended).  When [plan_buffer_line] discards a move it has not
    advanced [block_buffer_head] and has not written [previous_speed[]] or
    [previous_nominal_speed]; every slot of the ring other than the free slot
    at the head is unchanged, so the consumer sees the same blocks; [position]
    is unchanged on X, Y and Z, and on E as well unless the build has more
    than one extruder and the move changes the extruder, in which case
    [position[E_AXIS]] has been rescaled.  Because [position] keeps its value,
    the step delta of the next move is taken from the position before the
    discarded move. *)
Theorem discard_keeps_planner_state (p p' : planner_state) (x y z e feed_rate : float)
    (extruder driver : Z) :
  plan_buffer_line cfg g p x y z e feed_rate extruder driver = Discarded p' ->
  block_buffer_head p' = block_buffer_head p
  /\ block_buffer_tail p' = block_buffer_tail p
  /\ previous_speed p' = previous_speed p
  /\ previous_nominal_speed p' = previous_nominal_speed p
  /\ last_extruder p' = last_extruder p
  /\ (forall j, j <> block_buffer_head p -> block_buffer p' j = block_buffer p j)
  /\ Stepper.plan_get_current_block p' = Stepper.plan_get_current_block p
  /\ (forall a, a <> E_AXIS -> position p' a = position p a)
  /\ (EXTRUDERS cfg <= 1 \/ last_extruder p = extruder ->
      position p' = position p
      /\ forall x' y' z' e' pr',
           prepare_block cfg g p' x' y' z' e' extruder = Some pr' ->
           forall a, pr_delta pr' a = int32 (pr_target pr' a - position p a)).
Proof.
  unfold plan_buffer_line.
  destruct (Z.eqb_spec (block_buffer_tail p) (next_block_index cfg (block_buffer_head p)));
    [discriminate|].
  destruct (prepare_block cfg g p x y z e extruder) as [pr|] eqn:Hpr; [|discriminate].
  destruct (Z.leb_spec (step_event_count (pr_block pr)) (DROP_SEGMENTS cfg)) as [Hle|Hgt].
  2: { destruct (complete_block _ _ _ _ _ _ _); discriminate. }
  intros [= <-].
  destruct (prepare_block_planner p x y z e extruder pr Hpr)
    as (B & H & T & PS & PN & LE & PX & Same & _).
  cbn [block_buffer_head block_buffer_tail previous_speed previous_nominal_speed
       last_extruder block_buffer position with_block_buffer].
  split; [exact H|]. split; [exact T|]. split; [exact PS|]. split; [exact PN|].
  split; [exact LE|]. split.
  { intros j Hj. unfold upd_block. rewrite B, H.
    destruct (Z.eqb_spec (block_buffer_head p) j); [congruence|reflexivity]. }
  split.
  { unfold Stepper.plan_get_current_block.
    cbn [block_buffer_head block_buffer_tail with_block_buffer]. rewrite H, T. reflexivity. }
  split; [exact PX|].
  intros Hno. specialize (Same Hno). rewrite Same.
  split; [reflexivity|].
  intros x' y' z' e' pr' Hpr'.
  destruct (prepare_block_planner _ x' y' z' e' extruder pr' Hpr')
    as (_ & _ & _ & _ & _ & _ & _ & Same' & D').
  cbn [last_extruder with_block_buffer] in Same'.
  specialize (Same' Hno).
  intros a. rewrite D', Same'. reflexivity.
Qed.

End FrontEnd.
Lemma plan_buffer_line_discards_iff_witness :
  (if prepare_block cfg_example settings_example planner_empty
        (F32.of_Z 10) zero zero zero 0 then true else false) = true
  /\ match prepare_block cfg_example settings_example planner_empty
            (F32.of_Z 10) zero zero zero 0 with
     | Some pr =>
         ((exists p', plan_buffer_line cfg_example settings_example planner_empty
                        (F32.of_Z 10) zero zero zero (F32.of_Z 60) 0 0 = Discarded p')
          <-> step_event_count (pr_block pr) <= DROP_SEGMENTS cfg_example)
         /\ (DROP_SEGMENTS cfg_example < step_event_count (pr_block pr) ->
             plan_buffer_line cfg_example settings_example planner_empty
               (F32.of_Z 10) zero zero zero (F32.of_Z 60) 0 0
             = match complete_block cfg_example settings_example pr (F32.of_Z 60) 0 0
                       (next_block_index cfg_example (block_buffer_head planner_empty)) with
               | Some p' => Appended p'
               | None => Undefined
               end)
         /\ (forall p', plan_buffer_line cfg_example settings_example planner_empty
                          (F32.of_Z 10) zero zero zero (F32.of_Z 60) 0 0 = Appended p' ->
               DROP_SEGMENTS cfg_example < step_event_count (pr_block pr)
               /\ block_buffer_head p'
                  = uint8 (next_block_index cfg_example (block_buffer_head planner_empty)))
     | None => True
     end.
Proof.
  split; [vm_compute; reflexivity|].
  destruct (prepare_block cfg_example settings_example planner_empty
              (F32.of_Z 10) zero zero zero 0) as [pr|] eqn:E; [|exact I].
  apply (plan_buffer_line_discards_iff cfg_example settings_example planner_empty
           (F32.of_Z 10) zero zero zero (F32.of_Z 60) 0 0 pr).
  - vm_compute. discriminate.
  - exact E.
Defined.

(** C5, as stated, fails at the threshold: a move of exactly [DROP_SEGMENTS]
    = 5 steps (0.0625 mm on X at 80 steps/mm) has [step_event_count] equal to
    [DROP_SEGMENTS], not less, and is discarded. *)
Lemma plan_buffer_line_discards_at_threshold :
  match prepare_block cfg_example settings_example planner_empty
          (ratio 1 16) zero zero zero 0 with
  | Some pr => step_event_count (pr_block pr) = DROP_SEGMENTS cfg_example
               /\ ~ step_event_count (pr_block pr) < DROP_SEGMENTS cfg_example
  | None => False
  end
  /\ match plan_buffer_line cfg_example settings_example planner_empty
            (ratio 1 16) zero zero zero (F32.of_Z 60) 0 0 with
     | Discarded _ => True
     | _ => False
     end.
Proof.
  split.
  - vm_compute. split; [reflexivity|discriminate].
  - vm_compute. exact I.
Qed.

Lemma discard_keeps_planner_state_witness :
  match plan_buffer_line cfg_example settings_example planner_empty
          (ratio 1 16) zero zero zero (F32.of_Z 60) 0 0 with
  | Discarded p' =>
      block_buffer_head p' = block_buffer_head planner_empty
      /\ block_buffer_tail p' = block_buffer_tail planner_empty
      /\ previous_speed p' = previous_speed planner_empty
      /\ previous_nominal_speed p' = previous_nominal_speed planner_empty
      /\ last_extruder p' = last_extruder planner_empty
      /\ (forall j, j <> block_buffer_head planner_empty ->
            block_buffer p' j = block_buffer planner_empty j)
      /\ Stepper.plan_get_current_block p'
         = Stepper.plan_get_current_block planner_empty
      /\ (forall a, a <> E_AXIS -> position p' a = position planner_empty a)
      /\ (EXTRUDERS cfg_example <= 1 \/ last_extruder planner_empty = 0 ->
          position p' = position planner_empty
          /\ forall x' y' z' e' pr',
               prepare_block cfg_example settings_example p' x' y' z' e' 0 = Some pr' ->
               forall a, pr_delta pr' a
                         = int32 (pr_target pr' a - position planner_empty a))
  | _ => False
  end.
Proof.
  assert (Hshape : match plan_buffer_line cfg_example settings_example planner_empty
                           (ratio 1 16) zero zero zero (F32.of_Z 60) 0 0 with
                   | Discarded _ => True
                   | _ => False
                   end) by (vm_compute; exact I).
  revert Hshape.
  destruct (plan_buffer_line cfg_example settings_example planner_empty
              (ratio 1 16) zero zero zero (F32.of_Z 60) 0 0) as [p'|p'| |] eqn:E;
    intros Hshape; try contradiction.
  apply (discard_keeps_planner_state cfg_example settings_example planner_empty p'
           (ratio 1 16) zero zero zero (F32.of_Z 60) 0 0 E).
Defined.

(** C10, as stated, fails in a build with two extruders: a move that selects
    the second extruder (500 steps/mm against 625) and stays below the drop
    threshold is discarded, yet [position[E_AXIS]] has been rescaled from
    1000 to 800 steps before the return. *)
Lemma discard_rescales_e_position :
  position planner_e1000 E_AXIS = 1000
  /\ match plan_buffer_line cfg_two_extruders settings_example planner_e1000
            zero zero zero (ratio 8 5) (F32.of_Z 60) 1 0 with
     | Discarded p' => position p' E_AXIS = 800
                       /\ position p' E_AXIS <> position planner_e1000 E_AXIS
     | _ => False
     end.
Proof.
  split; [reflexivity|].
  vm_compute. split; [reflexivity|discriminate].
Qed.

End PlannerFacts.

(** ** The multiply routines of the handler *)

Module MultiplyFacts.
Import Int IntFacts Stepper.


Lemma byte_of_range x k : 0 <= byte_of x k < 256.
Proof.
  unfold byte_of. change 255 with (Z.ones 8). rewrite Z.land_ones by lia.
  apply Z.mod_pos_bound. lia.
Qed.

Lemma byte_of_div x k : 0 <= k -> byte_of x k = (x / 2 ^ (8 * k)) mod 256.
Proof.
  intros Hk. unfold byte_of. change 255 with (Z.ones 8).
  rewrite Z.land_ones by lia. rewrite Z.shiftr_div_pow2 by lia. reflexivity.
Qed.

Lemma land_1_mod x : Z.land x 1 = x mod 2.
Proof. change 1 with (Z.ones 1). rewrite Z.land_ones by lia. reflexivity. Qed.

Lemma land_255_mod x : Z.land x 255 = x mod 256.
Proof. change 255 with (Z.ones 8). rewrite Z.land_ones by lia. reflexivity. Qed.

(** The bytes of a 24-bit and of a 32-bit operand. *)
Lemma bytes_24 x :
  0 <= x < 2 ^ 24 ->
  x = byte_of x 0 + 256 * byte_of x 1 + 65536 * byte_of x 2.
Proof.
  intros Hx. rewrite !byte_of_div by lia.
  change (2 ^ (8 * 0)) with 1. change (2 ^ (8 * 1)) with 256.
  change (2 ^ (8 * 2)) with 65536.
  Z.to_euclidean_division_equations. lia.
Qed.

Lemma bytes_32 x :
  0 <= x < 2 ^ 32 ->
  x = byte_of x 0 + 256 * byte_of x 1 + 65536 * byte_of x 2 + 16777216 * byte_of x 3.
Proof.
  intros Hx. rewrite !byte_of_div by lia.
  change (2 ^ (8 * 0)) with 1. change (2 ^ (8 * 1)) with 256.
  change (2 ^ (8 * 2)) with 65536. change (2 ^ (8 * 3)) with 16777216.
  Z.to_euclidean_division_equations. lia.
Qed.

Lemma byte_product a b : 0 <= a < 256 -> 0 <= b < 256 -> 0 <= a * b <= 65025.
Proof. intros. nia. Qed.

(** X1.  [MultiU16X8toH16] returns the high 16 bits of the 24-bit product
    of its operands, plus the lowest bit of the product (the carry its
    [lsr r0] shifts out): the exact high word or one more, never less and
    never wrapped. *)
Theorem MultiU16X8toH16_high_word (charIn1 intIn2 : Z) :
  0 <= charIn1 < 2 ^ 8 -> 0 <= intIn2 < 2 ^ 16 ->
  MultiU16X8toH16 charIn1 intIn2
  = charIn1 * intIn2 / 2 ^ 8 + (charIn1 * intIn2) mod 2
  /\ charIn1 * intIn2 / 2 ^ 8 <= MultiU16X8toH16 charIn1 intIn2
     <= charIn1 * intIn2 / 2 ^ 8 + 1.
Proof.
  intros Hc Hi.
  assert (E : MultiU16X8toH16 charIn1 intIn2
              = charIn1 * intIn2 / 2 ^ 8 + (charIn1 * intIn2) mod 2).
  { unfold MultiU16X8toH16. cbv zeta.
    rewrite !byte_of_div by lia. rewrite land_1_mod.
    rewrite Z.shiftr_div_pow2 by lia.
    change (2 ^ (8 * 0)) with 1. change (2 ^ (8 * 1)) with 256.
    rewrite !Z.div_1_r.
    rewrite (Z.mod_small charIn1 256) by lia.
    assert (Hhi : (intIn2 / 256) mod 256 = intIn2 / 256).
    { apply Z.mod_small. Z.to_euclidean_division_equations. lia. }
    rewrite Hhi.
    set (h := intIn2 / 256). set (l := intIn2 mod 256).
    assert (Hi2 : intIn2 = 256 * h + l) by (unfold h, l; apply Z.div_mod; lia).
    assert (Hl : 0 <= l < 256) by (unfold l; apply Z.mod_pos_bound; lia).
    assert (Hh : 0 <= h < 256) by (unfold h; Z.to_euclidean_division_equations; lia).
    assert (Hp : charIn1 * intIn2 = 256 * (charIn1 * h) + charIn1 * l) by (rewrite Hi2; ring).
    rewrite Hp.
    assert (Hcl : 0 <= charIn1 * l <= 255 * 255) by nia.
    assert (Hch : 0 <= charIn1 * h <= 255 * 255) by nia.
    set (cl := charIn1 * l) in *. set (ch := charIn1 * h) in *. clearbody cl ch.
    change (2 ^ 8) with 256.
    unfold uint16. change (2 ^ 16) with 65536.
    rewrite Z.mod_small by (Z.to_euclidean_division_equations; lia).
    Z.to_euclidean_division_equations; lia. }
  split; [exact E|]. rewrite E.
  pose proof (Z.mod_pos_bound (charIn1 * intIn2) 2 ltac:(lia)). lia.
Qed.


Lemma MultiU16X8toH16_high_word_witness :
  MultiU16X8toH16 201 40001 = 201 * 40001 / 2 ^ 8 + (201 * 40001) mod 2
  /\ 201 * 40001 / 2 ^ 8 <= MultiU16X8toH16 201 40001 <= 201 * 40001 / 2 ^ 8 + 1.
Proof. apply (MultiU16X8toH16_high_word 201 40001); lia. Defined.

(** X2.  [MultiU24X32toH16] is within one of the exact value
    [longIn1 * longIn2 >> 24] whenever that value fits the 16-bit result with
    room for the rounding carry: the partial products it leaves out and the
    carry it adds cost at most one unit either way, as the comment above the
    routine says. *)
Theorem MultiU24X32toH16_high_word (longIn1 longIn2 : Z) :
  0 <= longIn1 < 2 ^ 24 -> 0 <= longIn2 < 2 ^ 32 ->
  longIn1 * longIn2 / 2 ^ 24 < 2 ^ 16 - 1 ->
  longIn1 * longIn2 / 2 ^ 24 - 1 <= MultiU24X32toH16 longIn1 longIn2
  <= longIn1 * longIn2 / 2 ^ 24 + 1.
Proof.
  intros H1 H2 Hfit.
  unfold MultiU24X32toH16. cbv zeta.
  pose proof (bytes_24 longIn1 H1) as E1.
  pose proof (bytes_32 longIn2 H2) as E2.
  pose proof (byte_of_range longIn1 0) as Ra1.
  pose proof (byte_of_range longIn1 1) as Rb1.
  pose proof (byte_of_range longIn1 2) as Rc1.
  pose proof (byte_of_range longIn2 0) as Ra2.
  pose proof (byte_of_range longIn2 1) as Rb2.
  pose proof (byte_of_range longIn2 2) as Rc2.
  pose proof (byte_of_range longIn2 3) as Rd2.
  set (a1 := byte_of longIn1 0) in *. set (b1 := byte_of longIn1 1) in *.
  set (c1 := byte_of longIn1 2) in *.
  set (a2 := byte_of longIn2 0) in *. set (b2 := byte_of longIn2 1) in *.
  set (c2 := byte_of longIn2 2) in *. set (d2 := byte_of longIn2 3) in *.
  clearbody a1 b1 c1 a2 b2 c2 d2.
  assert (EP : longIn1 * longIn2
               = a1 * a2 + 256 * (a1 * b2 + b1 * a2)
                 + 65536 * (a1 * c2 + b1 * b2 + c1 * a2)
                 + 16777216 * (b1 * c2 + c1 * b2 + d2 * a1)
                 + 4294967296 * (c1 * c2 + d2 * b1)
                 + 1099511627776 * (d2 * c1)) by (rewrite E1, E2; ring).
  rewrite EP in *. clear EP E1 E2 H1 H2.
  rewrite !land_1_mod, !land_255_mod, !Z.shiftr_div_pow2, !Z.shiftl_mul_pow2 by lia.
  change (2 ^ 8) with 256 in *. change (2 ^ 16) with 65536 in *.
  change (2 ^ 24) with 16777216 in *.
  pose proof (byte_product a1 a2 Ra1 Ra2). pose proof (byte_product a1 b2 Ra1 Rb2).
  pose proof (byte_product b1 a2 Rb1 Ra2). pose proof (byte_product a1 c2 Ra1 Rc2).
  pose proof (byte_product b1 b2 Rb1 Rb2). pose proof (byte_product c1 a2 Rc1 Ra2).
  pose proof (byte_product b1 c2 Rb1 Rc2). pose proof (byte_product c1 b2 Rc1 Rb2).
  pose proof (byte_product d2 a1 Rd2 Ra1). pose proof (byte_product c1 c2 Rc1 Rc2).
  pose proof (byte_product d2 b1 Rd2 Rb1). pose proof (byte_product d2 c1 Rd2 Rc1).
  set (p00 := a1 * a2) in *. set (p01 := a1 * b2) in *. set (p10 := b1 * a2) in *.
  set (p02 := a1 * c2) in *. set (p11 := b1 * b2) in *. set (p20 := c1 * a2) in *.
  set (p12 := b1 * c2) in *. set (p21 := c1 * b2) in *. set (p03 := d2 * a1) in *.
  set (p22 := c1 * c2) in *. set (p13 := d2 * b1) in *. set (p23 := d2 * c1) in *.
  clearbody p00 p01 p10 p02 p11 p20 p12 p21 p03 p22 p13 p23.
  clear Ra1 Rb1 Rc1 Ra2 Rb2 Rc2 Rd2.
  assert (Z23 : p23 = 0) by (Z.to_euclidean_division_equations; lia).
  assert (S22 : p22 + p13 < 256) by (Z.to_euclidean_division_equations; lia).
  subst p23.
  rewrite (Z.mod_small p22 256) by lia.
  rewrite (Z.mod_small p13 256) by lia.
  set (sum := p01 / 256 + p12 * 256 + p22 * 65536 + p21 * 256 + p02 + p11 + p20 + p10 / 256).
  assert (Hsum : 0 <= sum < 16777216).
  { unfold sum. Z.to_euclidean_division_equations. lia. }
  rewrite (Z.mod_small sum 16777216) by lia.
  unfold uint16. change (2 ^ 16) with 65536.
  assert (Hres : 0 <= sum / 256 + sum mod 2 + p03 + p13 * 256 < 65536).
  { unfold sum in *. Z.to_euclidean_division_equations. lia. }
  rewrite Z.mod_small by exact Hres.
  unfold sum in *. Z.to_euclidean_division_equations. lia.
Qed.


Lemma MultiU24X32toH16_high_word_witness :
  100000 * 5000000 / 2 ^ 24 - 1 <= MultiU24X32toH16 100000 5000000
  <= 100000 * 5000000 / 2 ^ 24 + 1.
Proof.
  apply (MultiU24X32toH16_high_word 100000 5000000); [lia|lia|vm_compute; reflexivity].
Defined.

End MultiplyFacts.

(** ** The ring of blocks *)

Module RingFacts.
Import Int IntFacts Stepper Planner StepperControl PlannerControl.


Section Ring.
Context (cfg : config).

(** The capacity of the ring is a power of two, as the comment at
    [next_block_index] requires. *)
Definition power_of_two_ring : Prop :=
  exists k, 0 <= k /\ BLOCK_BUFFER_SIZE cfg = 2 ^ k.

(** Head and tail are indices of the ring. *)
Definition ring_ok (p : planner_state) : Prop :=
  power_of_two_ring
  /\ 0 <= block_buffer_head p < BLOCK_BUFFER_SIZE cfg
  /\ 0 <= block_buffer_tail p < BLOCK_BUFFER_SIZE cfg.

(** The [j]-th queued slot, counted from the tail. *)
Definition slot (p : planner_state) (j : Z) : Z :=
  BLOCK_MOD cfg (block_buffer_tail p + j).

Lemma size_pos : power_of_two_ring -> 0 < BLOCK_BUFFER_SIZE cfg.
Proof. intros (k & Hk & ->). apply Z.pow_pos_nonneg; lia. Qed.

Lemma BLOCK_MOD_mod n :
  power_of_two_ring -> BLOCK_MOD cfg n = n mod BLOCK_BUFFER_SIZE cfg.
Proof.
  intros (k & Hk & E). unfold BLOCK_MOD. rewrite E.
  rewrite Z.sub_1_r, <- Z.ones_equiv, Z.land_ones by lia. reflexivity.
Qed.

Lemma BLOCK_MOD_range n :
  power_of_two_ring -> 0 <= BLOCK_MOD cfg n < BLOCK_BUFFER_SIZE cfg.
Proof.
  intros H. rewrite BLOCK_MOD_mod by exact H.
  apply Z.mod_pos_bound, size_pos, H.
Qed.

Lemma BLOCK_MOD_small n :
  power_of_two_ring -> 0 <= n < BLOCK_BUFFER_SIZE cfg -> BLOCK_MOD cfg n = n.
Proof. intros H Hn. rewrite BLOCK_MOD_mod by exact H. apply Z.mod_small, Hn. Qed.

(** The indices of a ring of at most 128 slots fit the [int8_t] that
    [next_block_index] and [prev_block_index] take and return. *)
Lemma next_block_index_small i :
  power_of_two_ring -> BLOCK_BUFFER_SIZE cfg <= 128 -> - 128 <= i < 128 ->
  next_block_index cfg i = BLOCK_MOD cfg (i + 1).
Proof.
  intros H Hs Hi. unfold next_block_index.
  rewrite (int8_small i) by lia.
  pose proof (BLOCK_MOD_range (i + 1) H). apply int8_small. lia.
Qed.

Lemma prev_block_index_small i :
  power_of_two_ring -> BLOCK_BUFFER_SIZE cfg <= 128 -> - 128 <= i < 128 ->
  prev_block_index cfg i = BLOCK_MOD cfg (i - 1).
Proof.
  intros H Hs Hi. unfold prev_block_index.
  rewrite (int8_small i) by lia.
  pose proof (BLOCK_MOD_range (i - 1) H). apply int8_small. lia.
Qed.

(** Stored in an [unsigned char], the next index is the masked successor in
    every ring of at most 256 slots. *)
Lemma int8_mod_ring x :
  power_of_two_ring -> BLOCK_BUFFER_SIZE cfg <= 256 ->
  BLOCK_MOD cfg (int8 x) = BLOCK_MOD cfg x.
Proof.
  intros H Hs. rewrite !BLOCK_MOD_mod by exact H.
  destruct H as (k & Hk & E). rewrite E in *.
  assert (Hk8 : k <= 8).
  { destruct (Z.le_gt_cases k 8) as [|Hgt]; [assumption|].
    assert (2 ^ 9 <= 2 ^ k) by (apply Z.pow_le_mono_r; lia). lia. }
  assert (E8 : 2 ^ 8 = 2 ^ (8 - k) * 2 ^ k)
    by (rewrite <- Z.pow_add_r by lia; f_equal; lia).
  unfold int8.
  rewrite (Z.mod_eq (x + 2 ^ 7) (2 ^ 8)) by lia.
  replace (x + 2 ^ 7 - 2 ^ 8 * ((x + 2 ^ 7) / 2 ^ 8) - 2 ^ 7)
    with (x + (- ((x + 2 ^ 7) / 2 ^ 8) * 2 ^ (8 - k)) * 2 ^ k) by (rewrite E8; ring).
  apply Z_mod_plus_full.
Qed.

Lemma uint8_next_block_index i :
  power_of_two_ring -> BLOCK_BUFFER_SIZE cfg <= 256 ->
  uint8 (next_block_index cfg i) = BLOCK_MOD cfg (i + 1).
Proof.
  intros H Hs. unfold next_block_index. rewrite uint8_int8.
  pose proof (BLOCK_MOD_range (int8 i + 1) H).
  rewrite uint8_small by lia.
  rewrite !BLOCK_MOD_mod by exact H. pose proof (size_pos H).
  assert (E : int8 i mod BLOCK_BUFFER_SIZE cfg = i mod BLOCK_BUFFER_SIZE cfg)
    by (rewrite <- !BLOCK_MOD_mod by exact H; apply int8_mod_ring; assumption).
  rewrite <- (Zplus_mod_idemp_l (int8 i)), E, Zplus_mod_idemp_l. reflexivity.
Qed.

Lemma uint8_prev_block_index i :
  power_of_two_ring -> BLOCK_BUFFER_SIZE cfg <= 256 ->
  uint8 (prev_block_index cfg i) = BLOCK_MOD cfg (i - 1).
Proof.
  intros H Hs. unfold prev_block_index. rewrite uint8_int8.
  pose proof (BLOCK_MOD_range (int8 i - 1) H).
  rewrite uint8_small by lia.
  rewrite !BLOCK_MOD_mod by exact H. pose proof (size_pos H).
  assert (E : int8 i mod BLOCK_BUFFER_SIZE cfg = i mod BLOCK_BUFFER_SIZE cfg)
    by (rewrite <- !BLOCK_MOD_mod by exact H; apply int8_mod_ring; assumption).
  rewrite <- (Zminus_mod_idemp_l (int8 i)), E, Zminus_mod_idemp_l. reflexivity.
Qed.

Lemma next_of_mod n :
  power_of_two_ring -> BLOCK_BUFFER_SIZE cfg <= 128 ->
  next_block_index cfg (BLOCK_MOD cfg n) = BLOCK_MOD cfg (n + 1).
Proof.
  intros H Hs. pose proof (BLOCK_MOD_range n H).
  rewrite next_block_index_small by (assumption || lia).
  rewrite !BLOCK_MOD_mod by exact H.
  pose proof (size_pos H).
  rewrite Zplus_mod_idemp_l. reflexivity.
Qed.

Lemma slot_0 p : ring_ok p -> slot p 0 = block_buffer_tail p.
Proof.
  intros (H & _ & Ht). unfold slot. rewrite Z.add_0_r.
  apply BLOCK_MOD_small; assumption.
Qed.

Lemma slot_next p j :
  power_of_two_ring -> BLOCK_BUFFER_SIZE cfg <= 128 ->
  next_block_index cfg (slot p j) = slot p (j + 1).
Proof.
  intros H Hs. unfold slot. rewrite next_of_mod by assumption. f_equal. lia.
Qed.

Lemma slot_range p j :
  power_of_two_ring -> 0 <= slot p j < BLOCK_BUFFER_SIZE cfg.
Proof. intros H. apply BLOCK_MOD_range, H. Qed.

Lemma mod_eq_iff a b n :
  0 < n -> (a mod n = b mod n <-> exists q, a - b = q * n).
Proof.
  intros Hn. split.
  - intros E. exists (a / n - b / n).
    pose proof (Z.div_mod a n ltac:(lia)). pose proof (Z.div_mod b n ltac:(lia)). nia.
  - intros (q & E). replace a with (b + q * n) by lia. apply Z_mod_plus_full.
Qed.

Lemma slot_inj p i j :
  power_of_two_ring ->
  0 <= i < BLOCK_BUFFER_SIZE cfg -> 0 <= j < BLOCK_BUFFER_SIZE cfg ->
  slot p i = slot p j -> i = j.
Proof.
  intros H Hi Hj. unfold slot. rewrite !BLOCK_MOD_mod by exact H.
  pose proof (size_pos H) as Hs.
  intros E. apply mod_eq_iff in E; [|exact Hs]. destruct E as (q & E).
  assert (Hq1 : q < 1) by nia. assert (Hq2 : -1 < q) by nia.
  assert (q = 0) by lia. subst q. lia.
Qed.

(** The number of queued blocks, as [planner_reverse_pass] and
    [movesplanned] compute it. *)
Lemma movesplanned_range p :
  power_of_two_ring -> 0 <= movesplanned cfg p < BLOCK_BUFFER_SIZE cfg.
Proof. intros H. apply BLOCK_MOD_range, H. Qed.

Lemma slot_head p :
  ring_ok p -> slot p (movesplanned cfg p) = block_buffer_head p.
Proof.
  intros (H & Hh & Ht). unfold slot, movesplanned.
  rewrite !BLOCK_MOD_mod by exact H.
  pose proof (size_pos H) as Hs.
  rewrite Zplus_mod_idemp_r.
  replace (block_buffer_tail p + (block_buffer_head p - block_buffer_tail p + BLOCK_BUFFER_SIZE cfg))
    with (block_buffer_head p + 1 * BLOCK_BUFFER_SIZE cfg) by lia.
  rewrite Z_mod_plus_full. apply Z.mod_small, Hh.
Qed.

Lemma slot_head_iff p j :
  ring_ok p -> 0 <= j <= movesplanned cfg p ->
  (slot p j = block_buffer_head p <-> j = movesplanned cfg p).
Proof.
  intros Hok Hj. pose proof Hok as (H & _ & _).
  pose proof (movesplanned_range p H) as Hm.
  split.
  - intros E. rewrite <- (slot_head p Hok) in E.
    apply slot_inj in E; [exact E|exact H|lia|lia].
  - intros ->. apply slot_head, Hok.
Qed.

Lemma movesplanned_zero_iff p :
  ring_ok p -> (movesplanned cfg p = 0 <-> block_buffer_head p = block_buffer_tail p).
Proof.
  intros Hok. pose proof Hok as (H & Hh & Ht).
  pose proof (slot_head_iff p 0 Hok) as E.
  pose proof (movesplanned_range p H) as Hm.
  rewrite slot_0 in E by exact Hok.
  split; intros E'.
  - symmetry. apply E; lia.
  - symmetry. apply E; [lia|congruence].
Qed.

End Ring.

(** X3.  In a ring whose capacity is a power of two of at most 128 slots,
    so that every index fits the [int8_t] the two functions take and return,
    [next_block_index] and [prev_block_index] map indices of the ring to
    indices of the ring and undo each other: stepping forward then backward
    (or backward then forward) returns to the same slot, across the wrap at
    both ends. *)
Theorem block_index_round_trip (cfg : config) (k i : Z) :
  0 <= k <= 7 -> BLOCK_BUFFER_SIZE cfg = 2 ^ k ->
  0 <= i < BLOCK_BUFFER_SIZE cfg ->
  0 <= next_block_index cfg i < BLOCK_BUFFER_SIZE cfg
  /\ 0 <= prev_block_index cfg i < BLOCK_BUFFER_SIZE cfg
  /\ prev_block_index cfg (next_block_index cfg i) = i
  /\ next_block_index cfg (prev_block_index cfg i) = i
  /\ next_block_index cfg (BLOCK_BUFFER_SIZE cfg - 1) = 0
  /\ prev_block_index cfg 0 = BLOCK_BUFFER_SIZE cfg - 1.
Proof.
  intros Hk E Hi.
  assert (H : power_of_two_ring cfg) by (exists k; split; [lia|exact E]).
  pose proof (size_pos cfg H) as Hs.
  assert (H128 : BLOCK_BUFFER_SIZE cfg <= 128).
  { rewrite E. change 128 with (2 ^ 7). apply Z.pow_le_mono_r; lia. }
  pose proof (BLOCK_MOD_range cfg (i + 1) H) as Rn.
  pose proof (BLOCK_MOD_range cfg (i - 1) H) as Rp.
  rewrite (next_block_index_small cfg i) by (assumption || lia).
  rewrite (prev_block_index_small cfg i) by (assumption || lia).
  rewrite (prev_block_index_small cfg (BLOCK_MOD cfg (i + 1))) by (assumption || lia).
  rewrite (next_block_index_small cfg (BLOCK_MOD cfg (i - 1))) by (assumption || lia).
  rewrite (next_block_index_small cfg (BLOCK_BUFFER_SIZE cfg - 1)) by (assumption || lia).
  rewrite (prev_block_index_small cfg 0) by (assumption || lia).
  rewrite !(BLOCK_MOD_mod cfg) by exact H.
  set (n := BLOCK_BUFFER_SIZE cfg) in *.
  repeat split; try (apply Z.mod_pos_bound; lia).
  - rewrite Zminus_mod_idemp_l. replace (i + 1 - 1) with i by lia.
    apply Z.mod_small; lia.
  - rewrite Zplus_mod_idemp_l. replace (i - 1 + 1) with i by lia.
    apply Z.mod_small; lia.
  - replace (n - 1 + 1) with n by lia. apply Z_mod_same_full.
  - replace (0 - 1) with (n - 1 + (-1) * n) by lia.
    rewrite Z_mod_plus_full. apply Z.mod_small; lia.
Qed.

(** In a ring of 256 slots the [int8_t] result leaves the ring at the
    middle and at the wrap. *)
Lemma block_index_leaves_ring_of_256 (cfg : config) :
  BLOCK_BUFFER_SIZE cfg = 256 ->
  next_block_index cfg 127 = -128 /\ prev_block_index cfg 0 = -1.
Proof.
  intros E. unfold next_block_index, prev_block_index, BLOCK_MOD. rewrite E.
  split; reflexivity.
Qed.

Lemma block_index_round_trip_witness :
  0 <= next_block_index Examples.cfg_example 15 < BLOCK_BUFFER_SIZE Examples.cfg_example
  /\ 0 <= prev_block_index Examples.cfg_example 15 < BLOCK_BUFFER_SIZE Examples.cfg_example
  /\ prev_block_index Examples.cfg_example (next_block_index Examples.cfg_example 15) = 15
  /\ next_block_index Examples.cfg_example (prev_block_index Examples.cfg_example 15) = 15
  /\ next_block_index Examples.cfg_example (BLOCK_BUFFER_SIZE Examples.cfg_example - 1) = 0
  /\ prev_block_index Examples.cfg_example 0 = BLOCK_BUFFER_SIZE Examples.cfg_example - 1.
Proof.
  apply (block_index_round_trip Examples.cfg_example 4 15); [lia|reflexivity|simpl; lia].
Defined.

End RingFacts.

(** ** The lookahead passes: what [planner_recalculate] writes *)

Module RecalculateFacts.
Import Int IntFacts Stepper Planner StepperControl PlannerControl.
Import RingFacts.

(** *** A relation kept by every write of the lookahead passes *)

Section Relation.
Context (cfg : config).
Context (R : block_t -> block_t -> Prop).

Definition buf_rel (buf buf' : Z -> block_t) : Prop :=
  forall j, R (buf j) (buf' j).

Hypothesis R_refl : forall b, R b b.
Hypothesis R_trans : forall b1 b2 b3, R b1 b2 -> R b2 b3 -> R b1 b3.
Hypothesis R_reverse : forall buf pv cu nx,
  buf_rel buf (planner_reverse_pass_kernel buf pv cu nx).
Hypothesis R_forward : forall buf pv cu nx,
  buf_rel buf (planner_forward_pass_kernel buf pv cu nx).
Hypothesis R_flag : forall b v, R b (with_recalculate_flag b v).
Hypothesis R_trapezoid : forall b ef xf b',
  calculate_trapezoid_for_block b ef xf = Some b' -> R b b'.

Lemma buf_rel_refl buf : buf_rel buf buf.
Proof. intros j. apply R_refl. Qed.

Lemma buf_rel_trans b1 b2 b3 : buf_rel b1 b2 -> buf_rel b2 b3 -> buf_rel b1 b3.
Proof. intros H1 H2 j. eapply R_trans; [apply H1|apply H2]. Qed.

Lemma buf_rel_upd buf c b' : R (buf c) b' -> buf_rel buf (upd_block buf c b').
Proof.
  intros H j. unfold upd_block.
  destruct (Z.eqb_spec c j) as [<-|_]; [exact H|apply R_refl].
Qed.

Lemma reverse_loop_rel fuel : forall tail idx b0 b1 buf,
  buf_rel buf (reverse_loop cfg fuel tail idx b0 b1 buf).
Proof.
  induction fuel as [|fuel IH]; intros tail idx b0 b1 buf; cbn [reverse_loop].
  - apply buf_rel_refl.
  - destruct (Z.eqb idx tail); [apply buf_rel_refl|].
    eapply buf_rel_trans; [|apply IH]. apply R_reverse.
Qed.

Lemma forward_loop_rel fuel : forall head idx b1 b2 buf,
  buf_rel buf (fst (fst (forward_loop cfg fuel head idx b1 b2 buf))).
Proof.
  induction fuel as [|fuel IH]; intros head idx b1 b2 buf; cbn [forward_loop].
  - apply buf_rel_refl.
  - destruct (Z.eqb idx head); [apply buf_rel_refl|].
    eapply buf_rel_trans; [|apply IH]. apply R_forward.
Qed.

Lemma trapezoids_step_rel buf current idx buf' :
  match current with
  | Some c =>
      let cur := buf c in
      if recalculate_flag cur || recalculate_flag (buf idx) then
        let nom := nominal_speed cur in
        cur <- calculate_trapezoid_for_block cur
                 (F32.div (entry_speed cur) nom)
                 (F32.div (entry_speed (buf idx)) nom) ;;
        Some (upd_block buf c (with_recalculate_flag cur false))
      else Some buf
  | None => Some buf
  end = Some buf' ->
  buf_rel buf buf'.
Proof.
  destruct current as [c|]; [|intros [= <-]; apply buf_rel_refl].
  cbv zeta. destruct (_ || _); [|intros [= <-]; apply buf_rel_refl].
  destruct (calculate_trapezoid_for_block _ _ _) as [cur'|] eqn:E; cbn [bind]; [|discriminate].
  intros [= <-]. apply buf_rel_upd.
  eapply R_trans; [eapply R_trapezoid, E|apply R_flag].
Qed.

Lemma trapezoids_loop_rel fuel : forall head idx next buf buf' next',
  trapezoids_loop cfg fuel head idx next buf = Some (buf', next') ->
  buf_rel buf buf'.
Proof.
  induction fuel as [|fuel IH]; intros head idx next buf buf' next'; cbn [trapezoids_loop].
  - discriminate.
  - destruct (Z.eqb idx head); [intros [= <- _]; apply buf_rel_refl|].
    destruct (negb _); [discriminate|].
    match goal with |- bind ?e _ = _ -> _ => destruct e as [buf1|] eqn:E1 end;
      cbn [bind]; [|discriminate].
    intros H. apply IH in H.
    eapply buf_rel_trans; [|exact H].
    eapply trapezoids_step_rel. exact E1.
Qed.

Lemma reverse_pass_rel p :
  buf_rel (block_buffer p) (block_buffer (planner_reverse_pass cfg p)).
Proof.
  unfold planner_reverse_pass. destruct (3 <? _); [|apply buf_rel_refl].
  cbn [block_buffer with_block_buffer]. apply reverse_loop_rel.
Qed.

Lemma forward_pass_rel p :
  buf_rel (block_buffer p) (block_buffer (planner_forward_pass cfg p)).
Proof.
  unfold planner_forward_pass.
  pose proof (forward_loop_rel (Z.to_nat (BLOCK_BUFFER_SIZE cfg)) (block_buffer_head p)
                (block_buffer_tail p) None None (block_buffer p)) as H.
  destruct (forward_loop _ _ _ _ _ _ _) as [[buf b1] b2]. cbn [fst] in H.
  cbn [block_buffer with_block_buffer].
  eapply buf_rel_trans; [exact H|apply R_forward].
Qed.

Lemma recalculate_trapezoids_rel p p' :
  planner_recalculate_trapezoids cfg p = Some p' ->
  buf_rel (block_buffer p) (block_buffer p').
Proof.
  unfold planner_recalculate_trapezoids.
  destruct (trapezoids_loop _ _ _ _ _ _) as [[buf nx]|] eqn:E; cbn [bind]; [|discriminate].
  apply trapezoids_loop_rel in E.
  destruct nx as [n|].
  - destruct (calculate_trapezoid_for_block _ _ _) as [nx'|] eqn:E2; cbn [bind]; [|discriminate].
    intros [= <-]. cbn [block_buffer with_block_buffer].
    eapply buf_rel_trans; [exact E|]. apply buf_rel_upd.
    eapply R_trans; [eapply R_trapezoid, E2|apply R_flag].
  - intros [= <-]. exact E.
Qed.

Lemma planner_recalculate_kernels_rel p p' :
  planner_recalculate cfg p = Some p' ->
  buf_rel (block_buffer p) (block_buffer p').
Proof.
  unfold planner_recalculate. intros H.
  apply recalculate_trapezoids_rel in H.
  eapply buf_rel_trans; [apply reverse_pass_rel|].
  eapply buf_rel_trans; [apply forward_pass_rel|exact H].
Qed.

End Relation.

(** The same for a relation that every write of [entry_speed] keeps, whatever
    the value written. *)
Section AnyEntry.
Context (cfg : config).
Context (R : block_t -> block_t -> Prop).
Hypothesis R_refl : forall b, R b b.
Hypothesis R_trans : forall b1 b2 b3, R b1 b2 -> R b2 b3 -> R b1 b3.
Hypothesis R_entry : forall b v, R b (with_entry_speed b v).
Hypothesis R_flag : forall b v, R b (with_recalculate_flag b v).
Hypothesis R_trapezoid : forall b ef xf b',
  calculate_trapezoid_for_block b ef xf = Some b' -> R b b'.

Lemma reverse_kernel_rel buf pv cu nx :
  buf_rel R buf (planner_reverse_pass_kernel buf pv cu nx).
Proof.
  unfold planner_reverse_pass_kernel.
  destruct cu as [c|]; [|apply buf_rel_refl, R_refl].
  destruct nx as [n|]; [|apply buf_rel_refl, R_refl].
  destruct (F32.neb _ _); [|apply buf_rel_refl, R_refl].
  apply buf_rel_upd; [exact R_refl|].
  destruct (negb _ && _); (eapply R_trans; [apply R_entry|apply R_flag]).
Qed.

Lemma forward_kernel_rel buf pv cu nx :
  buf_rel R buf (planner_forward_pass_kernel buf pv cu nx).
Proof.
  unfold planner_forward_pass_kernel.
  destruct pv as [pv|]; [|apply buf_rel_refl, R_refl].
  destruct cu as [c|]; [|apply buf_rel_refl, R_refl].
  destruct (negb _); [|apply buf_rel_refl, R_refl].
  destruct (F32.ltb _ _); [|apply buf_rel_refl, R_refl].
  destruct (F32.neb _ _); [|apply buf_rel_refl, R_refl].
  apply buf_rel_upd; [exact R_refl|]. eapply R_trans; [apply R_entry|apply R_flag].
Qed.

Lemma planner_recalculate_rel p p' :
  planner_recalculate cfg p = Some p' ->
  buf_rel R (block_buffer p) (block_buffer p').
Proof.
  apply (planner_recalculate_kernels_rel cfg R R_refl R_trans
           reverse_kernel_rel forward_kernel_rel R_flag R_trapezoid).
Qed.

End AnyEntry.


(** The fields of a block that describe the move itself; the lookahead never
    writes them. *)
Definition same_move (b b' : block_t) : Prop :=
  steps b' = steps b
  /\ step_event_count b' = step_event_count b
  /\ acceleration_rate b' = acceleration_rate b
  /\ direction_bits b' = direction_bits b
  /\ active_driver b' = active_driver b
  /\ nominal_speed b' = nominal_speed b
  /\ max_entry_speed b' = max_entry_speed b
  /\ millimeters b' = millimeters b
  /\ Block.acceleration b' = Block.acceleration b
  /\ nominal_length_flag b' = nominal_length_flag b
  /\ nominal_rate b' = nominal_rate b
  /\ acceleration_st b' = acceleration_st b
  /\ fan_speed b' = fan_speed b
  /\ busy b' = busy b.

(** The four fields the stepper reads from the trapezoid. *)
Definition same_trapezoid (b b' : block_t) : Prop :=
  accelerate_until b' = accelerate_until b
  /\ decelerate_after b' = decelerate_after b
  /\ initial_rate b' = initial_rate b
  /\ final_rate b' = final_rate b.

Definition replanned (b b' : block_t) : Prop :=
  same_move b b' /\ (busy b = true -> same_trapezoid b b').

Lemma same_move_refl b : same_move b b.
Proof. repeat split. Qed.

Lemma same_move_trans b1 b2 b3 : same_move b1 b2 -> same_move b2 b3 -> same_move b1 b3.
Proof.
  unfold same_move.
  intros (A1 & A2 & A3 & A4 & A5 & A6 & A7 & A8 & A9 & A10 & A11 & A12 & A13 & A14)
         (B1 & B2 & B3 & B4 & B5 & B6 & B7 & B8 & B9 & B10 & B11 & B12 & B13 & B14).
  repeat split; congruence.
Qed.

Lemma same_move_busy b b' : same_move b b' -> busy b' = busy b.
Proof. intros H. apply H. Qed.

Lemma replanned_refl b : replanned b b.
Proof. split; [apply same_move_refl|intros _; repeat split]. Qed.

Lemma replanned_trans b1 b2 b3 : replanned b1 b2 -> replanned b2 b3 -> replanned b1 b3.
Proof.
  intros (M1 & T1) (M2 & T2). split; [eapply same_move_trans; eauto|].
  intros Hb. specialize (T1 Hb).
  assert (Hb2 : busy b2 = true) by (rewrite (same_move_busy _ _ M1); exact Hb).
  specialize (T2 Hb2).
  destruct T1 as (A1 & A2 & A3 & A4), T2 as (B1 & B2 & B3 & B4).
  repeat split; congruence.
Qed.

Lemma replanned_entry b v : replanned b (with_entry_speed b v).
Proof. split; [repeat split|intros _; repeat split]. Qed.

Lemma replanned_flag b v : replanned b (with_recalculate_flag b v).
Proof. split; [repeat split|intros _; repeat split]. Qed.

Lemma replanned_trapezoid b ef xf b' :
  calculate_trapezoid_for_block b ef xf = Some b' -> replanned b b'.
Proof.
  unfold calculate_trapezoid_for_block.
  destruct (solve_trapezoid b ef xf) as [t|]; cbn [bind]; [|discriminate].
  destruct (busy b) eqn:Hb; cbn [negb]; intros [= <-].
  - apply replanned_refl.
  - split; [repeat split|]. cbn. rewrite Hb. discriminate.
Qed.

Lemma planner_recalculate_replanned cfg p p' :
  planner_recalculate cfg p = Some p' ->
  forall j, replanned (block_buffer p j) (block_buffer p' j).
Proof.
  apply (planner_recalculate_rel cfg replanned replanned_refl replanned_trans
           replanned_entry replanned_flag replanned_trapezoid).
Qed.

(** X4.  [planner_recalculate] rewrites nothing but the lookahead fields of
    the blocks: the ring indices, [position] and the junction memory keep
    their values, and in every slot the step counts, the direction bits, the
    nominal speed and rate, the acceleration, the length and the flags
    [nominal_length_flag] and [busy] are the ones found on entry. *)
Theorem planner_recalculate_keeps_moves (cfg : config) (p p' : planner_state) :
  planner_recalculate cfg p = Some p' ->
  block_buffer_head p' = block_buffer_head p
  /\ block_buffer_tail p' = block_buffer_tail p
  /\ position p' = position p
  /\ previous_speed p' = previous_speed p
  /\ previous_nominal_speed p' = previous_nominal_speed p
  /\ last_extruder p' = last_extruder p
  /\ forall j, same_move (block_buffer p j) (block_buffer p' j).
Proof.
  intros H.
  destruct (PlannerFacts.planner_recalculate_buffer_only cfg p p' H) as (buf & E).
  pose proof (planner_recalculate_replanned cfg p p' H) as HR.
  rewrite E. cbn [block_buffer_head block_buffer_tail position previous_speed
                  previous_nominal_speed last_extruder with_block_buffer].
  repeat split; try reflexivity.
  all: rewrite E in HR; cbn [block_buffer with_block_buffer] in HR; apply HR.
Qed.

(** X5.  A block marked [busy] keeps its trapezoid through
    [planner_recalculate]: [accelerate_until], [decelerate_after],
    [initial_rate] and [final_rate] of a busy block are never rewritten, and
    the block stays busy. *)
Theorem planner_recalculate_keeps_busy_trapezoid (cfg : config) (p p' : planner_state)
    (j : Z) :
  planner_recalculate cfg p = Some p' ->
  busy (block_buffer p j) = true ->
  same_trapezoid (block_buffer p j) (block_buffer p' j)
  /\ busy (block_buffer p' j) = true.
Proof.
  intros H Hb.
  destruct (planner_recalculate_replanned cfg p p' H j) as (M & T).
  split; [exact (T Hb)|]. rewrite (same_move_busy _ _ M). exact Hb.
Qed.

End RecalculateFacts.

(** ** The recalculation flags *)

Module FlagFacts.
Import Int IntFacts Stepper Planner StepperControl PlannerControl.
Import RingFacts RecalculateFacts.

Section Flags.
Context (cfg : config).

Lemma reverse_pass_indices p :
  block_buffer_head (planner_reverse_pass cfg p) = block_buffer_head p
  /\ block_buffer_tail (planner_reverse_pass cfg p) = block_buffer_tail p.
Proof. unfold planner_reverse_pass. destruct (3 <? _); split; reflexivity. Qed.

Lemma forward_pass_indices p :
  block_buffer_head (planner_forward_pass cfg p) = block_buffer_head p
  /\ block_buffer_tail (planner_forward_pass cfg p) = block_buffer_tail p.
Proof.
  unfold planner_forward_pass.
  destruct (forward_loop _ _ _ _ _ _ _) as [[buf b1] b2]. split; reflexivity.
Qed.

Lemma flag_upd buf c b' k :
  recalculate_flag b' = false ->
  recalculate_flag (buf k) = false ->
  recalculate_flag (upd_block buf c b' k) = false.
Proof. intros H1 H2. unfold upd_block. destruct (Z.eqb c k); assumption. Qed.

Section Loop.
Context (p : planner_state).
Hypothesis Hok : ring_ok cfg p.
Hypothesis Hsmall : BLOCK_BUFFER_SIZE cfg <= 128.
Let n := movesplanned cfg p.
Let head := block_buffer_head p.

Definition next_at (j : Z) : option Z :=
  if Z.eqb j 0 then None else Some (slot cfg p (j - 1)).

Lemma trapezoids_loop_flags fuel : forall j next buf buf' next',
  0 <= j <= n ->
  n - j < Z.of_nat fuel ->
  next = next_at j ->
  (forall i, 0 <= i < j - 1 -> recalculate_flag (buf (slot cfg p i)) = false) ->
  trapezoids_loop cfg fuel head (slot cfg p j) next buf = Some (buf', next') ->
  next' = next_at n
  /\ forall i, 0 <= i < n - 1 -> recalculate_flag (buf' (slot cfg p i)) = false.
Proof.
  pose proof Hok as (Hpow & _ & _).
  induction fuel as [|fuel IH]; intros j next buf buf' next' Hj Hfuel Hnext Hinv;
    cbn [trapezoids_loop].
  - lia.
  - pose proof (slot_head_iff cfg p j Hok Hj) as Hiff. fold head n in Hiff.
    destruct (Z.eqb_spec (slot cfg p j) head) as [Heq|Hne].
    + apply Hiff in Heq. subst j. intros [= <- <-]. split; [exact Hnext|exact Hinv].
    + assert (Hjn : j < n) by (destruct (Z.eq_dec j n) as [E|E]; [apply Hiff in E; contradiction|lia]).
      pose proof (slot_range cfg p j Hpow) as Hr.
      destruct (Z.leb_spec 0 (slot cfg p j)); [|lia].
      destruct (Z.ltb_spec (slot cfg p j) (BLOCK_BUFFER_SIZE cfg)); [|lia].
      cbn [andb negb].
      match goal with |- bind ?e _ = _ -> _ => destruct e as [buf1|] eqn:E1 end;
        cbn [bind]; [|discriminate].
      rewrite slot_next by assumption.
      apply IH; [lia|lia| |].
      * unfold next_at. destruct (Z.eqb_spec (j + 1) 0); [lia|]. do 2 f_equal. lia.
      * intros i Hi.
        subst next. unfold next_at in E1.
        destruct (Z.eqb_spec j 0) as [->|Hj0]; [lia|].
        cbv zeta in E1.
        destruct (Z.eq_dec i (j - 1)) as [->|Hij].
        -- destruct (recalculate_flag (buf (slot cfg p (j - 1)))) eqn:F1.
           ++ cbn [orb] in E1.
              destruct (calculate_trapezoid_for_block _ _ _) as [cur'|]; cbn [bind] in E1;
                [|discriminate].
              injection E1 as <-. unfold upd_block. rewrite Z.eqb_refl. reflexivity.
           ++ cbn [orb] in E1.
              destruct (recalculate_flag (buf (slot cfg p j))).
              ** destruct (calculate_trapezoid_for_block _ _ _) as [cur'|]; cbn [bind] in E1;
                   [|discriminate].
                 injection E1 as <-. unfold upd_block. rewrite Z.eqb_refl. reflexivity.
              ** injection E1 as <-. exact F1.
        -- assert (Hold : recalculate_flag (buf (slot cfg p i)) = false) by (apply Hinv; lia).
           destruct (_ || _).
           ++ destruct (calculate_trapezoid_for_block _ _ _) as [cur'|]; cbn [bind] in E1;
                [|discriminate].
              injection E1 as <-. apply flag_upd; [reflexivity|exact Hold].
           ++ injection E1 as <-. exact Hold.
Qed.

End Loop.

Lemma recalculate_trapezoids_flags p p' :
  ring_ok cfg p ->
  BLOCK_BUFFER_SIZE cfg <= 128 ->
  planner_recalculate_trapezoids cfg p = Some p' ->
  forall j, 0 <= j < movesplanned cfg p ->
    recalculate_flag (block_buffer p' (slot cfg p j)) = false.
Proof.
  intros Hok Hsmall. pose proof Hok as (Hpow & Hh & Ht).
  unfold planner_recalculate_trapezoids.
  rewrite (int8_small (block_buffer_tail p)) by lia.
  destruct (trapezoids_loop _ _ _ _ _ _) as [[buf nx]|] eqn:E; cbn [bind]; [|discriminate].
  pose proof (movesplanned_range cfg p Hpow) as Hm.
  rewrite <- (slot_0 cfg p Hok) in E.
  apply (trapezoids_loop_flags p Hok Hsmall _ 0 None) in E;
    [|lia|rewrite Nat2Z.inj_succ, Z2Nat.id by lia; lia|reflexivity|intros; lia].
  destruct E as (-> & Hinv).
  unfold next_at.
  destruct (Z.eqb_spec (movesplanned cfg p) 0) as [E0|Hn0].
  - intros [= <-] j Hj. lia.
  - destruct (calculate_trapezoid_for_block _ _ _) as [nx'|]; cbn [bind]; [|discriminate].
    intros [= <-] j Hj. cbn [block_buffer with_block_buffer].
    destruct (Z.eq_dec j (movesplanned cfg p - 1)) as [->|Hne].
    + unfold upd_block. rewrite Z.eqb_refl. reflexivity.
    + apply flag_upd; [reflexivity|apply Hinv; lia].
Qed.

End Flags.

(** X6.  After [planner_recalculate] no queued block is left marked for
    recalculation: in a ring with a power-of-two capacity of at most 128
    slots (the indices the [int8_t] loop variable of
    [planner_recalculate_trapezoids] can hold), every slot from the tail up
    to the head has [recalculate_flag] cleared. *)
Theorem planner_recalculate_clears_flags (cfg : config) (p p' : planner_state) (j : Z) :
  planner_recalculate cfg p = Some p' ->
  ring_ok cfg p ->
  BLOCK_BUFFER_SIZE cfg <= 128 ->
  0 <= j < movesplanned cfg p ->
  recalculate_flag (block_buffer p' (slot cfg p j)) = false.
Proof.
  unfold planner_recalculate. intros H Hok Hsmall Hj.
  set (p1 := planner_forward_pass cfg (planner_reverse_pass cfg p)) in *.
  assert (Hidx : block_buffer_head p1 = block_buffer_head p
                 /\ block_buffer_tail p1 = block_buffer_tail p).
  { unfold p1. destruct (forward_pass_indices cfg (planner_reverse_pass cfg p)) as (-> & ->).
    apply reverse_pass_indices. }
  destruct Hidx as (Hh & Ht).
  assert (Hok1 : ring_ok cfg p1).
  { destruct Hok as (Hpow & H1 & H2). split; [exact Hpow|]. rewrite Hh, Ht. auto. }
  assert (Hm : movesplanned cfg p1 = movesplanned cfg p)
    by (unfold movesplanned; rewrite Hh, Ht; reflexivity).
  assert (Hs : slot cfg p1 j = slot cfg p j) by (unfold slot; rewrite Ht; reflexivity).
  rewrite <- Hs. apply (recalculate_trapezoids_flags cfg p1 p' Hok1 Hsmall H). lia.
Qed.

End FlagFacts.

(** ** Appended moves *)

Module AppendFacts.
Import Int IntFacts Stepper Planner StepperControl PlannerControl.
Import RingFacts RecalculateFacts.

Section Append.
Context (cfg : config) (g : settings).

(** The block [complete_block] stores in the slot at the head, before the
    plan is recalculated. *)
Lemma complete_block_shape pr feed_rate extruder driver nbh p' :
  complete_block cfg g pr feed_rate extruder driver nbh = Some p' ->
  exists blk ef xf blk' ps pn,
    steps blk = steps (pr_block pr)
    /\ step_event_count blk = step_event_count (pr_block pr)
    /\ direction_bits blk = direction_bits_of (pr_delta pr)
    /\ busy blk = busy (pr_block pr)
    /\ active_driver blk = driver
    /\ fan_speed blk = fanSpeed g
    /\ recalculate_flag blk = true
    /\ (exists v, entry_speed blk = F32.min (max_entry_speed blk) v)
    /\ calculate_trapezoid_for_block blk ef xf = Some blk'
    /\ planner_recalculate cfg
         (with_position
            (with_block_buffer_head
               (with_block_buffer
                  (with_previous_nominal_speed (with_previous_speed (pr_planner pr) ps) pn)
                  (upd_block (block_buffer (pr_planner pr))
                     (block_buffer_head (pr_planner pr)) blk'))
               (uint8 nbh))
            (pr_target pr)) = Some p'.
Proof.
  unfold complete_block.
  destruct (slowdown _ _ _ _) as [isec|]; cbn [bind]; [|discriminate].
  destruct (F32.to_ulong _) as [nr|]; cbn [bind]; [|discriminate].
  match goal with |- context [if ?c then _ else _] => destruct c end.
  - destruct (F32.to_ulong _) as [nr'|]; cbn [bind]; [|discriminate].
    destruct (F32.to_ulong _) as [acc|]; cbn [bind]; [|discriminate].
    destruct (F32.to_long _) as [ar|]; cbn [bind]; [|discriminate].
    destruct (junction_speeds _ _ _ _ _ _) as [vmax safe].
    destruct (calculate_trapezoid_for_block _ _ _) as [blk'|] eqn:E; cbn [bind]; [|discriminate].
    intros H.
    match type of E with calculate_trapezoid_for_block ?b ?e ?x = _ =>
      exists b, e, x, blk' end.
    match type of H with
      planner_recalculate _ (with_position (with_block_buffer_head (with_block_buffer
        (with_previous_nominal_speed (with_previous_speed _ ?ps) ?pn) _) _) _) = _ =>
      exists ps, pn end.
    repeat split; try reflexivity.
    + eexists. reflexivity.
    + exact E.
    + exact H.
  - cbn [bind].
    destruct (F32.to_ulong _) as [acc|]; cbn [bind]; [|discriminate].
    destruct (F32.to_long _) as [ar|]; cbn [bind]; [|discriminate].
    destruct (junction_speeds _ _ _ _ _ _) as [vmax safe].
    destruct (calculate_trapezoid_for_block _ _ _) as [blk'|] eqn:E; cbn [bind]; [|discriminate].
    intros H.
    match type of E with calculate_trapezoid_for_block ?b ?e ?x = _ =>
      exists b, e, x, blk' end.
    match type of H with
      planner_recalculate _ (with_position (with_block_buffer_head (with_block_buffer
        (with_previous_nominal_speed (with_previous_speed _ ?ps) ?pn) _) _) _) = _ =>
      exists ps, pn end.
    repeat split; try reflexivity.
    + eexists. reflexivity.
    + exact E.
    + exact H.
Qed.


(** What [prepare_block] puts in the block: it is not busy, and the step
    counts of X, Y and Z are the magnitudes of the step deltas. *)
Lemma prepare_block_block p x y z e extruder pr :
  prepare_block cfg g p x y z e extruder = Some pr ->
  busy (pr_block pr) = false
  /\ (forall a, a <> E_AXIS -> steps (pr_block pr) a = labs (pr_delta pr a))
  /\ (forall a, - 2 ^ 31 <= steps (pr_block pr) a < 2 ^ 31)
  /\ step_event_count (pr_block pr)
     = uint32 (max_l (steps (pr_block pr) X_AXIS)
                 (max_l (steps (pr_block pr) Y_AXIS)
                    (max_l (steps (pr_block pr) Z_AXIS) (steps (pr_block pr) E_AXIS)))).
Proof.
  unfold prepare_block.
  destruct (F32.lround _) as [tx|]; cbn [bind]; [|discriminate].
  destruct (F32.lround _) as [ty|]; cbn [bind]; [|discriminate].
  destruct (F32.lround _) as [tz|]; cbn [bind]; [|discriminate].
  destruct (F32.lround _) as [te|]; cbn [bind]; [|discriminate].
  match goal with |- bind ?c _ = _ -> _ => destruct c as [p1|] end; cbn [bind]; [|discriminate].
  destruct (F32.to_long _) as [se|]; cbn [bind]; [|discriminate].
  intros [= <-]. cbn [pr_block pr_delta].
  split; [reflexivity|]. split; [|split; [|reflexivity]].
  - intros a Ha. destruct a; try congruence; reflexivity.
  - intros a.
    destruct a;
      cbv beta iota delta [steps with_step_event_count with_steps with_busy aset axis_eqb];
      try apply int32_range.
    match goal with |- _ <= Z.quot (int32 ?v) 100 < _ =>
      pose proof (int32_range v) as Hr; set (w := int32 v) in *; clearbody w end.
    Z.to_euclidean_division_equations. lia.
Qed.

Lemma max_l_max a b : max_l a b = Z.max a b.
Proof. unfold max_l. destruct (Z.ltb_spec b a); lia. Qed.

(** The direction bit of an axis is set exactly when its step delta is
    negative. *)
Lemma direction_bits_of_spec delta a :
  TEST (direction_bits_of delta) (axis_index a) = (delta a <? 0).
Proof.
  unfold direction_bits_of.
  destruct (delta X_AXIS <? 0) eqn:HX, (delta Y_AXIS <? 0) eqn:HY,
           (delta Z_AXIS <? 0) eqn:HZ, (delta E_AXIS <? 0) eqn:HE;
    destruct a; rewrite ?HX, ?HY, ?HZ, ?HE; reflexivity.
Qed.

Lemma signed_steps_of_delta b d a :
  - 2 ^ 31 < d < 2 ^ 31 ->
  steps b a = labs d ->
  TEST (direction_bits b) (axis_index a) = (d <? 0) ->
  signed_steps b a = d.
Proof.
  intros Hd Hs Ht. unfold signed_steps. rewrite Ht, Hs. unfold labs.
  rewrite int32_small by lia.
  destruct (Z.ltb_spec d 0); lia.
Qed.

(** The floor of 120 steps/s on both rates. *)
Definition rate_floor (b : block_t) : Prop :=
  120 <= initial_rate b /\ 120 <= final_rate b.

(** A trapezoid that is written has both rates at the floor or above; a busy
    block keeps the rates it has. *)
Lemma trapezoid_rate_floor b ef xf b' :
  calculate_trapezoid_for_block b ef xf = Some b' ->
  (busy b = true -> rate_floor b) -> rate_floor b'.
Proof.
  unfold calculate_trapezoid_for_block.
  destruct (solve_trapezoid b ef xf) as [t|] eqn:Hs; cbn [bind]; [|discriminate].
  destruct (busy b); cbn [negb]; intros [= <-]; [auto|]. intros _.
  revert Hs. unfold solve_trapezoid.
  destruct (F32.to_ulong _) as [ir|]; cbn [bind]; [|discriminate].
  destruct (F32.to_ulong _) as [fr|]; cbn [bind]; [|discriminate].
  destruct (F32.to_long _) as [as_|]; cbn [bind]; [|discriminate].
  destruct (F32.to_long _) as [ds|]; cbn [bind]; [|discriminate].
  destruct (_ <? 0).
  - destruct (F32.to_long _) as [as2|]; cbn [bind]; [|discriminate].
    intros [= <-]. unfold rate_floor, NOLESS. cbn.
    destruct (Z.ltb_spec ir 120), (Z.ltb_spec fr 120); lia.
  - intros [= <-]. unfold rate_floor, NOLESS. cbn.
    destruct (Z.ltb_spec ir 120), (Z.ltb_spec fr 120); lia.
Qed.

(** Where [plan_buffer_line] appends: the pieces of an appended move. *)
Lemma appended_shape p x y z e feed_rate extruder driver p' :
  plan_buffer_line cfg g p x y z e feed_rate extruder driver = Appended p' ->
  exists pr,
    block_buffer_tail p <> next_block_index cfg (block_buffer_head p)
    /\ prepare_block cfg g p x y z e extruder = Some pr
    /\ DROP_SEGMENTS cfg < step_event_count (pr_block pr)
    /\ complete_block cfg g pr feed_rate extruder driver
         (next_block_index cfg (block_buffer_head p)) = Some p'.
Proof.
  unfold plan_buffer_line.
  destruct (Z.eqb_spec (block_buffer_tail p) (next_block_index cfg (block_buffer_head p)));
    [discriminate|].
  destruct (prepare_block cfg g p x y z e extruder) as [pr|] eqn:Hpr; [|discriminate].
  destruct (Z.leb_spec (step_event_count (pr_block pr)) (DROP_SEGMENTS cfg)); [discriminate|].
  destruct (complete_block _ _ _ _ _ _ _) as [p1|] eqn:Hc; [|discriminate].
  intros [= <-]. exists pr. auto.
Qed.

(** The block an appended move leaves in the slot at the old head. *)
Lemma appended_block p x y z e feed_rate extruder driver p' :
  plan_buffer_line cfg g p x y z e feed_rate extruder driver = Appended p' ->
  exists pr blk',
    prepare_block cfg g p x y z e extruder = Some pr
    /\ DROP_SEGMENTS cfg < step_event_count (pr_block pr)
    /\ steps blk' = steps (pr_block pr)
    /\ step_event_count blk' = step_event_count (pr_block pr)
    /\ direction_bits blk' = direction_bits_of (pr_delta pr)
    /\ busy blk' = false
    /\ 120 <= initial_rate blk' /\ 120 <= final_rate blk'
    /\ replanned blk' (block_buffer p' (block_buffer_head p))
    /\ (forall j, j <> block_buffer_head p ->
          replanned (block_buffer p j) (block_buffer p' j))
    /\ block_buffer_head p' = uint8 (next_block_index cfg (block_buffer_head p))
    /\ block_buffer_tail p' = block_buffer_tail p
    /\ position p' = pr_target pr.
Proof.
  intros H. destruct (appended_shape _ _ _ _ _ _ _ _ _ H) as (pr & Hroom & Hpr & Hgt & Hc).
  destruct (PlannerFacts.prepare_block_planner cfg g p x y z e extruder pr Hpr)
    as (B & Hh & Ht & _).
  destruct (prepare_block_block p x y z e extruder pr Hpr) as (Hbusy & _).
  destruct (PlannerFacts.complete_block_head cfg g pr feed_rate extruder driver _ p' Hc)
    as (H1 & H2 & H3).
  destruct (complete_block_shape pr feed_rate extruder driver _ p' Hc)
    as (blk & ef & xf & blk' & ps & pn & S1 & S2 & S3 & S4 & _ & _ & _ & _ & Ht' & Hr).
  pose proof (replanned_trapezoid blk ef xf blk' Ht') as (M & _).
  destruct M as (M1 & M2 & M3 & M4 & M5 & M6 & M7 & M8 & M9 & M10 & M11 & M12 & M13 & M14).
  exists pr, blk'.
  split; [exact Hpr|]. split; [exact Hgt|].
  split; [congruence|]. split; [congruence|]. split; [congruence|].
  split; [congruence|].
  assert (Hfloor : rate_floor blk').
  { apply (trapezoid_rate_floor blk ef xf blk' Ht'). rewrite S4, Hbusy. discriminate. }
  split; [apply Hfloor|]. split; [apply Hfloor|].
  pose proof (planner_recalculate_replanned cfg _ p' Hr) as HR.
  cbn [block_buffer with_position with_block_buffer_head with_block_buffer] in HR.
  rewrite B, Hh in HR.
  split.
  { specialize (HR (block_buffer_head p)). unfold upd_block in HR.
    rewrite Z.eqb_refl in HR. exact HR. }
  split.
  { intros j Hj. specialize (HR j). unfold upd_block in HR.
    destruct (Z.eqb_spec (block_buffer_head p) j); [congruence|exact HR]. }
  split; [exact H1|]. split; [congruence|exact H3].
Qed.


Lemma planner_recalculate_rate_floor p p' :
  planner_recalculate cfg p = Some p' ->
  forall j, rate_floor (block_buffer p j) -> rate_floor (block_buffer p' j).
Proof.
  apply (planner_recalculate_rel cfg (fun b b' => rate_floor b -> rate_floor b')).
  - auto.
  - auto.
  - intros b v H. exact H.
  - intros b v H. exact H.
  - intros b ef xf b' H Hf. apply (trapezoid_rate_floor b ef xf b' H). auto.
Qed.

End Append.

(** X7.  [plan_buffer_line] keeps both rates of every block at or above 120
    steps/s: if every slot other than the free slot at the head satisfies
    [initial_rate >= 120] and [final_rate >= 120] before the call, every slot
    satisfies it after an appended move, the new block included, whatever its
    nominal rate is. *)
Theorem plan_buffer_line_keeps_rate_floor (cfg : config) (g : settings)
    (p p' : planner_state) (x y z e feed_rate : float) (extruder driver : Z) :
  plan_buffer_line cfg g p x y z e feed_rate extruder driver = Appended p' ->
  (forall j, j <> block_buffer_head p -> rate_floor (block_buffer p j)) ->
  forall j, rate_floor (block_buffer p' j).
Proof.
  intros H Hall j.
  destruct (appended_shape cfg g _ _ _ _ _ _ _ _ _ H) as (pr & Hroom & Hpr & Hgt & Hc).
  destruct (PlannerFacts.prepare_block_planner cfg g p x y z e extruder pr Hpr)
    as (B & Hh & Ht & _).
  destruct (prepare_block_block cfg g p x y z e extruder pr Hpr) as (Hbusy & _).
  destruct (complete_block_shape cfg g pr feed_rate extruder driver _ p' Hc)
    as (blk & ef & xf & blk' & ps & pn & S1 & S2 & S3 & S4 & _ & _ & _ & _ & Ht' & Hr).
  apply (planner_recalculate_rate_floor cfg _ p' Hr).
  cbn [block_buffer with_position with_block_buffer_head with_block_buffer].
  rewrite B, Hh. unfold upd_block.
  destruct (Z.eqb_spec (block_buffer_head p) j) as [<-|Hne]; [|apply Hall; congruence].
  apply (trapezoid_rate_floor blk ef xf blk' Ht'). rewrite S4, Hbusy. discriminate.
Qed.

(** The geometry of an appended block. *)
Lemma appended_block_geometry (cfg : config) (g : settings)
    (p p' : planner_state) (x y z e feed_rate : float) (extruder driver : Z) :
  plan_buffer_line cfg g p x y z e feed_rate extruder driver = Appended p' ->
  let b := block_buffer p' (block_buffer_head p) in
  DROP_SEGMENTS cfg < step_event_count b
  /\ busy b = false
  /\ (forall a, a <> E_AXIS ->
        - 2 ^ 31 < position p' a - position p a < 2 ^ 31 ->
        steps b a = Z.abs (position p' a - position p a)
        /\ signed_steps b a = position p' a - position p a)
  /\ ((forall a, 0 <= steps b a) ->
      step_event_count b < 2 ^ 31 /\ forall a, steps b a <= step_event_count b).
Proof.
  intros H b.
  destruct (appended_block cfg g _ _ _ _ _ _ _ _ _ H)
    as (pr & blk' & Hpr & Hgt & S1 & S2 & S3 & S4 & _ & _ & (M & _) & _ & _ & _ & Hpos).
  fold b in M.
  destruct M as (M1 & M2 & M3 & M4 & M5 & M6 & M7 & M8 & M9 & M10 & M11 & M12 & M13 & M14).
  destruct (PlannerFacts.prepare_block_planner cfg g p x y z e extruder pr Hpr)
    as (_ & _ & _ & _ & _ & _ & PX & _ & D).
  destruct (prepare_block_block cfg g p x y z e extruder pr Hpr) as (_ & Hst & Hrange & Hsec).
  split; [rewrite M2, S2; exact Hgt|].
  split; [rewrite M14; exact S4|].
  split.
  - intros a Ha Hfit.
    assert (Hd : pr_delta pr a = position p' a - position p a).
    { rewrite D, (PX a Ha), <- Hpos. apply int32_small. lia. }
    assert (Hs : steps b a = labs (position p' a - position p a)).
    { rewrite M1, S1, (Hst a Ha), Hd. reflexivity. }
    split.
    + rewrite Hs. unfold labs. apply int32_small. lia.
    + apply signed_steps_of_delta; [exact Hfit|exact Hs|].
      rewrite M4, S3, direction_bits_of_spec, Hd. reflexivity.
  - intros Hnn.
    assert (Hb : forall a, steps b a = steps (pr_block pr) a)
      by (intros a; rewrite M1, S1; reflexivity).
    assert (Hnn' : forall a, 0 <= steps (pr_block pr) a < 2 ^ 31).
    { intros a. specialize (Hnn a). specialize (Hrange a). rewrite Hb in Hnn. lia. }
    rewrite M2, S2, Hsec.
    pose proof (Hnn' X_AXIS). pose proof (Hnn' Y_AXIS).
    pose proof (Hnn' Z_AXIS). pose proof (Hnn' E_AXIS).
    rewrite !max_l_max.
    split.
    + rewrite uint32_small by lia. lia.
    + intros a. rewrite Hb, uint32_small by lia. destruct a; lia.
Qed.

(** With a step count that is not negative, the signed steps of an axis
    are the change of [position] as a [long]; and the new [position] is a
    [long]. *)
Lemma appended_block_signed_steps (cfg : config) (g : settings)
    (p p' : planner_state) (x y z e feed_rate : float) (extruder driver : Z) :
  plan_buffer_line cfg g p x y z e feed_rate extruder driver = Appended p' ->
  let b := block_buffer p' (block_buffer_head p) in
  (forall a, a <> E_AXIS -> 0 <= steps b a ->
     signed_steps b a = int32 (position p' a - position p a))
  /\ (forall a, - 2 ^ 31 <= position p' a < 2 ^ 31).
Proof.
  intros H b.
  destruct (appended_block cfg g _ _ _ _ _ _ _ _ _ H)
    as (pr & blk' & Hpr & Hgt & S1 & S2 & S3 & S4 & _ & _ & (M & _) & _ & _ & _ & Hpos).
  fold b in M.
  destruct M as (M1 & M2 & M3 & M4 & M5 & M6 & M7 & M8 & M9 & M10 & M11 & M12 & M13 & M14).
  destruct (PlannerFacts.prepare_block_planner cfg g p x y z e extruder pr Hpr)
    as (_ & _ & _ & _ & _ & _ & PX & _ & D).
  destruct (prepare_block_block cfg g p x y z e extruder pr Hpr) as (_ & Hst & Hrange & Hsec).
  split.
  - intros a Ha Hnn.
    assert (Hd : pr_delta pr a = int32 (position p' a - position p a)).
    { rewrite D, (PX a Ha), <- Hpos. reflexivity. }
    rewrite <- Hd.
    assert (Hs : steps b a = labs (pr_delta pr a)).
    { rewrite M1, S1, (Hst a Ha). reflexivity. }
    pose proof (int32_range (position p' a - position p a)) as Hr. rewrite <- Hd in Hr.
    assert (Hlow : - 2 ^ 31 < pr_delta pr a).
    { destruct (Z.eq_dec (pr_delta pr a) (- 2 ^ 31)) as [E|E]; [|lia].
      rewrite Hs, E in Hnn. vm_compute in Hnn. exfalso. apply Hnn. reflexivity. }
    apply signed_steps_of_delta; [lia|exact Hs|].
    rewrite M4, S3, direction_bits_of_spec. reflexivity.
  - intros a. rewrite Hpos.
    assert (Bd : forall A B (c : option A) (f : A -> option B) r,
               bind c f = Some r -> exists v, c = Some v /\ f v = Some r).
    { intros A B c f r. destruct c as [v|]; cbn [bind]; [eauto|discriminate]. }
    unfold prepare_block in Hpr.
    apply Bd in Hpr as (tx & Ex & Hpr). apply Bd in Hpr as (ty & Ey & Hpr).
    apply Bd in Hpr as (tz & Ez & Hpr). apply Bd in Hpr as (te & Ee & Hpr).
    apply Bd in Hpr as (p1 & _ & Hpr). apply Bd in Hpr as (se & _ & Hpr).
    injection Hpr as <-. cbn [pr_target].
    assert (R : forall f v, F32.lround f = Some v -> - 2 ^ 31 <= v < 2 ^ 31).
    { intros f v. unfold F32.lround, F32.in_range.
      destruct (F32.roundZ f) as [w|]; [|discriminate].
      destruct (Z.leb_spec (- 2 ^ 31) w), (Z.ltb_spec w (2 ^ 31)); cbn [andb];
        try discriminate.
      intros [= <-]. lia. }
    destruct a; eapply R; eassumption.
Qed.

(** X8.  The block an appended move leaves in the slot at the old head
    encodes the displacement: it is longer than [DROP_SEGMENTS], not busy,
    and on X, Y and Z its step count is the magnitude and its direction bit
    the sign of the change of [position], so that [signed_steps] is exactly
    the number of steps between the old and the new [position] (when that
    number fits a [long]).  If no step count is negative, every step count
    is at most [step_event_count], which is below 2^31. *)
Theorem appended_block_encodes_displacement (cfg : config) (g : settings)
    (p p' : planner_state) (x y z e feed_rate : float) (extruder driver : Z) :
  plan_buffer_line cfg g p x y z e feed_rate extruder driver = Appended p' ->
  let b := block_buffer p' (block_buffer_head p) in
  DROP_SEGMENTS cfg < step_event_count b
  /\ busy b = false
  /\ (forall a, a <> E_AXIS ->
        - 2 ^ 31 < position p' a - position p a < 2 ^ 31 ->
        steps b a = Z.abs (position p' a - position p a)
        /\ signed_steps b a = position p' a - position p a)
  /\ ((forall a, 0 <= steps b a) ->
      step_event_count b < 2 ^ 31 /\ forall a, steps b a <= step_event_count b).
Proof.
  exact (appended_block_geometry cfg g p p' x y z e feed_rate extruder driver).
Qed.

(** The ring after an appended move. *)
Lemma appended_queue (cfg : config) (g : settings)
    (p p' : planner_state) (x y z e feed_rate : float) (extruder driver : Z) :
  plan_buffer_line cfg g p x y z e feed_rate extruder driver = Appended p' ->
  ring_ok cfg p ->
  BLOCK_BUFFER_SIZE cfg <= 128 ->
  ring_ok cfg p'
  /\ block_buffer_tail p' = block_buffer_tail p
  /\ block_buffer_head p' = next_block_index cfg (block_buffer_head p)
  /\ movesplanned cfg p' = movesplanned cfg p + 1
  /\ movesplanned cfg p' < BLOCK_BUFFER_SIZE cfg
  /\ blocks_queued p' = true.
Proof.
  intros H Hok Hsmall. pose proof Hok as (Hpow & Hh & Ht).
  destruct (appended_shape cfg g _ _ _ _ _ _ _ _ _ H) as (pr & Hroom & Hpr & Hgt & Hc).
  destruct (appended_block cfg g _ _ _ _ _ _ _ _ _ H)
    as (_ & _ & _ & _ & _ & _ & _ & _ & _ & _ & _ & _ & H1 & H2 & _).
  pose proof (size_pos cfg Hpow) as Hs.
  assert (Enext : next_block_index cfg (block_buffer_head p)
                  = BLOCK_MOD cfg (block_buffer_head p + 1))
    by (apply next_block_index_small; [exact Hpow|exact Hsmall|lia]).
  assert (Hnext : 0 <= next_block_index cfg (block_buffer_head p) < BLOCK_BUFFER_SIZE cfg)
    by (rewrite Enext; apply BLOCK_MOD_range, Hpow).
  rewrite uint8_small in H1 by lia.
  assert (Hok' : ring_ok cfg p').
  { split; [exact Hpow|]. rewrite H1, H2. auto. }
  assert (Hm : movesplanned cfg p' = movesplanned cfg p + 1).
  { unfold movesplanned. rewrite H1, H2.
    rewrite Enext in *. rewrite !(BLOCK_MOD_mod cfg) in * by exact Hpow.
    set (n := BLOCK_BUFFER_SIZE cfg) in *.
    set (h := block_buffer_head p) in *. set (t := block_buffer_tail p) in *.
    clearbody n h t.
    assert (Ha : ((h + 1) mod n - t + n) mod n = (h - t + n + 1) mod n).
    { rewrite <- (Zplus_mod_idemp_l ((h + 1) mod n - t) n n).
      rewrite Zminus_mod_idemp_l.
      rewrite Zplus_mod_idemp_l. f_equal. lia. }
    rewrite Ha.
    assert (Hlt : (h - t + n) mod n + 1 < n \/ (h - t + n) mod n + 1 = n).
    { pose proof (Z.mod_pos_bound (h - t + n) n Hs). lia. }
    destruct Hlt as [Hlt|Heq].
    - rewrite <- (Zplus_mod_idemp_l (h - t + n) 1 n).
      apply Z.mod_small. pose proof (Z.mod_pos_bound (h - t + n) n Hs). lia.
    - exfalso. apply Hroom.
      (* the ring would be full *)
      assert (Hq : (h + 1) mod n = t mod n).
      { apply (mod_eq_iff (h + 1) t n Hs).
        pose proof (Z.div_mod (h - t + n) n ltac:(lia)) as Hdm.
        exists ((h - t + n) / n). lia. }
      rewrite Hq. rewrite Z.mod_small by lia. reflexivity. }
  split; [exact Hok'|]. split; [exact H2|]. split; [exact H1|].
  split; [exact Hm|].
  split; [apply (movesplanned_range cfg p' Hpow)|].
  unfold blocks_queued.
  destruct (Z.eqb_spec (block_buffer_head p') (block_buffer_tail p')) as [Heq|]; [|reflexivity].
  apply (movesplanned_zero_iff cfg p' Hok') in Heq.
  pose proof (movesplanned_range cfg p Hpow). lia.
Qed.

(** X9.  An appended move makes the queue one block longer and never fills
    the last free slot: in a ring with a power-of-two capacity of at most
    128 slots (the indices an [int8_t] holds), head and tail stay indices of
    the ring, the tail is untouched, the head advances by one slot, the
    number of queued blocks grows by exactly one and stays below the
    capacity, so that the full ring is never mistaken for an empty one. *)
Theorem appended_move_lengthens_queue (cfg : config) (g : settings)
    (p p' : planner_state) (x y z e feed_rate : float) (extruder driver : Z) :
  plan_buffer_line cfg g p x y z e feed_rate extruder driver = Appended p' ->
  ring_ok cfg p ->
  BLOCK_BUFFER_SIZE cfg <= 128 ->
  ring_ok cfg p'
  /\ block_buffer_tail p' = block_buffer_tail p
  /\ block_buffer_head p' = next_block_index cfg (block_buffer_head p)
  /\ movesplanned cfg p' = movesplanned cfg p + 1
  /\ movesplanned cfg p' < BLOCK_BUFFER_SIZE cfg
  /\ blocks_queued p' = true.
Proof.
  exact (appended_queue cfg g p p' x y z e feed_rate extruder driver).
Qed.

End AppendFacts.

(** ** The order of the floats *)

Module FloatOrder.
Import Int IntFacts Stepper Planner StepperControl PlannerControl.

(** [SFcompare] is a lexicographic comparison of sign, exponent and
    mantissa; what the planner needs of it holds for every pair of floats,
    canonical or not. *)

Lemma ltb_irrefl x : F32.ltb x x = false.
Proof.
  unfold F32.ltb, SFltb.
  destruct x as [s|s| |s m e]; cbn; try reflexivity.
  - destruct s; reflexivity.
  - destruct s; rewrite Z.compare_refl, Pos.compare_cont_refl; reflexivity.
Qed.

Ltac order_cases :=
  repeat match goal with
         | H : context [Z.compare ?a ?b] |- _ => destruct (Z.compare_spec a b)
         | H : context [Pos.compare_cont Eq ?a ?b] |- _ =>
             change (Pos.compare_cont Eq a b) with (Pos.compare a b) in *;
             destruct (Pos.compare_spec a b)
         end.

(** [a < c], not [b < c], not [a < b], with [b] comparable (not a NaN),
    cannot all hold: they would give [c <= b <= a < c]. *)
Lemma ltb_chain a b c :
  F32.ltb a c = true -> F32.ltb b c = false -> F32.ltb a b = false ->
  SFcompare b b <> None -> False.
Proof.
  unfold F32.ltb, SFltb.
  destruct a as [sa|sa| |sa ma ea], b as [sb|sb| |sb mb eb], c as [sc|sc| |sc mc ec];
    cbn [SFcompare]; intros H1 H2 H3 H4;
    try discriminate; try (apply H4; reflexivity); try congruence;
    repeat match goal with s : bool |- _ => destruct s end;
    try discriminate; clear H4;
    cbn [CompOpp] in *; order_cases; cbn [CompOpp] in *;
    try discriminate; try lia.
Qed.

(** [min(a,b)] is never greater than [a], nor than [b]. *)
Lemma gtb_min_l a b : F32.gtb (F32.min a b) a = false.
Proof.
  unfold F32.gtb, F32.min. destruct (F32.ltb a b) eqn:E; [apply ltb_irrefl|exact E].
Qed.

Lemma ltb_not_nan_r a b : F32.ltb a b = true -> SFcompare b b <> None.
Proof.
  unfold F32.ltb, SFltb.
  destruct a as [sa|sa| |sa ma ea], b as [sb|sb| |sb mb eb]; cbn; try discriminate.
Qed.

End FloatOrder.

(** ** Entry speeds and junction limits *)

Module EntryFacts.
Import Int IntFacts Stepper Planner StepperControl PlannerControl.
Import RingFacts RecalculateFacts AppendFacts FloatOrder.

(** The junction limit of a block bounds its entry speed. *)
Definition entry_bounded (b : block_t) : Prop :=
  F32.gtb (entry_speed b) (max_entry_speed b) = false.

Definition keeps_bound (b b' : block_t) : Prop :=
  max_entry_speed b' = max_entry_speed b
  /\ (entry_bounded b -> entry_bounded b').

Lemma keeps_bound_refl b : keeps_bound b b.
Proof. split; auto. Qed.

Lemma keeps_bound_trans b1 b2 b3 :
  keeps_bound b1 b2 -> keeps_bound b2 b3 -> keeps_bound b1 b3.
Proof. intros (A1 & B1) (A2 & B2). split; [congruence|auto]. Qed.

Lemma keeps_bound_flag b v : keeps_bound b (with_recalculate_flag b v).
Proof. split; auto. Qed.

Lemma keeps_bound_trapezoid b ef xf b' :
  calculate_trapezoid_for_block b ef xf = Some b' -> keeps_bound b b'.
Proof.
  unfold calculate_trapezoid_for_block.
  destruct (solve_trapezoid b ef xf) as [t|]; cbn [bind]; [|discriminate].
  destruct (negb (busy b)); intros [= <-]; split; auto.
Qed.

Section Kernels.
Context (cfg : config).

(** The reverse pass writes the junction limit itself, or the smaller of it
    and the speed the next block allows. *)
Lemma reverse_kernel_bound buf pv cu nx :
  buf_rel keeps_bound buf (planner_reverse_pass_kernel buf pv cu nx).
Proof.
  unfold planner_reverse_pass_kernel.
  destruct cu as [c|]; [|apply buf_rel_refl, keeps_bound_refl].
  destruct nx as [n|]; [|apply buf_rel_refl, keeps_bound_refl].
  destruct (F32.neb _ _); [|apply buf_rel_refl, keeps_bound_refl].
  apply buf_rel_upd; [exact keeps_bound_refl|].
  destruct (negb _ && _); (split; [reflexivity|intros _]);
    unfold entry_bounded; cbn.
  - apply gtb_min_l.
  - apply ltb_irrefl.
Qed.

(** The forward pass only lowers an entry speed: it writes the smaller of the
    speed found and the speed reachable from the previous block, and it does
    so only where the speed found compares above the previous one, so is a
    number. *)
Lemma forward_kernel_bound buf pv cu nx :
  buf_rel keeps_bound buf (planner_forward_pass_kernel buf pv cu nx).
Proof.
  unfold planner_forward_pass_kernel.
  destruct pv as [pv|]; [|apply buf_rel_refl, keeps_bound_refl].
  destruct cu as [c|]; [|apply buf_rel_refl, keeps_bound_refl].
  destruct (negb _); [|apply buf_rel_refl, keeps_bound_refl].
  destruct (F32.ltb (entry_speed (buf pv)) (entry_speed (buf c))) eqn:Hlt;
    [|apply buf_rel_refl, keeps_bound_refl].
  destruct (F32.neb _ _); [|apply buf_rel_refl, keeps_bound_refl].
  apply buf_rel_upd; [exact keeps_bound_refl|].
  split; [reflexivity|]. unfold entry_bounded. cbn. intros Hb.
  unfold F32.min at 1.
  match goal with |- context [if F32.ltb ?a ?b then _ else _] =>
    destruct (F32.ltb a b) eqn:Hm; [exact Hb|] end.
  match goal with |- F32.gtb ?v ?m = false => destruct (F32.gtb v m) eqn:Hg; [|reflexivity] end.
  exfalso. unfold F32.gtb in Hg, Hb.
  eapply (ltb_chain _ _ _ Hg Hm Hb). eapply ltb_not_nan_r, Hlt.
Qed.

Lemma planner_recalculate_bound p p' :
  planner_recalculate cfg p = Some p' ->
  forall j, keeps_bound (block_buffer p j) (block_buffer p' j).
Proof.
  apply (planner_recalculate_kernels_rel cfg keeps_bound keeps_bound_refl keeps_bound_trans
           reverse_kernel_bound forward_kernel_bound keeps_bound_flag keeps_bound_trapezoid).
Qed.

End Kernels.

(** X10.  The planner never leaves a block with an entry speed above its
    junction limit: if [entry_speed > max_entry_speed] holds in no slot other
    than the free slot at the head before [plan_buffer_line], it holds in no
    slot after an appended move.  The new block enters at the smaller of
    its junction speed and the speed it can brake from, the reverse pass
    raises a speed to the limit at most, and the forward pass only lowers. *)
Theorem plan_buffer_line_keeps_entry_below_limit (cfg : config) (g : settings)
    (p p' : planner_state) (x y z e feed_rate : float) (extruder driver : Z) :
  plan_buffer_line cfg g p x y z e feed_rate extruder driver = Appended p' ->
  (forall j, j <> block_buffer_head p ->
     F32.gtb (entry_speed (block_buffer p j)) (max_entry_speed (block_buffer p j)) = false) ->
  forall j,
    F32.gtb (entry_speed (block_buffer p' j)) (max_entry_speed (block_buffer p' j)) = false.
Proof.
  intros H Hall j.
  destruct (appended_shape cfg g _ _ _ _ _ _ _ _ _ H) as (pr & Hroom & Hpr & Hgt & Hc).
  destruct (PlannerFacts.prepare_block_planner cfg g p x y z e extruder pr Hpr)
    as (B & Hh & Ht & _).
  destruct (complete_block_shape cfg g pr feed_rate extruder driver _ p' Hc)
    as (blk & ef & xf & blk' & ps & pn & _ & _ & _ & _ & _ & _ & _ & (v & Hv) & Ht' & Hr).
  apply (planner_recalculate_bound cfg _ p' Hr j).
  cbn [block_buffer with_position with_block_buffer_head with_block_buffer].
  rewrite B, Hh. unfold upd_block.
  destruct (Z.eqb_spec (block_buffer_head p) j) as [<-|Hne]; [|apply Hall; congruence].
  apply (keeps_bound_trapezoid blk ef xf blk' Ht').
  unfold entry_bounded. rewrite Hv. apply gtb_min_l.
Qed.

End EntryFacts.

(** ** The parts of the interrupt handler *)

Module HandlerFacts.
Import Int IntFacts Stepper Planner StepperControl PlannerControl.
Import StepperFacts.

(** *** What each part of the handler writes *)

(** The step loop writes the Bresenham counters, the step positions and the
    count of step events. *)
Definition motion_update (s : stepper_state) (c cp : axis_array Z) (sec : Z) : stepper_state :=
  with_step_events_completed (with_count_position (with_counter s c) cp) sec.

Definition motion_shape (s s' : stepper_state) : Prop :=
  exists c cp sec, s' = motion_update s c cp sec.

Lemma motion_shape_refl s : motion_shape s s.
Proof.
  exists (counter s), (count_position s), (step_events_completed s).
  destruct s; reflexivity.
Qed.

Lemma motion_shape_trans s1 s2 s3 :
  motion_shape s1 s2 -> motion_shape s2 s3 -> motion_shape s1 s3.
Proof.
  intros (c & cp & sec & ->) (c' & cp' & sec' & ->).
  exists c', cp', sec'. reflexivity.
Qed.

Lemma STEP_START_shape b a s : motion_shape s (STEP_START b a s).
Proof.
  unfold STEP_START.
  exists (aset (counter s) a (int32 (counter s a + steps b a))),
         (count_position s), (step_events_completed s).
  reflexivity.
Qed.

Lemma STEP_END_shape b a s : motion_shape s (STEP_END b a s).
Proof.
  unfold STEP_END. destruct (0 <? counter s a); [|apply motion_shape_refl].
  exists (aset (counter s) a (int32 (counter s a - step_event_count b))),
         (aset (count_position s) a (int32 (count_position s a + count_direction s a))),
         (step_events_completed s).
  reflexivity.
Qed.

Lemma with_sec_shape s v : motion_shape s (with_step_events_completed s v).
Proof. exists (counter s), (count_position s), v. reflexivity. Qed.

Lemma after_starts_shape b s : motion_shape s (after_starts b s).
Proof.
  unfold after_starts.
  eapply motion_shape_trans; [apply (STEP_START_shape b X_AXIS)|].
  eapply motion_shape_trans; [apply (STEP_START_shape b Y_AXIS)|].
  eapply motion_shape_trans; [apply (STEP_START_shape b Z_AXIS)|].
  apply (STEP_START_shape b E_AXIS).
Qed.

Lemma after_ends_shape b s : motion_shape s (after_ends b s).
Proof.
  unfold after_ends.
  eapply motion_shape_trans; [apply (STEP_END_shape b X_AXIS)|].
  eapply motion_shape_trans; [apply (STEP_END_shape b Y_AXIS)|].
  eapply motion_shape_trans; [apply (STEP_END_shape b Z_AXIS)|].
  apply (STEP_END_shape b E_AXIS).
Qed.

Lemma step_once_shape b s : motion_shape s (step_once b s).
Proof.
  rewrite step_once_unfold.
  eapply motion_shape_trans; [apply (after_starts_shape b)|].
  eapply motion_shape_trans; [apply (after_ends_shape b)|].
  apply with_sec_shape.
Qed.

Lemma step_loop_shape n b : forall s, motion_shape s (step_loop n b s).
Proof.
  induction n as [|n IH]; intros s; cbn [step_loop].
  - apply motion_shape_refl.
  - cbv zeta. destruct (_ <=? _); [apply step_once_shape|].
    eapply motion_shape_trans; [apply step_once_shape|apply IH].
Qed.


Section Parts.
Context (cfg : config).

Lemma calc_timer_floor r s : 100 <= fst (calc_timer cfg r s).
Proof.
  unfold calc_timer. destruct (calc_timer_step_loops cfg (uint16 r)) as [rate loops].
  cbn [fst]. apply calc_timer_lookup_floor.
Qed.

(** [set_stepper_direction] writes [count_direction] only. *)
Lemma SET_STEP_DIR_shape a s : exists d, SET_STEP_DIR a s = with_count_direction s d.
Proof. unfold SET_STEP_DIR. destruct (TEST _ _); eexists; reflexivity. Qed.

Lemma set_stepper_direction_shape s :
  exists d, set_stepper_direction s = with_count_direction s d.
Proof.
  unfold set_stepper_direction.
  destruct (SET_STEP_DIR_shape X_AXIS s) as (d1 & ->).
  destruct (SET_STEP_DIR_shape Y_AXIS (with_count_direction s d1)) as (d2 & ->).
  destruct (SET_STEP_DIR_shape Z_AXIS (with_count_direction (with_count_direction s d1) d2))
    as (d3 & ->).
  destruct (SET_STEP_DIR_shape E_AXIS
              (with_count_direction
                 (with_count_direction (with_count_direction s d1) d2) d3)) as (d4 & ->).
  exists d4. reflexivity.
Qed.

(** What [trapezoid_generator_reset] establishes and what it leaves alone. *)
Lemma trapezoid_generator_reset_frame b s :
  let s' := trapezoid_generator_reset cfg b s in
  out_bits s' = direction_bits b
  /\ (dir_consistent s -> dir_consistent s')
  /\ 100 <= OCR1A_nominal s'
  /\ 100 <= OCR1A s'
  /\ endstop_hit_bits s' = endstop_hit_bits s
  /\ endstops_trigsteps s' = endstops_trigsteps s
  /\ old_endstop_bits s' = old_endstop_bits s
  /\ check_endstops s' = check_endstops s
  /\ count_position s' = count_position s
  /\ counter s' = counter s
  /\ step_events_completed s' = step_events_completed s
  /\ current_block s' = current_block s
  /\ cleaning_buffer_counter s' = cleaning_buffer_counter s
  /\ performing_homing s' = performing_homing s.
Proof.
  unfold trapezoid_generator_reset.
  set (s0 := if direction_bits b =? out_bits s then s
             else set_stepper_direction (with_out_bits s (direction_bits b))).
  assert (H0 : out_bits s0 = direction_bits b
               /\ (dir_consistent s -> dir_consistent s0)
               /\ endstop_hit_bits s0 = endstop_hit_bits s
               /\ endstops_trigsteps s0 = endstops_trigsteps s
               /\ old_endstop_bits s0 = old_endstop_bits s
               /\ check_endstops s0 = check_endstops s
               /\ count_position s0 = count_position s
               /\ counter s0 = counter s
               /\ step_events_completed s0 = step_events_completed s
               /\ current_block s0 = current_block s
               /\ cleaning_buffer_counter s0 = cleaning_buffer_counter s
               /\ performing_homing s0 = performing_homing s).
  { unfold s0. destruct (Z.eqb_spec (direction_bits b) (out_bits s)) as [E|_].
    - repeat split; auto.
    - split.
      + destruct (set_stepper_direction_shape (with_out_bits s (direction_bits b)))
          as (d & ->). reflexivity.
      + split; [intros _; apply set_stepper_direction_consistent|].
        destruct (set_stepper_direction_shape (with_out_bits s (direction_bits b)))
          as (d & ->). repeat split. }
  clearbody s0.
  destruct H0 as (O & D & F1 & F2 & F3 & F4 & F5 & F6 & F7 & F8 & F9 & F10).
  pose proof (calc_timer_floor (nominal_rate b) (with_deceleration_time s0 0)) as T1.
  rewrite (calc_timer_pair cfg (nominal_rate b) (with_deceleration_time s0 0)) in *.
  destruct (calc_timer_state cfg (nominal_rate b) (with_deceleration_time s0 0))
    as (k1 & Hk1 & E1).
  rewrite E1. clear E1.
  set (t1 := fst (calc_timer cfg (nominal_rate b) (with_deceleration_time s0 0))) in *.
  clearbody t1.
  cbn [step_loops with_step_loops with_OCR1A_nominal].
  match goal with |- context [calc_timer cfg ?r ?s1] =>
    pose proof (calc_timer_floor r s1) as T2;
    rewrite (calc_timer_pair cfg r s1) in *;
    destruct (calc_timer_state cfg r s1) as (k2 & Hk2 & E2);
    rewrite E2; clear E2;
    set (t2 := fst (calc_timer cfg r s1)) in *; clearbody t2 end.
  cbn.
  split; [exact O|]. split.
  { intros Hd a. specialize (D Hd a). exact D. }
  repeat split; auto.
Qed.

(** *** The endstop poll *)

(** [update_endstops] writes the trigger record, the hit bits, the count of
    step events and the previous sample. *)
Definition endstop_update (s : stepper_state) (t : axis_array Z) (h c : Z) : stepper_state :=
  with_step_events_completed (with_endstop_hit_bits (with_endstops_trigsteps s t) h) c.

(** Hit bits only grow, and only in the low three bits (X_MIN, Y_MIN and
    Z_MIN). *)
Definition hits_grow (h h' : Z) : Prop :=
  exists d, 0 <= d < 8 /\ h' = Z.lor h d.

Lemma hits_grow_refl h : hits_grow h h.
Proof. exists 0. split; [lia|]. rewrite Z.lor_0_r. reflexivity. Qed.

Lemma lor_small a b n : 0 <= n -> 0 <= a < 2 ^ n -> 0 <= b < 2 ^ n -> 0 <= Z.lor a b < 2 ^ n.
Proof.
  intros Hn Ha Hb.
  assert (H0 : 0 <= Z.lor a b) by (apply Z.lor_nonneg; lia).
  split; [exact H0|].
  destruct (Z.eq_dec (Z.lor a b) 0) as [E|E]; [rewrite E; apply Z.pow_pos_nonneg; lia|].
  apply Z.log2_lt_pow2; [lia|].
  rewrite Z.log2_lor by lia.
  destruct (Z.eq_dec a 0) as [->|Ha0], (Z.eq_dec b 0) as [->|Hb0].
  - cbn in E. congruence.
  - rewrite Z.max_r by (cbn; apply Z.log2_nonneg). apply Z.log2_lt_pow2; lia.
  - rewrite Z.max_l by (cbn; apply Z.log2_nonneg). apply Z.log2_lt_pow2; lia.
  - apply Z.max_lub_lt; apply Z.log2_lt_pow2; lia.
Qed.

Lemma hits_grow_trans h1 h2 h3 : hits_grow h1 h2 -> hits_grow h2 h3 -> hits_grow h1 h3.
Proof.
  intros (d1 & Hd1 & ->) (d2 & Hd2 & ->).
  exists (Z.lor d1 d2). split.
  - apply (lor_small d1 d2 3); lia.
  - rewrite Z.lor_assoc. reflexivity.
Qed.

Lemma hits_grow_range h h' : 0 <= h < 256 -> hits_grow h h' -> 0 <= h' < 256.
Proof.
  intros Hh (d & Hd & ->). apply (lor_small h d 8); lia.
Qed.

Lemma hits_grow_SBI h k :
  0 <= h < 256 -> 0 <= k < 3 -> hits_grow h (uint8 (SBI h k)).
Proof.
  intros Hh Hk. exists (Z.shiftl 1 k).
  assert (Hd : 0 <= Z.shiftl 1 k < 8).
  { rewrite Z.shiftl_mul_pow2 by lia.
    assert (k = 0 \/ k = 1 \/ k = 2) as [->|[->| ->]] by lia; cbn; lia. }
  split; [exact Hd|].
  unfold SBI. apply uint8_small.
  apply (lor_small h (Z.shiftl 1 k) 8); lia.
Qed.

Definition endstop_shape (s s' : stepper_state) : Prop :=
  exists t h c, s' = endstop_update s t h c
    /\ (0 <= endstop_hit_bits s < 256 -> hits_grow (endstop_hit_bits s) h).

Lemma endstop_shape_refl s : endstop_shape s s.
Proof.
  exists (endstops_trigsteps s), (endstop_hit_bits s), (step_events_completed s).
  split; [destruct s; reflexivity|intros _; apply hits_grow_refl].
Qed.

Lemma endstop_shape_trans s1 s2 s3 :
  endstop_shape s1 s2 -> endstop_shape s2 s3 -> endstop_shape s1 s3.
Proof.
  intros (t & h & c & -> & G1) (t' & h' & c' & -> & G2).
  exists t', h', c'. split; [reflexivity|].
  intros Hr. specialize (G1 Hr). cbn in G2.
  eapply hits_grow_trans; [exact G1|apply G2]. eapply hits_grow_range; eauto.
Qed.

Lemma axis_min_bit_low a : 0 <= endstop_bit (axis_min a) < 3.
Proof. destruct a; cbn; lia. Qed.

Lemma UPDATE_ENDSTOP_shape inp b a e cur s :
  endstop_shape s (snd (UPDATE_ENDSTOP cfg inp b a e (cur, s))).
Proof.
  unfold UPDATE_ENDSTOP.
  destruct (_ && _); cbn [snd]; [|apply endstop_shape_refl].
  exists (aset (endstops_trigsteps s) a (count_position s a)),
         (uint8 (SBI (endstop_hit_bits s) (endstop_bit (axis_min a)))),
         (step_event_count b).
  split; [reflexivity|].
  intros Hh. apply hits_grow_SBI; [exact Hh|apply axis_min_bit_low].
Qed.

Lemma update_z_dual_shape inp b e e2 cur s :
  endstop_shape s (snd (update_z_dual cfg inp b e e2 (cur, s))).
Proof.
  unfold update_z_dual. cbv zeta.
  destruct (_ && _); cbn [snd]; [|apply endstop_shape_refl].
  destruct (_ || _); cbn [snd].
  - exists (aset (endstops_trigsteps s) Z_AXIS (count_position s Z_AXIS)),
           (uint8 (SBI (endstop_hit_bits s) (endstop_bit Z_MIN))),
           (step_event_count b).
    split; [reflexivity|].
    intros Hh. apply hits_grow_SBI; [exact Hh|cbn; lia].
  - exists (aset (endstops_trigsteps s) Z_AXIS (count_position s Z_AXIS)),
           (uint8 (SBI (endstop_hit_bits s) (endstop_bit Z_MIN))),
           (step_events_completed s).
    split; [reflexivity|].
    intros Hh. apply hits_grow_SBI; [exact Hh|cbn; lia].
Qed.

Lemma update_endstops_shape inp b s :
  exists s1 o, endstop_shape s s1 /\ update_endstops cfg inp b s = with_old_endstop_bits s1 o.
Proof.
  unfold update_endstops.
  set (csx := if TEST (out_bits s) (axis_index X_AXIS) then _ else _).
  assert (Hx : endstop_shape s (snd csx)).
  { unfold csx. repeat match goal with |- context [if ?c then _ else _] => destruct c end;
      try apply endstop_shape_refl; apply UPDATE_ENDSTOP_shape. }
  clearbody csx. destruct csx as [curx sx]. cbn [snd] in Hx.
  set (csy := if TEST (out_bits s) (axis_index Y_AXIS) then _ else _).
  assert (Hy : endstop_shape sx (snd csy)).
  { unfold csy. repeat match goal with |- context [if ?c then _ else _] => destruct c end;
      try apply endstop_shape_refl; apply UPDATE_ENDSTOP_shape. }
  clearbody csy. destruct csy as [cury sy]. cbn [snd] in Hy.
  set (csz := if TEST (out_bits s) (axis_index Z_AXIS) then _ else _).
  assert (Hz : endstop_shape sy (snd csz)).
  { unfold csz. repeat match goal with |- context [if ?c then _ else _] => destruct c end;
      try apply endstop_shape_refl;
      try apply UPDATE_ENDSTOP_shape;
      apply update_z_dual_shape. }
  clearbody csz. destruct csz as [curz sz]. cbn [snd fst] in *.
  exists sz, curz. split; [|reflexivity].
  eapply endstop_shape_trans; [exact Hx|].
  eapply endstop_shape_trans; [exact Hy|exact Hz].
Qed.

(** *** The timer update *)

Definition timer_update (s : stepper_state) (r l o at_ dt : Z) : stepper_state :=
  with_deceleration_time
    (with_acceleration_time (with_OCR1A (with_step_loops (with_acc_step_rate s r) l) o) at_) dt.

Definition timer_shape (s s' : stepper_state) : Prop :=
  exists r l o at_ dt, s' = timer_update s r l o at_ dt.

Lemma timer_shape_refl s : timer_shape s s.
Proof.
  exists (acc_step_rate s), (step_loops s), (OCR1A s), (acceleration_time s),
         (deceleration_time s).
  destruct s; reflexivity.
Qed.

Lemma timer_shape_trans s1 s2 s3 : timer_shape s1 s2 -> timer_shape s2 s3 -> timer_shape s1 s3.
Proof.
  intros (r & l & o & a & d & ->) (r' & l' & o' & a' & d' & ->).
  exists r', l', o', a', d'. reflexivity.
Qed.

Lemma timer_shape_rate s v : timer_shape s (with_acc_step_rate s v).
Proof.
  exists v, (step_loops s), (OCR1A s), (acceleration_time s), (deceleration_time s).
  reflexivity.
Qed.

Lemma timer_shape_loops s v : timer_shape s (with_step_loops s v).
Proof.
  exists (acc_step_rate s), v, (OCR1A s), (acceleration_time s), (deceleration_time s).
  reflexivity.
Qed.

Lemma timer_shape_OCR1A s v : timer_shape s (with_OCR1A s v).
Proof.
  exists (acc_step_rate s), (step_loops s), v, (acceleration_time s), (deceleration_time s).
  reflexivity.
Qed.

Lemma timer_shape_acceleration_time s v : timer_shape s (with_acceleration_time s v).
Proof.
  exists (acc_step_rate s), (step_loops s), (OCR1A s), v, (deceleration_time s).
  reflexivity.
Qed.

Lemma timer_shape_deceleration_time s v : timer_shape s (with_deceleration_time s v).
Proof.
  exists (acc_step_rate s), (step_loops s), (OCR1A s), (acceleration_time s), v.
  reflexivity.
Qed.

Ltac timer_steps :=
  repeat first
    [ apply timer_shape_refl
    | eapply timer_shape_trans; [|apply timer_shape_rate]
    | eapply timer_shape_trans; [|apply timer_shape_loops]
    | eapply timer_shape_trans; [|apply timer_shape_OCR1A]
    | eapply timer_shape_trans; [|apply timer_shape_acceleration_time]
    | eapply timer_shape_trans; [|apply timer_shape_deceleration_time] ].

Lemma OCR1A_acceleration_time s v : OCR1A (with_acceleration_time s v) = OCR1A s.
Proof. reflexivity. Qed.

Lemma OCR1A_deceleration_time s v : OCR1A (with_deceleration_time s v) = OCR1A s.
Proof. reflexivity. Qed.

Lemma OCR1A_step_loops s v : OCR1A (with_step_loops s v) = OCR1A s.
Proof. reflexivity. Qed.

Lemma OCR1A_OCR1A s v : OCR1A (with_OCR1A s v) = v.
Proof. reflexivity. Qed.

Lemma next_timer_shape b s :
  timer_shape s (next_timer cfg b s)
  /\ (100 <= OCR1A_nominal s -> 100 <= OCR1A (next_timer cfg b s)).
Proof.
  unfold next_timer.
  set (M := MultiU24X32toH16 (acceleration_time s) (acceleration_rate b)). clearbody M.
  set (D := MultiU24X32toH16 (deceleration_time s) (acceleration_rate b)). clearbody D.
  destruct (_ <=? _); [|destruct (_ <? _)].
  - match goal with |- context [calc_timer cfg ?r ?s0] =>
      pose proof (calc_timer_floor r s0) as T;
      rewrite (calc_timer_pair cfg r s0);
      destruct (calc_timer_state cfg r s0) as (k & Hk & E); rewrite E; clear E;
      set (t := fst (calc_timer cfg r s0)) in *; clearbody t end.
    split.
    + destruct (nominal_rate b <? _); timer_steps.
    + intros _. rewrite OCR1A_acceleration_time, OCR1A_OCR1A. exact T.
  - match goal with |- context [calc_timer cfg ?r ?s0] =>
      pose proof (calc_timer_floor r s0) as T;
      rewrite (calc_timer_pair cfg r s0);
      destruct (calc_timer_state cfg r s0) as (k & Hk & E); rewrite E; clear E;
      set (t := fst (calc_timer cfg r s0)) in *; clearbody t end.
    split.
    + timer_steps.
    + intros _. rewrite OCR1A_deceleration_time, OCR1A_OCR1A. exact T.
  - split; [timer_steps|].
    intros H. rewrite OCR1A_step_loops, OCR1A_OCR1A. exact H.
Qed.

(** *** What a run of the handler leaves alone *)

Definition handler_frame (s s' : stepper_state) : Prop :=
  out_bits s' = out_bits s
  /\ count_direction s' = count_direction s
  /\ check_endstops s' = check_endstops s
  /\ cleaning_buffer_counter s' = cleaning_buffer_counter s
  /\ OCR1A_nominal s' = OCR1A_nominal s
  /\ performing_homing s' = performing_homing s
  /\ (0 <= endstop_hit_bits s < 256 ->
      hits_grow (endstop_hit_bits s) (endstop_hit_bits s'))
  /\ (check_endstops s = false ->
      endstop_hit_bits s' = endstop_hit_bits s
      /\ endstops_trigsteps s' = endstops_trigsteps s).

Lemma handler_frame_refl s : handler_frame s s.
Proof. repeat split; auto. intros _. apply hits_grow_refl. Qed.

Lemma handler_frame_trans s1 s2 s3 :
  handler_frame s1 s2 -> handler_frame s2 s3 -> handler_frame s1 s3.
Proof.
  intros (A1 & A2 & A3 & A4 & A5 & A6 & A7 & A8) (B1 & B2 & B3 & B4 & B5 & B6 & B7 & B8).
  split; [congruence|]. split; [congruence|]. split; [congruence|].
  split; [congruence|]. split; [congruence|]. split; [congruence|].
  split.
  - intros Hr. specialize (A7 Hr).
    eapply hits_grow_trans; [exact A7|]. apply B7. eapply hits_grow_range; eauto.
  - intros Hc. destruct (A8 Hc) as (E1 & E2).
    assert (Hc2 : check_endstops s2 = false) by congruence.
    destruct (B8 Hc2) as (E3 & E4). split; congruence.
Qed.

Lemma handler_frame_same s s' :
  out_bits s' = out_bits s ->
  count_direction s' = count_direction s ->
  check_endstops s' = check_endstops s ->
  cleaning_buffer_counter s' = cleaning_buffer_counter s ->
  OCR1A_nominal s' = OCR1A_nominal s ->
  performing_homing s' = performing_homing s ->
  endstop_hit_bits s' = endstop_hit_bits s ->
  endstops_trigsteps s' = endstops_trigsteps s ->
  handler_frame s s'.
Proof.
  intros H1 H2 H3 H4 H5 H6 H7 H8. repeat split; auto.
  intros _. rewrite H7. apply hits_grow_refl.
Qed.

Lemma motion_shape_frame s s' : motion_shape s s' -> handler_frame s s'.
Proof. intros (c & cp & sec & ->). apply handler_frame_same; reflexivity. Qed.

Lemma timer_shape_frame s s' : timer_shape s s' -> handler_frame s s'.
Proof. intros (r & l & o & a & d & ->). apply handler_frame_same; reflexivity. Qed.

Lemma with_OCR1A_frame s v : handler_frame s (with_OCR1A s v).
Proof. apply handler_frame_same; reflexivity. Qed.

Lemma with_current_block_frame s v : handler_frame s (with_current_block s v).
Proof. apply handler_frame_same; reflexivity. Qed.

Lemma endstop_poll_frame inp b s :
  handler_frame s (if check_endstops s then update_endstops cfg inp b s else s).
Proof.
  destruct (check_endstops s) eqn:Hc; [|apply handler_frame_refl].
  destruct (update_endstops_shape inp b s) as (s1 & o & (t & h & c & -> & G) & ->).
  unfold handler_frame.
  cbn [out_bits count_direction check_endstops cleaning_buffer_counter OCR1A_nominal
       performing_homing endstop_hit_bits endstops_trigsteps
       with_old_endstop_bits endstop_update with_step_events_completed
       with_endstop_hit_bits with_endstops_trigsteps].
  repeat split; auto; congruence.
Qed.

(** The second half of the handler, with a block latched. *)
Lemma ISR_execute_frame inp p s i :
  current_block s = Some i ->
  let s' := stepper (ISR_execute cfg inp p s) in
  handler_frame s s'
  /\ (100 <= OCR1A_nominal s -> timer_not_behind inp -> 100 <= OCR1A s')
  /\ (current_block s' = Some i \/ current_block s' = None)
  /\ block_buffer_head (planner (ISR_execute cfg inp p s)) = block_buffer_head p
  /\ block_buffer (planner (ISR_execute cfg inp p s)) = block_buffer p.
Proof.
  intros Hcur. unfold ISR_execute. rewrite Hcur.
  set (b := block_buffer p i).
  pose proof (endstop_poll_frame inp b s) as F1.
  assert (C1 : current_block (if check_endstops s then update_endstops cfg inp b s else s)
               = Some i).
  { destruct (check_endstops s); [|exact Hcur].
    destruct (update_endstops_shape inp b s) as (s1 & o & (t & h & c & -> & G) & ->).
    exact Hcur. }
  set (s1 := if check_endstops s then update_endstops cfg inp b s else s) in *.
  clearbody s1.
  pose proof (step_loop_shape (Z.to_nat (step_loops s1)) b s1) as M2.
  set (s2 := step_loop (Z.to_nat (step_loops s1)) b s1) in *. clearbody s2.
  pose proof (motion_shape_frame s1 s2 M2) as F2.
  assert (C2 : current_block s2 = Some i)
    by (destruct M2 as (c & cp & sec & ->); exact C1).
  destruct (next_timer_shape b s2) as (T3 & O3).
  set (s3 := next_timer cfg b s2) in *. clearbody s3.
  pose proof (timer_shape_frame s2 s3 T3) as F3.
  assert (C3 : current_block s3 = Some i)
    by (destruct T3 as (r & l & o & a & d & ->); exact C2).
  set (v := if OCR1A s3 <? uint16 (TCNT1 inp + 16)
            then uint16 (TCNT1_reread inp + 16) else OCR1A s3).
  assert (Hv : 100 <= OCR1A s3 -> timer_not_behind inp -> 100 <= v).
  { unfold v, timer_not_behind.
    destruct (Z.ltb_spec (OCR1A s3) (uint16 (TCNT1 inp + 16))); lia. }
  clearbody v.
  assert (F : handler_frame s (with_OCR1A s3 v)).
  { eapply handler_frame_trans; [exact F1|].
    eapply handler_frame_trans; [exact F2|].
    eapply handler_frame_trans; [exact F3|apply with_OCR1A_frame]. }
  assert (HO : 100 <= OCR1A_nominal s -> timer_not_behind inp -> 100 <= v).
  { intros H Ht. apply Hv; [|exact Ht]. apply O3.
    destruct F1 as (_ & _ & _ & _ & E1 & _), F2 as (_ & _ & _ & _ & E2 & _).
    rewrite E2, E1. exact H. }
  destruct (step_event_count b <=? step_events_completed (with_OCR1A s3 v));
    cbn [stepper planner].
  - split; [eapply handler_frame_trans; [exact F|apply with_current_block_frame]|].
    split; [exact HO|]. split; [right; reflexivity|].
    unfold plan_discard_current_block.
    destruct (block_buffer_head p =? block_buffer_tail p); split; reflexivity.
  - split; [exact F|]. split; [exact HO|]. split; [left; exact C3|]. split; reflexivity.
Qed.

(** The first half of the handler. *)
Lemma ISR_latch_frame p s :
  let s' := snd (ISR_latch cfg p s) in
  let p' := fst (ISR_latch cfg p s) in
  check_endstops s' = check_endstops s
  /\ cleaning_buffer_counter s' = cleaning_buffer_counter s
  /\ performing_homing s' = performing_homing s
  /\ endstop_hit_bits s' = endstop_hit_bits s
  /\ endstops_trigsteps s' = endstops_trigsteps s
  /\ count_position s' = count_position s
  /\ (dir_consistent s -> dir_consistent s')
  /\ ((current_block s <> None -> 100 <= OCR1A_nominal s) ->
      (current_block s' <> None -> 100 <= OCR1A_nominal s'))
  /\ (current_block s' = None -> OCR1A s' = 2000)
  /\ block_buffer_head p' = block_buffer_head p
  /\ block_buffer_tail p' = block_buffer_tail p.
Proof.
  unfold ISR_latch.
  destruct (current_block s) as [i|] eqn:Hcur.
  - cbn [fst snd]. repeat split; auto.
    + intros H _. apply H. discriminate.
    + intros H. rewrite Hcur in H. discriminate.
  - destruct (plan_get_current_block p) as [i|].
    + cbv zeta.
      match goal with |- context [trapezoid_generator_reset cfg ?b ?s0] =>
        pose proof (trapezoid_generator_reset_frame b s0) as R;
        set (sr := trapezoid_generator_reset cfg b s0) in *; clearbody sr end.
      cbv zeta in R.
      destruct R as (R1 & R2 & R3 & R4 & R5 & R6 & R7 & R8 & R9 & R10 & R11 & R12 & R13 & R14).
      cbn [fst snd].
      cbn [current_block out_bits count_direction check_endstops cleaning_buffer_counter
           performing_homing endstop_hit_bits endstops_trigsteps count_position
           OCR1A_nominal OCR1A block_buffer_head block_buffer_tail
           with_step_events_completed with_counter with_block_buffer with_current_block] in *.
      split; [exact R8|]. split; [exact R13|]. split; [exact R14|]. split; [exact R5|].
      split; [exact R6|]. split; [exact R9|].
      split.
      { intros Hd a. specialize (R2 Hd a). exact R2. }
      split; [intros _ _; exact R3|].
      split; [rewrite R12; discriminate|].
      split; reflexivity.
    + cbn [fst snd]. repeat split; auto.
Qed.

End Parts.

End HandlerFacts.

(** ** Invariants of the interrupt handler *)

Module InterruptFacts.
Import Int IntFacts Stepper Planner StepperControl PlannerControl.
Import StepperFacts HandlerFacts RingFacts.

Section Runs.
Context (cfg : config).

Lemma run_ISR_app inps1 inps2 m :
  run_ISR cfg (inps1 ++ inps2) m = run_ISR cfg inps2 (run_ISR cfg inps1 m).
Proof.
  revert m. induction inps1 as [|inp rest IH]; intros m; cbn [app run_ISR]; auto.
Qed.

(** One run of the handler, in its three cases. *)
Lemma ISR_cases inp m :
  (cleaning_buffer_counter (stepper m) <> 0
   /\ ISR cfg inp m
      = {| planner := plan_discard_current_block cfg (planner m);
           stepper := with_OCR1A
                        (with_cleaning_buffer_counter
                           (with_current_block (stepper m) None)
                           (uint16 (cleaning_buffer_counter (stepper m) - 1))) 200 |})
  \/ (cleaning_buffer_counter (stepper m) = 0
      /\ ISR cfg inp m
         = ISR_execute cfg inp (fst (ISR_latch cfg (planner m) (stepper m)))
             (snd (ISR_latch cfg (planner m) (stepper m)))).
Proof.
  unfold ISR.
  destruct (Z.eqb_spec (cleaning_buffer_counter (stepper m)) 0) as [E|E]; cbn [negb].
  - right. split; [exact E|].
    destruct (ISR_latch cfg (planner m) (stepper m)) as [p1 s1]. reflexivity.
  - left. split; [exact E|reflexivity].
Qed.

Lemma ISR_execute_idle inp p s :
  current_block s = None -> ISR_execute cfg inp p s = {| planner := p; stepper := s |}.
Proof. intros H. unfold ISR_execute. rewrite H. reflexivity. Qed.

(** What one run keeps, whatever the case. *)
Lemma ISR_frame inp m :
  let s := stepper m in
  let s' := stepper (ISR cfg inp m) in
  check_endstops s' = check_endstops s
  /\ performing_homing s' = performing_homing s
  /\ (dir_consistent s -> dir_consistent s')
  /\ (0 <= endstop_hit_bits s < 256 -> hits_grow (endstop_hit_bits s) (endstop_hit_bits s'))
  /\ (check_endstops s = false ->
      endstop_hit_bits s' = endstop_hit_bits s
      /\ endstops_trigsteps s' = endstops_trigsteps s)
  /\ ((current_block s <> None -> 100 <= OCR1A_nominal s) ->
      (current_block s' <> None -> 100 <= OCR1A_nominal s')
      /\ (timer_not_behind inp -> 100 <= OCR1A s'))
  /\ block_buffer_head (planner (ISR cfg inp m)) = block_buffer_head (planner m).
Proof.
  cbv zeta.
  destruct (ISR_cases inp m) as [(Hc & ->)|(Hc & ->)]; cbn [stepper planner].
  - split; [reflexivity|]. split; [reflexivity|].
    split; [intros H a; apply H|].
    split; [intros _; apply hits_grow_refl|].
    split; [intros _; split; reflexivity|].
    split.
    { intros _. cbn. split; [congruence|intros _; lia]. }
    unfold plan_discard_current_block.
    destruct (block_buffer_head (planner m) =? block_buffer_tail (planner m)); reflexivity.
  - pose proof (ISR_latch_frame cfg (planner m) (stepper m)) as L. cbv zeta in L.
    set (p1 := fst (ISR_latch cfg (planner m) (stepper m))) in *.
    set (s1 := snd (ISR_latch cfg (planner m) (stepper m))) in *.
    clearbody p1 s1.
    destruct L as (L1 & L2 & L3 & L4 & L5 & L6 & L7 & L8 & L9 & L10 & L11).
    destruct (current_block s1) as [i|] eqn:Hcur.
    + destruct (ISR_execute_frame cfg inp p1 s1 i Hcur) as (F & O & C & PH & PB).
      cbv zeta in F, O, C.
      set (s2 := stepper (ISR_execute cfg inp p1 s1)) in *. clearbody s2.
      destruct F as (F1 & F2 & F3 & F4 & F5 & F6 & F7 & F8).
      split; [congruence|]. split; [congruence|].
      split.
      { intros Hd a. rewrite F2, F1. apply (L7 Hd). }
      split.
      { intros Hr. rewrite <- L4. apply F7. rewrite L4. exact Hr. }
      split.
      { intros Hce. rewrite <- L4, <- L5. apply F8. congruence. }
      split.
      { intros Hinv.
        assert (H1 : 100 <= OCR1A_nominal s1) by (apply (L8 Hinv); discriminate).
        split; [intros _; rewrite F5; exact H1|apply O, H1]. }
      rewrite PH. exact L10.
    + rewrite (ISR_execute_idle inp p1 s1 Hcur). cbn [stepper planner].
      split; [exact L1|]. split; [exact L3|]. split; [exact L7|].
      split; [intros _; rewrite L4; apply hits_grow_refl|].
      split; [intros _; split; [exact L4|exact L5]|].
      split.
      { intros Hinv. split; [intros H; congruence|]. intros _. rewrite (L9 eq_refl). lia. }
      exact L10.
Qed.


Lemma run_ISR_frame inps : forall m,
  let s := stepper m in
  let s' := stepper (run_ISR cfg inps m) in
  check_endstops s' = check_endstops s
  /\ (dir_consistent s -> dir_consistent s')
  /\ (0 <= endstop_hit_bits s < 256 -> hits_grow (endstop_hit_bits s) (endstop_hit_bits s'))
  /\ (check_endstops s = false ->
      endstop_hit_bits s' = endstop_hit_bits s
      /\ endstops_trigsteps s' = endstops_trigsteps s)
  /\ ((current_block s <> None -> 100 <= OCR1A_nominal s) ->
      (current_block s' <> None -> 100 <= OCR1A_nominal s'))
  /\ block_buffer_head (planner (run_ISR cfg inps m)) = block_buffer_head (planner m).
Proof.
  induction inps as [|inp rest IH]; intros m; cbv zeta; cbn [run_ISR].
  - split; [reflexivity|]. split; [auto|].
    split; [intros _; apply hits_grow_refl|].
    split; [intros _; split; reflexivity|].
    split; [|reflexivity].
    intros Hinv. exact Hinv.
  - destruct (ISR_frame inp m) as (A1 & _ & A3 & A4 & A5 & A6 & A7).
    destruct (IH (ISR cfg inp m)) as (B1 & B3 & B4 & B5 & B6 & B7).
    cbv zeta in *.
    split; [congruence|]. split; [auto|].
    split.
    { intros Hr. specialize (A4 Hr).
      eapply hits_grow_trans; [exact A4|]. apply B4. eapply hits_grow_range; eauto. }
    split.
    { intros Hc. destruct (A5 Hc) as (E1 & E2).
      destruct B5 as (E3 & E4); [congruence|]. split; congruence. }
    split; [|congruence].
    intros Hinv. destruct (A6 Hinv) as (I1 & O1). exact (B6 I1).
Qed.

End Runs.

(** X12.  The direction of counting always agrees with the direction bits:
    [st_init] makes [count_direction] of every axis -1 where the axis bit of
    [out_bits] is set and +1 where it is clear, and every run of the handler
    keeps it so, whatever block it latches. *)
Theorem handler_keeps_direction_consistent (cfg : config) (inps : list isr_input)
    (p : planner_state) (s : stepper_state) :
  dir_consistent (stepper (run_ISR cfg inps {| planner := p; stepper := st_init s |})).
Proof.
  destruct (run_ISR_frame cfg inps {| planner := p; stepper := st_init s |})
    as (_ & H & _).
  apply H. apply st_init_consistent.
Qed.

(** X13.  The handler never programs a period below 100 timer ticks:
    started with no block latched, after every run [OCR1A] is at least 100,
    be the handler idle, draining the ring after [quickStop], accelerating,
    cruising or decelerating, provided that in this last run the second read
    of [TCNT1] in the clamp [OCR1A < TCNT1 + 16 ? TCNT1 + 16 : OCR1A] is not
    behind the first. *)
Theorem handler_period_floor (cfg : config) (inps : list isr_input) (inp : isr_input)
    (m : machine) :
  current_block (stepper m) = None ->
  timer_not_behind inp ->
  100 <= OCR1A (stepper (run_ISR cfg (inps ++ [inp]) m)).
Proof.
  intros Hcur Ht. rewrite run_ISR_app. cbn [run_ISR].
  destruct (run_ISR_frame cfg inps m) as (_ & _ & _ & _ & H & _).
  cbv zeta in H.
  destruct (ISR_frame cfg inp (run_ISR cfg inps m)) as (_ & _ & _ & _ & _ & A & _).
  cbv zeta in A. destruct A as (_ & A).
  - apply H. intros Hn. congruence.
  - exact (A Ht).
Qed.

(** The clamp reads the volatile [TCNT1] twice: when the counter has gone
    back between the reads the period stored can be as low as 16 ticks. *)
Lemma period_floor_needs_ordered_reads :
  let inp := {| endstop_read := fun _ => false; TCNT1 := 65000; TCNT1_reread := 0 |} in
  current_block (stepper Scenarios.machine_first_move) = None
  /\ OCR1A (stepper (ISR Examples.cfg_example inp Scenarios.machine_first_move)) = 16.
Proof. vm_compute. split; reflexivity. Qed.

(** X14.  Recorded endstop hits are sticky and confined to three bits: no
    run of the handler clears a bit of [endstop_hit_bits], and the only bits
    it can set are bit 0 (X), bit 1 (Y) and bit 2 (Z) -- a hit of a MAX
    endstop is recorded in the bit of the MIN endstop of its axis. *)
Theorem handler_hit_bits_only_grow (cfg : config) (inps : list isr_input) (m : machine) :
  0 <= endstop_hit_bits (stepper m) < 256 ->
  let h := endstop_hit_bits (stepper m) in
  let h' := endstop_hit_bits (stepper (run_ISR cfg inps m)) in
  0 <= h' < 256
  /\ (forall k, TEST h k = true -> TEST h' k = true)
  /\ (forall k, 3 <= k -> TEST h' k = TEST h k).
Proof.
  intros Hr h h'.
  destruct (run_ISR_frame cfg inps m) as (_ & _ & H & _).
  cbv zeta in H. specialize (H Hr). fold h h' in H.
  split; [eapply hits_grow_range; eauto|].
  destruct H as (d & Hd & E). rewrite E. unfold TEST.
  split.
  - intros k Hk. rewrite Z.lor_spec, Hk. reflexivity.
  - intros k Hk. rewrite Z.lor_spec.
    assert (Hdk : Z.testbit d k = false).
    { rewrite <- (Z.mod_small d (2 ^ 3)) by (cbn; lia).
      apply Z.mod_pow2_bits_high. lia. }
    rewrite Hdk, orb_false_r. reflexivity.
Qed.

(** X15.  With endstop checking switched off by [enable_endstops(false)] the
    handler records nothing: after any number of runs, on any inputs,
    [endstop_hit_bits] and [endstops_trigsteps] are what they were and
    checking is still off. *)
Theorem disabled_endstops_record_nothing (cfg : config) (inps : list isr_input)
    (p : planner_state) (s : stepper_state) :
  let m' := run_ISR cfg inps {| planner := p; stepper := enable_endstops false s |} in
  endstop_hit_bits (stepper m') = endstop_hit_bits s
  /\ endstops_trigsteps (stepper m') = endstops_trigsteps s
  /\ check_endstops (stepper m') = false.
Proof.
  destruct (run_ISR_frame cfg inps {| planner := p; stepper := enable_endstops false s |})
    as (C & _ & _ & H & _).
  cbv zeta in *. cbn [stepper] in *.
  destruct (H eq_refl) as (E1 & E2).
  split; [exact E1|]. split; [exact E2|exact C].
Qed.

End InterruptFacts.

(** ** Bresenham closure *)

Module ClosureFacts.
Import Int IntFacts Stepper Planner StepperControl PlannerControl.
Import StepperFacts HandlerFacts.

Section Closure.
Context (cfg : config) (b : block_t) (cp0 d : axis_array Z).
Let N := step_event_count b.
Hypothesis HN : 1 <= N < 2 ^ 31.
Hypothesis Hsteps : forall a, 0 <= steps b a <= N.
Hypothesis Hd : forall a, d a = 1 \/ d a = -1.
Hypothesis Hcp : forall a, - 2 ^ 31 <= cp0 a < 2 ^ 31.

(** What the endstop poll leaves as it was when it does not overwrite
    [step_events_completed]: it may still record a hit and a trigger
    position, and it stores the sample. *)
Lemma endstop_poll_kept inp s :
  (check_endstops s = true ->
   step_events_completed (update_endstops cfg inp b s) = step_events_completed s) ->
  let s1 := if check_endstops s then update_endstops cfg inp b s else s in
  current_block s1 = current_block s
  /\ step_events_completed s1 = step_events_completed s
  /\ counter s1 = counter s
  /\ count_position s1 = count_position s
  /\ count_direction s1 = count_direction s
  /\ step_loops s1 = step_loops s
  /\ step_loops_nominal s1 = step_loops_nominal s
  /\ cleaning_buffer_counter s1 = cleaning_buffer_counter s
  /\ check_endstops s1 = check_endstops s.
Proof.
  intros Hk. cbv zeta. destruct (check_endstops s) eqn:Hc; [|repeat split; exact Hc].
  specialize (Hk eq_refl).
  destruct (update_endstops_shape cfg inp b s) as (s1 & o & (t & h & c & -> & G) & E).
  rewrite E in *.
  unfold endstop_update in *.
  cbn [current_block step_events_completed counter count_position count_direction
       step_loops step_loops_nominal cleaning_buffer_counter check_endstops
       with_old_endstop_bits with_step_events_completed with_endstop_hit_bits
       with_endstops_trigsteps] in *.
  repeat split; auto.
Qed.

Context (i : Z) (P : planner_state).
Hypothesis HP : block_buffer P i = b.

(** For a latched block, [endstop_ends_block] is the test of the poll. *)
Lemma endstop_ends_block_latched inp s :
  current_block s = Some i ->
  endstop_ends_block cfg inp {| planner := P; stepper := s |} = false ->
  check_endstops s = true ->
  step_events_completed (update_endstops cfg inp b s) = step_events_completed s.
Proof.
  intros Hcur H Hc. unfold endstop_ends_block, ISR_latch in H.
  cbn [planner stepper] in H. rewrite Hcur in H. rewrite Hcur, HP, Hc in H.
  cbn [andb] in H. apply negb_false_iff, Z.eqb_eq in H. exact H.
Qed.

Lemma ISR_execute_traced inp s c :
  executing b cp0 d i c s ->
  endstop_ends_block cfg inp {| planner := P; stepper := s |} = false ->
  let m' := ISR_execute cfg inp P s in
  retired cfg b cp0 d P m'
  \/ (planner m' = P /\ exists c', c < c' /\ executing b cp0 d i c' (stepper m')).
Proof.
  intros (Hcur & Hsec & Hc & Htr & Hdir & Hl & Hln & Hcl) Hne.
  pose proof (endstop_poll_kept inp s (endstop_ends_block_latched inp s Hcur Hne)) as K.
  cbv zeta in K.
  unfold ISR_execute. rewrite Hcur, HP.
  set (s1 := if check_endstops s then update_endstops cfg inp b s else s) in *.
  clearbody s1.
  destruct K as (K1 & K2 & K3 & K4 & K5 & K6 & K7 & K8 & K9).
  assert (Htr1 : forall a, traced b cp0 d c s1 a).
  { intros a. eapply traced_ext; [exact K3|exact K4|apply Htr]. }
  assert (Hdir1 : forall a, count_direction s1 a = d a) by (intros a; rewrite K5; apply Hdir).
  assert (Hsec1 : step_events_completed s1 = c) by congruence.
  destruct (step_loop_traced b cp0 d HN Hsteps Hd Hcp (Z.to_nat (step_loops s1)) s1 c
              Htr1 Hsec1 Hc Hdir1) as (c' & Hc' & Hn & Hsec2 & Htr2 & Hf2).
  set (s2 := step_loop (Z.to_nat (step_loops s1)) b s1) in *. clearbody s2.
  destruct Hf2 as (F1 & F2 & F3 & F4 & F5 & F6 & F7 & F8 & F9 & F10 & F11).
  assert (Hgt : c < c').
  { destruct Hn as [-> | ->]; [fold N in Hc; lia|].
    rewrite K6. destruct Hl as [->|[-> | ->]]; simpl; lia. }
  assert (Hln2 : good_loops (step_loops_nominal s2)) by (rewrite F7, K7; exact Hln).
  destruct (next_timer_frame cfg b s2 Hln2) as (Hcore & Hl3 & _).
  set (s3 := next_timer cfg b s2) in *. clearbody s3.
  destruct Hcore as (G1 & G2 & G3 & G4 & G5 & G6 & G7 & G8 & G9 & G10 & G11 & G12).
  cbn [step_events_completed with_OCR1A]. rewrite G3, Hsec2.
  destruct (Z.leb_spec (step_event_count b) c') as [Hfin|Hmore].
  - left. assert (EN : c' = step_event_count b) by lia. rewrite EN in Htr2.
    split; [reflexivity|]. split; [reflexivity|].
    intros a. cbn [stepper count_position with_current_block with_OCR1A].
    rewrite G4. apply (traced_final b cp0 d HN Hsteps). apply Htr2.
  - right. cbn [planner stepper]. split; [reflexivity|].
    exists c'. split; [exact Hgt|].
    unfold executing.
    cbn [current_block step_events_completed count_direction step_loops
         step_loops_nominal cleaning_buffer_counter with_OCR1A].
    rewrite G1, F1, G3, Hsec2, G5, F2, G9, G8, F5, K1, K8.
    split; [exact Hcur|]. split; [reflexivity|]. split; [lia|].
    split.
    { intros a. eapply traced_ext; [exact G2|exact G4|apply Htr2]. }
    split; [exact Hdir1|]. split; [exact Hl3|]. split; [rewrite F7, K7; exact Hln|exact Hcl].
Qed.

(** The runs made while the block is latched do not end it early. *)
Definition undisturbed (inps : list isr_input) (m : machine) : Prop :=
  forall j inp, nth_error inps j = Some inp ->
    (forall j', (1 <= j' <= j)%nat ->
       current_block (stepper (run_ISR cfg (firstn j' inps) m)) = Some i) ->
    endstop_ends_block cfg inp (run_ISR cfg (firstn j inps) m) = false.

Lemma undisturbed_tail inp rest m :
  undisturbed (inp :: rest) m ->
  current_block (stepper (ISR cfg inp m)) = Some i ->
  undisturbed rest (ISR cfg inp m).
Proof.
  intros H Hcur j inp' Hn Hbefore.
  apply (H (S j) inp' Hn).
  intros [|j'] Hj'; [lia|]. cbn [firstn run_ISR].
  destruct j' as [|j'']; [exact Hcur|]. apply Hbefore. lia.
Qed.

Lemma run_to_retire (n : nat) : forall c s inps,
  executing b cp0 d i c s ->
  N - c <= Z.of_nat n ->
  (n <= length inps)%nat ->
  undisturbed inps {| planner := P; stepper := s |} ->
  exists k, (1 <= k <= n)%nat
    /\ retired cfg b cp0 d P (run_ISR cfg (firstn k inps) {| planner := P; stepper := s |})
    /\ forall j, (j < k)%nat ->
         current_block
           (stepper (run_ISR cfg (firstn j inps) {| planner := P; stepper := s |}))
         = Some i.
Proof.
  induction n as [|n IH]; intros c s inps Hex Hrem Hlen Hun.
  - destruct Hex as (_ & _ & Hc & _). fold N in Hc. lia.
  - destruct inps as [|inp rest]; [cbn in Hlen; lia|].
    assert (Hne : endstop_ends_block cfg inp {| planner := P; stepper := s |} = false).
    { apply (Hun 0%nat inp eq_refl). intros j' Hj'. lia. }
    pose proof (ISR_execute_traced inp s c Hex Hne) as Hstep.
    rewrite <- (ISR_of_executing cfg b cp0 d i P inp s c Hex) in Hstep. cbn zeta in Hstep.
    assert (H0 : current_block
                   (stepper (run_ISR cfg (firstn 0 (inp :: rest))
                                     {| planner := P; stepper := s |})) = Some i).
    { cbn. destruct Hex as (Hcur & _). exact Hcur. }
    destruct Hstep as [Hret|(Hpl & c' & Hgt & Hex')].
    + exists 1%nat. split; [lia|]. split; [exact Hret|].
      intros j Hj. assert (j = 0)%nat by lia. subst j. exact H0.
    + set (m' := ISR cfg inp {| planner := P; stepper := s |}) in *.
      assert (Em : m' = {| planner := P; stepper := stepper m' |})
        by (destruct m'; cbn in Hpl |- *; rewrite Hpl; reflexivity).
      assert (Hun' : undisturbed rest m').
      { apply undisturbed_tail; [exact Hun|]. destruct Hex' as (Hcur' & _). exact Hcur'. }
      rewrite Em in Hun'.
      destruct (IH c' (stepper m') rest Hex') as (k & Hk & Hret & Hbefore).
      * lia.
      * cbn in Hlen. lia.
      * exact Hun'.
      * exists (S k). split; [lia|].
        cbn [firstn run_ISR]. fold m'. rewrite Em.
        split; [exact Hret|].
        intros [|j] Hj; [exact H0|].
        cbn [firstn run_ISR]. fold m'. rewrite Em. apply Hbefore. lia.
Qed.

End Closure.

(** An idle handler that finds a block at the tail of the ring runs it to
    its end when no endstop poll ends it early. *)
Lemma handler_runs_block (cfg : config) (m : machine) (inps : list isr_input) :
  let s := stepper m in
  let p := planner m in
  let i := block_buffer_tail p in
  let b := block_buffer p i in
  let N := step_event_count b in
  cleaning_buffer_counter s = 0 ->
  current_block s = None ->
  block_buffer_head p <> block_buffer_tail p ->
  1 <= N < 2 ^ 31 ->
  (forall a, 0 <= steps b a <= N) ->
  dir_consistent s ->
  (forall a, - 2 ^ 31 <= count_position s a < 2 ^ 31) ->
  undisturbed cfg i inps m ->
  (Z.to_nat N <= length inps)%nat ->
  exists k, (1 <= k <= Z.to_nat N)%nat
    /\ current_block (stepper (run_ISR cfg (firstn k inps) m)) = None
    /\ block_buffer_tail (planner (run_ISR cfg (firstn k inps) m)) = BLOCK_MOD cfg (i + 1)
    /\ block_buffer_head (planner (run_ISR cfg (firstn k inps) m)) = block_buffer_head p
    /\ (forall a, count_position (stepper (run_ISR cfg (firstn k inps) m)) a
                  = int32 (count_position s a + signed_steps b a))
    /\ (forall j, (1 <= j < k)%nat ->
          current_block (stepper (run_ISR cfg (firstn j inps) m)) = Some i).
Proof.
  intros s p i b N Hcl Hcur Hne HN Hsteps Hdc Hcp Hun Hlen.
  (* the state the first run of the handler works on after latching *)
  set (b1 := with_busy b true).
  set (P := with_block_buffer p (upd_block (block_buffer p) i b1)).
  set (d := fun a => if TEST (direction_bits b) (axis_index a) then -1 else 1).
  set (s0 := with_step_events_completed
               (with_counter
                  (trapezoid_generator_reset cfg b1 (with_current_block s (Some i)))
                  (fun _ => int32 (uint32 (- Z.shiftr (step_event_count b1) 1))))
               0).
  assert (HP : block_buffer P i = b1).
  { unfold P. cbn. unfold upd_block. rewrite Z.eqb_refl. reflexivity. }
  assert (Hlatch : ISR_latch cfg p s = (P, s0)).
  { unfold ISR_latch, plan_get_current_block. rewrite Hcur.
    destruct (Z.eqb_spec (block_buffer_head p) (block_buffer_tail p)); [contradiction|].
    fold i. fold b. fold b1. fold P. rewrite HP. reflexivity. }
  destruct (trapezoid_generator_reset_spec cfg b1 (with_current_block s (Some i)))
    as (D & L1 & L2 & C1 & C2 & C3 & C4); [exact Hdc|].
  assert (Hex : executing b1 (count_position s) d i 0 s0).
  { unfold executing, s0.
    cbn [current_block step_events_completed count_direction step_loops
         step_loops_nominal cleaning_buffer_counter
         with_step_events_completed with_counter].
    rewrite C1, C3.
    cbn [current_block cleaning_buffer_counter with_current_block].
    split; [reflexivity|]. split; [reflexivity|].
    split; [change (step_event_count b1) with N; lia|].
    split; [|repeat split; auto].
    intros a. apply traced_start; auto.
    cbn [count_position with_step_events_completed with_counter].
    rewrite C2. reflexivity. }
  assert (Hd : forall a, d a = 1 \/ d a = -1)
    by (intros a; unfold d; destruct (TEST _ _); auto).
  assert (Hlatched : ISR_latch cfg P s0 = (P, s0)).
  { unfold ISR_latch. destruct Hex as (Hc0 & _). rewrite Hc0. reflexivity. }
  (* a run from the idle state is a run from the latched state *)
  assert (Hrun : forall j, (1 <= j)%nat ->
            run_ISR cfg (firstn j inps) m
            = run_ISR cfg (firstn j inps) {| planner := P; stepper := s0 |}).
  { intros j Hj. destruct j as [|j]; [lia|].
    destruct inps as [|inp rest]; [cbn in Hlen; lia|].
    cbn [firstn run_ISR]. f_equal.
    unfold ISR at 1 2. cbn [planner stepper]. fold s p.
    rewrite Hcl, Hlatch.
    destruct Hex as (_ & _ & _ & _ & _ & _ & _ & Hcl0).
    rewrite Hcl0. cbn [Z.eqb negb]. rewrite Hlatched. reflexivity. }
  assert (Hun0 : undisturbed cfg i inps {| planner := P; stepper := s0 |}).
  { intros j inp Hn Hbefore.
    destruct j as [|j].
    - cbn [firstn run_ISR].
      specialize (Hun 0%nat inp Hn). cbn [firstn run_ISR] in Hun.
      unfold endstop_ends_block in *. cbn [planner stepper]. fold s p in Hun.
      rewrite Hlatch in Hun. rewrite Hlatched. apply Hun. intros j' Hj'. lia.
    - rewrite <- (Hrun (S j)) by lia. apply (Hun (S j) inp Hn).
      intros j' Hj'. rewrite (Hrun j') by lia. apply Hbefore. exact Hj'. }
  destruct (run_to_retire cfg b1 (count_position s) d HN Hsteps Hd Hcp i P HP
              (Z.to_nat N) 0 s0 inps Hex) as (k & Hk & Hret & Hbefore).
  - change (step_event_count b1) with N. lia.
  - exact Hlen.
  - exact Hun0.
  - exists k. split; [exact Hk|].
    rewrite (Hrun k) by lia.
    destruct Hret as (R1 & R2 & R3).
    split; [exact R1|]. split; [|split; [|split]].
    + rewrite R2. unfold plan_discard_current_block, P. cbn.
      destruct (Z.eqb_spec (block_buffer_head p) (block_buffer_tail p)); [contradiction|].
      reflexivity.
    + rewrite R2. unfold plan_discard_current_block, P. cbn.
      destruct (Z.eqb_spec (block_buffer_head p) (block_buffer_tail p)); reflexivity.
    + intros a. rewrite R3. unfold signed_steps, d. cbn.
      destruct (TEST (direction_bits b) (axis_index a)); f_equal; lia.
    + intros j Hj. rewrite (Hrun j) by lia. apply Hbefore. lia.
Qed.

(** Two cases in which no poll ends a block: endstop checking is off, or no
    line reads active. *)
Lemma quiet_poll_ends_no_block (cfg : config) (inp : isr_input) (m : machine) :
  quiet inp -> endstop_ends_block cfg inp m = false.
Proof.
  intros Hq. unfold endstop_ends_block.
  destruct (ISR_latch cfg (planner m) (stepper m)) as [p s].
  destruct (current_block s) as [i|]; [|reflexivity].
  destruct (check_endstops s); [|reflexivity]. cbn [andb].
  destruct (update_endstops_silent cfg inp (block_buffer p i) s Hq) as (bits & ->).
  cbn [step_events_completed with_old_endstop_bits]. rewrite Z.eqb_refl. reflexivity.
Qed.

Lemma unchecked_poll_ends_no_block (cfg : config) (inp : isr_input) (m : machine) :
  check_endstops (stepper m) = false -> endstop_ends_block cfg inp m = false.
Proof.
  intros Hc. unfold endstop_ends_block.
  pose proof (ISR_latch_frame cfg (planner m) (stepper m)) as L. cbv zeta in L.
  destruct L as (L1 & _).
  destruct (ISR_latch cfg (planner m) (stepper m)) as [p s]. cbn [snd] in L1.
  destruct (current_block s) as [i|]; [|reflexivity].
  rewrite L1, Hc. reflexivity.
Qed.



End ClosureFacts.

(** ** From the planner to the motors *)

Module MotionFacts.
Import Int IntFacts Stepper Planner StepperControl PlannerControl.
Import RingFacts RecalculateFacts AppendFacts StepperFacts ClosureFacts.

(** X11.  A move appended to an empty queue of an idle stepper is executed
    exactly.  Take a ring with a power-of-two capacity of at most 128 slots
    that is empty, [DROP_SEGMENTS >= 0], and a stepper with no block
    latched, no cleaning in progress, [count_direction] consistent with
    [out_bits], [count_position] holding values of a [long] and equal to the
    planner's [position] on X, Y and Z.  If [plan_buffer_line] appends a
    block with no negative step count, and in the runs made while the block
    is latched no endstop poll overwrites [step_events_completed], then the
    handler retires the block after at most [step_event_count] runs, the
    queue is empty again, and the step counters of X, Y and Z are equal to
    the planner's new [position]. *)
Theorem appended_move_is_executed (cfg : config) (g : settings) (m : machine)
    (x y z e feed_rate : float) (extruder driver : Z) (p' : planner_state)
    (inps : list isr_input) :
  let s := stepper m in
  let p := planner m in
  let b := block_buffer p' (block_buffer_head p) in
  plan_buffer_line cfg g p x y z e feed_rate extruder driver = Appended p' ->
  ring_ok cfg p ->
  BLOCK_BUFFER_SIZE cfg <= 128 ->
  block_buffer_head p = block_buffer_tail p ->
  0 <= DROP_SEGMENTS cfg ->
  cleaning_buffer_counter s = 0 ->
  current_block s = None ->
  dir_consistent s ->
  (forall a, 0 <= steps b a) ->
  (forall a, - 2 ^ 31 <= count_position s a < 2 ^ 31) ->
  (forall a, a <> E_AXIS -> count_position s a = position p a) ->
  undisturbed cfg (block_buffer_head p) inps {| planner := p'; stepper := s |} ->
  (Z.to_nat (step_event_count b) <= length inps)%nat ->
  exists k, (1 <= k <= Z.to_nat (step_event_count b))%nat
    /\ current_block
         (stepper (run_ISR cfg (firstn k inps) {| planner := p'; stepper := s |})) = None
    /\ blocks_queued
         (planner (run_ISR cfg (firstn k inps) {| planner := p'; stepper := s |})) = false
    /\ (forall a, a <> E_AXIS ->
          count_position
            (stepper (run_ISR cfg (firstn k inps) {| planner := p'; stepper := s |})) a
          = position p' a).
Proof.
  intros s p b Happ Hok Hsmall Hempty Hdrop Hcl Hcur Hdc Hnn Hcp Hsync Hun Hlen.
  destruct (appended_block_geometry cfg g p p' x y z e feed_rate extruder driver
              Happ) as (Hgt & Hbusy & _ & Hbound).
  destruct (appended_block_signed_steps cfg g p p' x y z e feed_rate extruder driver
              Happ) as (Hsig & Hrange).
  fold b in Hgt, Hbusy, Hbound, Hsig.
  destruct (Hbound Hnn) as (HN & Hle).
  destruct (appended_queue cfg g p p' x y z e feed_rate extruder driver
              Happ Hok Hsmall) as (Hok' & Ht & Hh & Hm & _ & Hq).
  pose proof Hok as (Hpow & Hhr & Htr).
  assert (Htail : block_buffer_tail p' = block_buffer_head p) by congruence.
  assert (Hne : block_buffer_head p' <> block_buffer_tail p').
  { unfold blocks_queued in Hq.
    destruct (Z.eqb_spec (block_buffer_head p') (block_buffer_tail p')); [discriminate|auto]. }
  pose proof (handler_runs_block cfg {| planner := p'; stepper := s |} inps) as Hrun.
  cbv zeta in Hrun. cbn [planner stepper] in Hrun. rewrite Htail in Hrun. fold b in Hrun.
  assert (HN1 : 1 <= step_event_count b < 2 ^ 31) by lia.
  assert (Hst : forall a, 0 <= steps b a <= step_event_count b)
    by (intros a; split; [apply Hnn|apply Hle]).
  assert (Hne' : block_buffer_head p' <> block_buffer_head p) by congruence.
  destruct (Hrun Hcl Hcur Hne' HN1 Hst Hdc Hcp Hun Hlen) as (k & Hk & R1 & R2 & R3 & R4 & _).
  exists k. split; [exact Hk|]. split; [exact R1|]. split.
  - unfold blocks_queued. rewrite R2, R3, Hh.
    rewrite (next_block_index_small cfg (block_buffer_head p) Hpow Hsmall) by lia.
    rewrite Z.eqb_refl. reflexivity.
  - intros a Ha. rewrite R4, (Hsig a Ha (Hnn a)), (Hsync a Ha).
    rewrite Z.add_comm, int32_add_idemp.
    replace (position p' a - position p a + position p a) with (position p' a) by ring.
    apply int32_small, Hrange.
Qed.

End MotionFacts.

(** ** The planner and the handler on one ring *)

Module HandshakeFacts.
Import Int IntFacts Stepper Planner StepperControl PlannerControl.
Import RingFacts RecalculateFacts StepperFacts HandlerFacts InterruptFacts.

(** X16.  The ring is full one slot short of its capacity: with head and
    tail in a power-of-two ring of at most 128 slots (the indices an
    [int8_t] holds), [plan_buffer_line] waits for room (calls [idle] in its
    loop) exactly when [BLOCK_BUFFER_SIZE - 1] blocks are queued, and starts
    to prepare the block in every other state. *)
Theorem plan_buffer_line_waits_iff_full (cfg : config) (g : settings) (p : planner_state)
    (x y z e feed_rate : float) (extruder driver : Z) :
  ring_ok cfg p ->
  BLOCK_BUFFER_SIZE cfg <= 128 ->
  (plan_buffer_line cfg g p x y z e feed_rate extruder driver = Waiting
   <-> movesplanned cfg p = BLOCK_BUFFER_SIZE cfg - 1).
Proof.
  intros Hok Hsmall. pose proof Hok as (Hpow & Hh & Ht).
  pose proof (size_pos cfg Hpow) as Hs.
  assert (Hfull : block_buffer_tail p = next_block_index cfg (block_buffer_head p)
                  <-> movesplanned cfg p = BLOCK_BUFFER_SIZE cfg - 1).
  { rewrite (next_block_index_small cfg (block_buffer_head p) Hpow Hsmall) by lia.
    unfold movesplanned. rewrite !(BLOCK_MOD_mod cfg) by exact Hpow.
    set (n := BLOCK_BUFFER_SIZE cfg) in *.
    set (h := block_buffer_head p) in *. set (t := block_buffer_tail p) in *.
    clearbody n h t.
    split.
    - intros E.
      assert (E' : (h - t + n) mod n = (n - 1) mod n).
      { apply (mod_eq_iff _ _ n Hs). exists ((h + 1) / n).
        rewrite E. rewrite (Z.mod_eq (h + 1) n) by lia. ring. }
      rewrite E'. apply Z.mod_small. lia.
    - intros E.
      assert (E' : t mod n = (h + 1) mod n).
      { apply (mod_eq_iff _ _ n Hs). exists (- ((h - t + n) / n)).
        pose proof (Z.mod_eq (h - t + n) n ltac:(lia)) as Hq. rewrite E in Hq. lia. }
      rewrite <- E'. symmetry. apply Z.mod_small. lia. }
  rewrite <- Hfull. unfold plan_buffer_line.
  destruct (Z.eqb_spec (block_buffer_tail p) (next_block_index cfg (block_buffer_head p)))
    as [E|E].
  - split; auto.
  - split; [|contradiction].
    destruct (prepare_block cfg g p x y z e extruder) as [pr|]; [|discriminate].
    destruct (_ <=? _); [discriminate|].
    destruct (complete_block _ _ _ _ _ _ _); discriminate.
Qed.

(** The bound on the capacity is needed: in a ring of 256 slots with the
    head at 127 the [int8_t] index of the next slot is -128, which no tail
    equals, and a full ring is not waited for. *)
Lemma full_ring_of_256_is_not_waited_for (cfg : config) (g : settings) (p : planner_state)
    (x y z e feed_rate : float) (extruder driver : Z) :
  BLOCK_BUFFER_SIZE cfg = 256 ->
  block_buffer_head p = 127 -> block_buffer_tail p = 128 ->
  movesplanned cfg p = BLOCK_BUFFER_SIZE cfg - 1
  /\ plan_buffer_line cfg g p x y z e feed_rate extruder driver <> Waiting.
Proof.
  intros E Hh Ht. split.
  - unfold movesplanned, BLOCK_MOD. rewrite Hh, Ht, E. reflexivity.
  - unfold plan_buffer_line. rewrite Hh, Ht.
    destruct (block_index_leaves_ring_of_256 cfg E) as (-> & _).
    cbn [Z.eqb].
    destruct (prepare_block cfg g p x y z e extruder) as [pr|]; [|discriminate].
    destruct (_ <=? _); [discriminate|].
    destruct (complete_block _ _ _ _ _ _ _); discriminate.
Qed.


Section Glitch.
Context (cfg : config).

Lemma TEST_0 k : TEST 0 k = false.
Proof. unfold TEST. apply Z.bits_0. Qed.

(** With no line seen active at the previous sample, the poll only stores
    the new sample. *)
Lemma update_endstops_first_sample inp b s :
  old_endstop_bits s = 0 ->
  exists bits, update_endstops cfg inp b s = with_old_endstop_bits s bits.
Proof.
  intros Hold.
  assert (U : forall a e cur, snd (UPDATE_ENDSTOP cfg inp b a e (cur, s)) = s).
  { intros a e cur. unfold UPDATE_ENDSTOP, TEST_ENDSTOP.
    rewrite Hold, TEST_0, andb_false_r. reflexivity. }
  assert (D : forall e e2 cur, snd (update_z_dual cfg inp b e e2 (cur, s)) = s).
  { intros e e2 cur. unfold update_z_dual, TEST_ENDSTOP. cbv zeta.
    rewrite Hold, !TEST_0, !andb_false_r. reflexivity. }
  unfold update_endstops.
  set (csx := if TEST (out_bits s) (axis_index X_AXIS) then _ else _).
  assert (Sx : snd csx = s).
  { unfold csx. repeat match goal with |- context [if ?c then _ else _] => destruct c end;
      try reflexivity; apply U. }
  clearbody csx. destruct csx as [curx sx]. cbn [snd] in Sx. subst sx.
  set (csy := if TEST (out_bits s) (axis_index Y_AXIS) then _ else _).
  assert (Sy : snd csy = s).
  { unfold csy. repeat match goal with |- context [if ?c then _ else _] => destruct c end;
      try reflexivity; apply U. }
  clearbody csy. destruct csy as [cury sy]. cbn [snd] in Sy. subst sy.
  set (csz := if TEST (out_bits s) (axis_index Z_AXIS) then _ else _).
  assert (Sz : snd csz = s).
  { unfold csz. repeat match goal with |- context [if ?c then _ else _] => destruct c end;
      try reflexivity; try apply U; apply D. }
  clearbody csz. destruct csz as [curz sz]. cbn [snd fst] in *. subst sz.
  exists curz. reflexivity.
Qed.

End Glitch.

(** X18.  An endstop has to read active in two consecutive samples to
    trigger: in a run of the handler that starts with no line seen active at
    the previous sample ([old_endstop_bits = 0]), nothing is recorded in
    [endstop_hit_bits] or [endstops_trigsteps], whatever the lines read
    now. *)
Theorem single_sample_never_triggers (cfg : config) (inp : isr_input) (m : machine) :
  old_endstop_bits (stepper m) = 0 ->
  endstop_hit_bits (stepper (ISR cfg inp m)) = endstop_hit_bits (stepper m)
  /\ endstops_trigsteps (stepper (ISR cfg inp m)) = endstops_trigsteps (stepper m).
Proof.
  intros Hold.
  destruct (ISR_cases cfg inp m) as [(Hc & ->)|(Hc & ->)]; cbn [stepper planner].
  - split; reflexivity.
  - pose proof (ISR_latch_frame cfg (planner m) (stepper m)) as L. cbv zeta in L.
    assert (Hold1 : old_endstop_bits (snd (ISR_latch cfg (planner m) (stepper m))) = 0).
    { unfold ISR_latch. destruct (current_block (stepper m)); [exact Hold|].
      destruct (plan_get_current_block (planner m)); [|exact Hold].
      cbv zeta. cbn [snd old_endstop_bits with_step_events_completed with_counter].
      match goal with |- context [trapezoid_generator_reset cfg ?b ?s0] =>
        destruct (trapezoid_generator_reset_frame cfg b s0)
          as (_ & _ & _ & _ & _ & _ & R7 & _) end.
      rewrite R7. exact Hold. }
    set (p1 := fst (ISR_latch cfg (planner m) (stepper m))) in *.
    set (s1 := snd (ISR_latch cfg (planner m) (stepper m))) in *.
    clearbody p1 s1.
    destruct L as (_ & _ & _ & L4 & L5 & _).
    rewrite <- L4, <- L5.
    unfold ISR_execute. destruct (current_block s1) as [i|]; [|split; reflexivity].
    set (b := block_buffer p1 i).
    assert (E1 : exists bits,
               (if check_endstops s1 then update_endstops cfg inp b s1 else s1)
               = with_old_endstop_bits s1 bits).
    { destruct (check_endstops s1).
      - apply update_endstops_first_sample, Hold1.
      - exists (old_endstop_bits s1). destruct s1; reflexivity. }
    destruct E1 as (bits & ->).
    set (s1' := with_old_endstop_bits s1 bits).
    assert (H1 : endstop_hit_bits s1' = endstop_hit_bits s1
                 /\ endstops_trigsteps s1' = endstops_trigsteps s1) by (split; reflexivity).
    clearbody s1'.
    pose proof (step_loop_shape (Z.to_nat (step_loops s1')) b s1') as M2.
    set (s2 := step_loop (Z.to_nat (step_loops s1')) b s1') in *. clearbody s2.
    assert (H2 : endstop_hit_bits s2 = endstop_hit_bits s1'
                 /\ endstops_trigsteps s2 = endstops_trigsteps s1')
      by (destruct M2 as (c & cp & sec & ->); split; reflexivity).
    destruct (next_timer_shape cfg b s2) as (T3 & _).
    set (s3 := next_timer cfg b s2) in *. clearbody s3.
    assert (H3 : endstop_hit_bits s3 = endstop_hit_bits s2
                 /\ endstops_trigsteps s3 = endstops_trigsteps s2)
      by (destruct T3 as (r & l & o & a & d & ->); split; reflexivity).
    destruct H1 as (A1 & A2), H2 as (B1 & B2), H3 as (C1 & C2).
    destruct (_ <=? _); cbn [stepper endstop_hit_bits endstops_trigsteps
                             with_current_block with_OCR1A];
      split; congruence.
Qed.

End HandshakeFacts.

(** ** The idle handler and [quickStop] *)

Module StopFacts.
Import Int IntFacts Stepper Planner StepperControl PlannerControl.
Import StepperFacts HandlerFacts RingFacts InterruptFacts.

Section Stop.
Context (cfg : config).

Lemma ISR_idle inp m :
  cleaning_buffer_counter (stepper m) = 0 ->
  current_block (stepper m) = None ->
  blocks_queued (planner m) = false ->
  ISR cfg inp m = {| planner := planner m; stepper := with_OCR1A (stepper m) 2000 |}.
Proof.
  intros Hcl Hcur Hq.
  destruct (ISR_cases cfg inp m) as [(Hc & _)|(_ & ->)]; [contradiction|].
  unfold ISR_latch, plan_get_current_block. rewrite Hcur.
  unfold blocks_queued in Hq. apply negb_false_iff in Hq. rewrite Hq.
  cbn [fst snd]. apply ISR_execute_idle. exact Hcur.
Qed.

Lemma run_ISR_idle inps : forall m,
  cleaning_buffer_counter (stepper m) = 0 ->
  current_block (stepper m) = None ->
  blocks_queued (planner m) = false ->
  run_ISR cfg inps m
  = match inps with
    | [] => m
    | _ => {| planner := planner m; stepper := with_OCR1A (stepper m) 2000 |}
    end.
Proof.
  induction inps as [|inp rest IH]; intros m Hcl Hcur Hq; cbn [run_ISR]; [reflexivity|].
  rewrite (ISR_idle inp m Hcl Hcur Hq).
  rewrite IH by assumption. cbn [planner stepper].
  destruct rest; reflexivity.
Qed.

(** One run of the handler while [cleaning_buffer_counter] is not zero. *)
Lemma ISR_cleaning inp m :
  0 < cleaning_buffer_counter (stepper m) < 2 ^ 16 ->
  ISR cfg inp m
  = {| planner := plan_discard_current_block cfg (planner m);
       stepper := with_OCR1A
                    (with_cleaning_buffer_counter
                       (with_current_block (stepper m) None)
                       (cleaning_buffer_counter (stepper m) - 1)) 200 |}.
Proof.
  intros Hc.
  destruct (ISR_cases cfg inp m) as [(_ & ->)|(E & _)]; [|lia].
  rewrite uint16_small by lia. reflexivity.
Qed.

Lemma discard_keeps p :
  block_buffer_head (plan_discard_current_block cfg p) = block_buffer_head p
  /\ block_buffer (plan_discard_current_block cfg p) = block_buffer p
  /\ position (plan_discard_current_block cfg p) = position p.
Proof.
  unfold plan_discard_current_block.
  destruct (block_buffer_head p =? block_buffer_tail p); repeat split.
Qed.

Lemma discard_empty p :
  blocks_queued p = false -> plan_discard_current_block cfg p = p.
Proof.
  unfold blocks_queued, plan_discard_current_block. intros H.
  apply negb_false_iff in H. rewrite H. reflexivity.
Qed.

Lemma run_ISR_cleaning inps : forall m,
  Z.of_nat (length inps) <= cleaning_buffer_counter (stepper m) < 2 ^ 16 ->
  let m' := run_ISR cfg inps m in
  cleaning_buffer_counter (stepper m')
  = cleaning_buffer_counter (stepper m) - Z.of_nat (length inps)
  /\ count_position (stepper m') = count_position (stepper m)
  /\ endstop_hit_bits (stepper m') = endstop_hit_bits (stepper m)
  /\ block_buffer_head (planner m') = block_buffer_head (planner m)
  /\ block_buffer (planner m') = block_buffer (planner m)
  /\ position (planner m') = position (planner m)
  /\ (blocks_queued (planner m) = false -> planner m' = planner m)
  /\ (inps <> [] -> current_block (stepper m') = None /\ OCR1A (stepper m') = 200).
Proof.
  induction inps as [|inp rest IH]; intros m Hlen; cbv zeta; cbn [run_ISR length] in *.
  - split; [lia|]. do 6 (split; [auto|]). intros Hne. congruence.
  - rewrite (ISR_cleaning inp m) by lia.
    set (m1 := {| planner := plan_discard_current_block cfg (planner m);
                  stepper := with_OCR1A
                               (with_cleaning_buffer_counter
                                  (with_current_block (stepper m) None)
                                  (cleaning_buffer_counter (stepper m) - 1)) 200 |}).
    destruct (IH m1) as (A1 & A2 & A3 & A4 & A5 & A6 & A7 & A8).
    { unfold m1. cbn [stepper cleaning_buffer_counter with_OCR1A
                      with_cleaning_buffer_counter]. lia. }
    cbv zeta in *.
    destruct (discard_keeps (planner m)) as (D1 & D2 & D3).
    assert (E1 : cleaning_buffer_counter (stepper m1)
                 = cleaning_buffer_counter (stepper m) - 1) by reflexivity.
    assert (E2 : count_position (stepper m1) = count_position (stepper m)) by reflexivity.
    assert (E3 : endstop_hit_bits (stepper m1) = endstop_hit_bits (stepper m)) by reflexivity.
    assert (E4 : planner m1 = plan_discard_current_block cfg (planner m)) by reflexivity.
    rewrite E1 in A1. rewrite E2 in A2. rewrite E3 in A3. rewrite E4 in A4, A5, A6, A7.
    split; [rewrite A1; lia|]. split; [exact A2|]. split; [exact A3|].
    split; [congruence|]. split; [congruence|]. split; [congruence|].
    split.
    { intros Hq. rewrite (discard_empty _ Hq) in A7. apply A7, Hq. }
    intros _. destruct rest as [|inp2 rest2].
    + cbn [run_ISR]. unfold m1. split; reflexivity.
    + apply A8. discriminate.
Qed.

(** The loop of [quickStop] ends with the ring empty. *)
Lemma movesplanned_discard p :
  ring_ok cfg p -> blocks_queued p = true ->
  ring_ok cfg (plan_discard_current_block cfg p)
  /\ movesplanned cfg (plan_discard_current_block cfg p) = movesplanned cfg p - 1.
Proof.
  intros Hok Hq. pose proof Hok as (Hpow & Hh & Ht).
  pose proof (size_pos cfg Hpow) as Hs.
  unfold blocks_queued in Hq. apply negb_true_iff in Hq.
  unfold plan_discard_current_block. rewrite Hq.
  apply Z.eqb_neq in Hq.
  assert (Hm : movesplanned cfg p <> 0)
    by (intros E; apply (movesplanned_zero_iff cfg p Hok) in E; contradiction).
  pose proof (movesplanned_range cfg p Hpow) as Hr.
  split.
  - split; [exact Hpow|]. cbn [block_buffer_head block_buffer_tail with_block_buffer_tail].
    split; [exact Hh|apply BLOCK_MOD_range, Hpow].
  - unfold movesplanned in *.
    cbn [block_buffer_head block_buffer_tail with_block_buffer_tail].
    rewrite !(BLOCK_MOD_mod cfg) in * by exact Hpow.
    set (n := BLOCK_BUFFER_SIZE cfg) in *.
    set (h := block_buffer_head p) in *. set (t := block_buffer_tail p) in *.
    clearbody n h t.
    assert (Ha : (h - (t + 1) mod n + n) mod n = ((h - t + n) mod n - 1) mod n).
    { apply (mod_eq_iff _ _ n Hs).
      exists ((t + 1) / n + (h - t + n) / n).
      rewrite (Z.mod_eq (t + 1) n), (Z.mod_eq (h - t + n) n) by lia. ring. }
    rewrite Ha. apply Z.mod_small. lia.
Qed.

Lemma discard_queued_ends fuel : forall p,
  ring_ok cfg p ->
  movesplanned cfg p < Z.of_nat fuel ->
  exists p', discard_queued cfg fuel p = Some p'
    /\ blocks_queued p' = false
    /\ block_buffer_head p' = block_buffer_head p
    /\ block_buffer_tail p' = block_buffer_head p
    /\ block_buffer p' = block_buffer p
    /\ position p' = position p.
Proof.
  induction fuel as [|fuel IH]; intros p Hok Hm.
  - pose proof Hok as (Hpow & _). pose proof (movesplanned_range cfg p Hpow). cbn in Hm. lia.
  - cbn [discard_queued]. destruct (blocks_queued p) eqn:Hq.
    + destruct (movesplanned_discard p Hok Hq) as (Hok' & Hm').
      destruct (IH (plan_discard_current_block cfg p) Hok') as (p' & E & Q & H1 & H2 & H3 & H4);
        [lia|].
      destruct (discard_keeps p) as (D1 & D2 & D3).
      exists p'. split; [exact E|]. split; [exact Q|].
      repeat split; congruence.
    + exists p. split; [reflexivity|]. split; [exact Hq|].
      unfold blocks_queued in Hq. apply negb_false_iff, Z.eqb_eq in Hq.
      repeat split; auto.
Qed.

End Stop.

(** X19.  An idle handler only re-arms its timer: with no block latched, an
    empty ring and no cleaning in progress, any number of runs changes
    nothing in the planner and nothing in the stepper but [OCR1A], which is
    set to 2000 (1 kHz). *)
Theorem idle_handler_only_rearms (cfg : config) (inps : list isr_input) (m : machine) :
  cleaning_buffer_counter (stepper m) = 0 ->
  current_block (stepper m) = None ->
  blocks_queued (planner m) = false ->
  run_ISR cfg inps m
  = match inps with
    | [] => m
    | _ => {| planner := planner m; stepper := with_OCR1A (stepper m) 2000 |}
    end.
Proof. apply run_ISR_idle. Qed.

(** X20.  While [cleaning_buffer_counter] counts down the handler steps no
    motor: each of the next runs (as many as the counter holds) drops the
    latched block, discards at most one queued block, decrements the counter
    by one and sets [OCR1A] to 200; step positions, recorded endstop hits,
    the head of the ring, the stored blocks and the planner's [position] are
    untouched. *)
Theorem cleaning_handler_takes_no_step (cfg : config) (inps : list isr_input) (m : machine) :
  Z.of_nat (length inps) <= cleaning_buffer_counter (stepper m) < 2 ^ 16 ->
  let m' := run_ISR cfg inps m in
  cleaning_buffer_counter (stepper m')
  = cleaning_buffer_counter (stepper m) - Z.of_nat (length inps)
  /\ count_position (stepper m') = count_position (stepper m)
  /\ endstop_hit_bits (stepper m') = endstop_hit_bits (stepper m)
  /\ block_buffer_head (planner m') = block_buffer_head (planner m)
  /\ block_buffer (planner m') = block_buffer (planner m)
  /\ position (planner m') = position (planner m)
  /\ (inps <> [] -> current_block (stepper m') = None /\ OCR1A (stepper m') = 200).
Proof.
  intros H. destruct (run_ISR_cleaning cfg inps m H) as (A1 & A2 & A3 & A4 & A5 & A6 & _ & A8).
  repeat split; auto; apply A8; assumption.
Qed.

(** X21.  [quickStop] ends and leaves nothing to execute: in a ring with a
    power-of-two capacity its loop needs at most [BLOCK_BUFFER_SIZE] passes,
    after which the ring is empty, no block is latched and the cleaning
    counter is 5000; the head, the stored blocks, the planner's [position]
    and the step positions are untouched.  The next 5000 runs of the handler
    then take no step and leave the ring empty. *)
Theorem quickStop_empties_queue (cfg : config) (m : machine) :
  ring_ok cfg (planner m) ->
  exists m', quickStop cfg (Z.to_nat (BLOCK_BUFFER_SIZE cfg)) m = Some m'
    /\ blocks_queued (planner m') = false
    /\ block_buffer_head (planner m') = block_buffer_head (planner m)
    /\ block_buffer (planner m') = block_buffer (planner m)
    /\ position (planner m') = position (planner m)
    /\ current_block (stepper m') = None
    /\ cleaning_buffer_counter (stepper m') = 5000
    /\ count_position (stepper m') = count_position (stepper m)
    /\ forall inps, (length inps <= 5000)%nat ->
         count_position (stepper (run_ISR cfg inps m')) = count_position (stepper m)
         /\ planner (run_ISR cfg inps m') = planner m'
         /\ cleaning_buffer_counter (stepper (run_ISR cfg inps m'))
            = 5000 - Z.of_nat (length inps).
Proof.
  intros Hok. pose proof Hok as (Hpow & _).
  pose proof (movesplanned_range cfg (planner m) Hpow) as Hr.
  destruct (discard_queued_ends cfg (Z.to_nat (BLOCK_BUFFER_SIZE cfg)) (planner m) Hok)
    as (p' & E & Q & H1 & H2 & H3 & H4); [lia|].
  unfold quickStop. rewrite E. cbn [bind].
  eexists. split; [reflexivity|]. cbn [planner stepper].
  split; [exact Q|]. split; [exact H1|]. split; [exact H3|]. split; [exact H4|].
  split; [reflexivity|]. split; [reflexivity|]. split; [reflexivity|].
  intros inps Hlen.
  match goal with |- context [run_ISR cfg inps ?m0] =>
    destruct (run_ISR_cleaning cfg inps m0) as (A1 & A2 & _ & _ & _ & _ & A7 & _) end.
  { cbn [stepper cleaning_buffer_counter with_current_block with_cleaning_buffer_counter].
    lia. }
  cbv zeta in *. cbn [stepper planner] in *.
  split; [exact A2|]. split; [apply A7, Q|exact A1].
Qed.

End StopFacts.

(** ** Endstop reports and idle drivers *)

Module HousekeepingFacts.
Import Int IntFacts Stepper Planner StepperControl PlannerControl.
Import RingFacts.

(** X22.  [checkHitEndstops] reports every recorded hit once: it prints a
    line for exactly those of the axes X, Y and Z whose bit is set in
    [endstop_hit_bits], with the trigger position [endstops_trigsteps]
    converted to millimetres, and clears [endstop_hit_bits], so that a second
    call prints nothing; step positions and the trigger record are
    untouched. *)
Theorem checkHitEndstops_reports_once (g : settings) (s : stepper_state) :
  let r := checkHitEndstops g s in
  endstop_hit_bits (snd r) = 0
  /\ (forall a x, In (a, x) (fst r) <->
        a <> E_AXIS
        /\ TEST (endstop_hit_bits s) (endstop_bit (axis_min a)) = true
        /\ x = F32.div (F32.of_Z (endstops_trigsteps s a))
                       (axis_steps_per_unit g (axis_index a)))
  /\ checkHitEndstops g (snd r) = ([], snd r)
  /\ count_position (snd r) = count_position s
  /\ endstops_trigsteps (snd r) = endstops_trigsteps s.
Proof.
  cbv zeta. unfold checkHitEndstops.
  destruct (Z.eqb_spec (endstop_hit_bits s) 0) as [E|E]; cbn [negb fst snd].
  - split; [exact E|]. split.
    + intros a x. split; [intros []|].
      intros (_ & H & _). rewrite E in H. unfold TEST in H.
      rewrite Z.bits_0 in H. discriminate.
    + rewrite E. cbn [Z.eqb negb]. repeat split.
  - split; [reflexivity|]. split.
    + intros a x. unfold endstop_report.
      cbn [axis_min endstop_bit].
      destruct (TEST (endstop_hit_bits s) 0) eqn:T0,
               (TEST (endstop_hit_bits s) 1) eqn:T1,
               (TEST (endstop_hit_bits s) 2) eqn:T2;
        cbn [app In]; destruct a; cbn [axis_min endstop_bit];
        rewrite ?T0, ?T1, ?T2;
        (split;
         [intros H;
          repeat match goal with
                 | H : _ \/ _ |- _ => destruct H
                 | H : False |- _ => destruct H
                 | H : (_, _) = (_, _) |- _ => injection H as ? ?; try discriminate
                 end;
          try (split; [discriminate|split; [reflexivity|congruence]])
         |intros (Hne & Ht & ->); try discriminate; try congruence; auto 6]).
    + cbn [endstops_hit_on_purpose endstop_hit_bits with_endstop_hit_bits Z.eqb negb].
      repeat split.
Qed.


Section Activity.
Context (cfg : config).

Section Loop.
Context (p : planner_state).
Hypothesis Hok : ring_ok cfg p.
Hypothesis Hsize : BLOCK_BUFFER_SIZE cfg <= 256.

(** After [j] passes the counter of an axis is zero exactly when none of
    the first [j] queued blocks steps the axis; it cannot wrap, as it is at
    most [j]. *)
Definition counted (j : Z) (axis_active : axis_array Z) : Prop :=
  forall a, 0 <= axis_active a <= j
    /\ (axis_active a = 0 <->
        forall i, 0 <= i < j -> steps (block_buffer p (slot cfg p i)) a = 0).

Lemma count_active_counted fuel : forall j axis_active,
  0 <= j <= movesplanned cfg p ->
  movesplanned cfg p - j < Z.of_nat fuel ->
  counted j axis_active ->
  counted (movesplanned cfg p)
    (count_active cfg fuel (block_buffer_head p) (slot cfg p j) (block_buffer p) axis_active).
Proof.
  pose proof Hok as (Hpow & _ & _).
  pose proof (movesplanned_range cfg p Hpow) as Hm.
  induction fuel as [|fuel IH]; intros j act Hj Hfuel Hc; cbn [count_active].
  - lia.
  - pose proof (slot_head_iff cfg p j Hok Hj) as Hiff.
    destruct (Z.eqb_spec (slot cfg p j) (block_buffer_head p)) as [Heq|Hne].
    + apply Hiff in Heq. subst j. exact Hc.
    + assert (Hjn : j < movesplanned cfg p)
        by (destruct (Z.eq_dec j (movesplanned cfg p)) as [E|E];
            [apply Hiff in E; contradiction|lia]).
      rewrite uint8_next_block_index by assumption.
      replace (BLOCK_MOD cfg (slot cfg p j + 1)) with (slot cfg p (j + 1)).
      2:{ unfold slot. rewrite !(BLOCK_MOD_mod cfg) by exact Hpow.
          pose proof (size_pos cfg Hpow).
          rewrite Zplus_mod_idemp_l. f_equal. lia. }
      apply IH; [lia|lia|].
      intros a. destruct (Hc a) as (Hr & Hz).
      destruct (Z.eqb_spec (steps (block_buffer p (slot cfg p j)) a) 0) as [E0|E0];
        cbn [negb].
      * split; [lia|]. rewrite Hz. split.
        -- intros H i Hi. destruct (Z.eq_dec i j) as [->|]; [exact E0|apply H; lia].
        -- intros H i Hi. apply H. lia.
      * rewrite uint8_small by (change (2 ^ 8) with 256; lia).
        split; [lia|]. split; [lia|].
        intros H. exfalso. apply E0. apply H. lia.
Qed.

End Loop.
End Activity.

(** X23.  [check_axes_activity] never disables an axis that a queued block
    still has to step: in a ring of at most 256 slots, the driver of an axis
    is disabled exactly when its [DISABLE_] switch is on and no block between
    the tail and the head has steps on the axis.  The value written to the
    fan is the fan speed of the block at the tail, or [fanSpeed] when the
    ring is empty, truncated to a byte. *)
Theorem check_axes_activity_spares_queued_axes (cfg : config) (ic : idle_config)
    (g : settings) (p : planner_state) (a : AxisEnum) :
  ring_ok cfg p ->
  BLOCK_BUFFER_SIZE cfg <= 256 ->
  (disabled (check_axes_activity cfg ic g p) a = true <->
   DISABLE ic a = true
   /\ forall j, 0 <= j < movesplanned cfg p ->
        steps (block_buffer p (slot cfg p j)) a = 0)
  /\ fan_output (check_axes_activity cfg ic g p)
     = uint8 (if blocks_queued p then fan_speed (block_buffer p (block_buffer_tail p))
              else fanSpeed g).
Proof.
  intros Hok Hsize. pose proof Hok as (Hpow & Hh & Ht).
  pose proof (movesplanned_range cfg p Hpow) as Hm.
  unfold check_axes_activity.
  destruct (blocks_queued p) eqn:Hq; cbn [disabled fan_output fst snd].
  - split; [|reflexivity].
    assert (Hc0 : counted cfg p 0 (fun _ => 0)).
    { intros a'. split; [lia|]. split; [intros _ i Hi; lia|reflexivity]. }
    pose proof (count_active_counted cfg p Hok Hsize (Z.to_nat (BLOCK_BUFFER_SIZE cfg)) 0
                  (fun _ => 0) ltac:(lia) ltac:(lia) Hc0 a) as (_ & Hz).
    rewrite (slot_0 cfg p Hok) in Hz.
    rewrite andb_true_iff, Z.eqb_eq, Hz. reflexivity.
  - split; [|reflexivity].
    unfold blocks_queued in Hq. apply negb_false_iff, Z.eqb_eq in Hq.
    apply (movesplanned_zero_iff cfg p Hok) in Hq.
    rewrite andb_true_iff, Hq. cbn [Z.eqb].
    split; [intros (H & _); split; [exact H|intros j Hj; lia]|intros (H & _); auto].
Qed.

End HousekeepingFacts.

(** ** Setting the position *)

Module PositionFacts.
Import Int IntFacts Stepper Planner StepperControl PlannerControl.

(** A float that is neither an infinity nor a NaN. *)
Definition finite (x : float) : bool :=
  match x with
  | S754_zero _ | S754_finite _ _ _ => true
  | _ => false
  end.

Lemma to_long_zero_product (v : float) :
  finite v = true -> F32.to_long (F32.mul (F32.of_Z 0) v) = Some 0.
Proof.
  destruct v as [sv| | |sv mv ev]; cbn [finite]; intros H; try discriminate; reflexivity.
Qed.

Lemma st_get_position_axis a s :
  st_get_position (axis_index a) s = Some (count_position s a).
Proof. destruct a; reflexivity. Qed.

(** X24.  [plan_set_position] leaves planner and stepper in agreement, and a
    move to the position just set is dropped: after the call
    [st_get_position] returns the planner's [position] on every axis, and
    [plan_buffer_line] to the same coordinates with the same extruder (with
    room in the ring and a finite volumetric multiplier) returns at the
    zero-length check with [position], head and tail unchanged. *)
Theorem move_to_set_position_is_dropped (cfg : config) (g : settings) (m m' : machine)
    (x y z e feed_rate : float) (active_extruder driver : Z) :
  plan_set_position g m x y z e active_extruder = Some m' ->
  block_buffer_tail (planner m) <> next_block_index cfg (block_buffer_head (planner m)) ->
  0 <= DROP_SEGMENTS cfg ->
  finite (volumetric_multiplier g active_extruder) = true ->
  (forall a, st_get_position (axis_index a) (stepper m') = Some (position (planner m') a))
  /\ exists p2,
       plan_buffer_line cfg g (planner m') x y z e feed_rate active_extruder driver
       = Discarded p2
       /\ position p2 = position (planner m')
       /\ block_buffer_head p2 = block_buffer_head (planner m)
       /\ block_buffer_tail p2 = block_buffer_tail (planner m).
Proof.
  unfold plan_set_position.
  destruct (F32.lround (F32.mul x _)) as [nx|] eqn:Ex; cbn [bind]; [|discriminate].
  destruct (F32.lround (F32.mul y _)) as [ny|] eqn:Ey; cbn [bind]; [|discriminate].
  destruct (F32.lround (F32.mul z _)) as [nz|] eqn:Ez; cbn [bind]; [|discriminate].
  destruct (F32.lround (F32.mul e _)) as [ne|] eqn:Ee; cbn [bind]; [|discriminate].
  intros [= <-] Hroom Hdrop Hfin.
  cbn [planner stepper].
  split.
  { intros a. rewrite st_get_position_axis. destruct a; reflexivity. }
  unfold plan_buffer_line.
  cbn [block_buffer_head block_buffer_tail with_previous_speed with_previous_nominal_speed
       with_last_extruder with_position].
  destruct (Z.eqb_spec (block_buffer_tail (planner m))
              (next_block_index cfg (block_buffer_head (planner m)))); [contradiction|].
  unfold prepare_block. rewrite Ex, Ey, Ez, Ee. cbn [bind].
  cbn [last_extruder with_previous_speed with_previous_nominal_speed
       with_last_extruder with_position].
  rewrite Z.eqb_refl. cbn [negb]. rewrite andb_false_r. cbn [andb bind].
  cbn [position with_previous_speed with_previous_nominal_speed
       with_last_extruder with_position].
  rewrite !Z.sub_diag.
  change (labs (int32 0)) with 0.
  rewrite (to_long_zero_product _ Hfin). cbn [bind].
  rewrite Z.mul_0_l. change (Z.quot (int32 0) 100) with 0.
  cbn [pr_block pr_planner step_event_count with_step_event_count].
  match goal with |- context [uint32 ?v <=? _] =>
    replace (uint32 v) with 0 by reflexivity end.
  destruct (Z.leb_spec 0 (DROP_SEGMENTS cfg)); [|lia].
  eexists. split; [reflexivity|]. repeat split.
Qed.

End PositionFacts.

(** ** Instances

    The theorems above that carry hypotheses, applied to the states of
    [Scenarios]. *)

Module Instances.
Import Int IntFacts Stepper Planner StepperControl PlannerControl Examples Scenarios.
Import RingFacts RecalculateFacts FlagFacts AppendFacts StepperFacts MotionFacts.
Import HandlerFacts InterruptFacts StopFacts HousekeepingFacts PositionFacts.
Import HandshakeFacts EntryFacts ClosureFacts.

Lemma first_move_appended :
  plan_buffer_line cfg_example settings_example planner_empty
    (ratio 1 8) zero zero zero (F32.of_Z 60) 0 0 = Appended planner_after_first_move.
Proof.
  assert (Hshape : match plan_buffer_line cfg_example settings_example planner_empty
                           (ratio 1 8) zero zero zero (F32.of_Z 60) 0 0 with
                   | Appended _ => True
                   | _ => False
                   end) by (vm_compute; exact I).
  unfold planner_after_first_move.
  destruct (plan_buffer_line cfg_example settings_example planner_empty
              (ratio 1 8) zero zero zero (F32.of_Z 60) 0 0); try contradiction.
  reflexivity.
Defined.

Lemma ring_ok_empty : ring_ok cfg_example planner_empty.
Proof. split; [exists 4; split; [lia|reflexivity]|cbn; lia]. Defined.

Lemma ring_ok_first_move : ring_ok cfg_example planner_after_first_move.
Proof.
  split; [exists 4; split; [lia|reflexivity]|].
  split; vm_compute; split; discriminate || reflexivity.
Defined.

Lemma planner_recalculate_keeps_moves_witness :
  match planner_recalculate cfg_example planner_after_first_move with
  | Some p' =>
      block_buffer_head p' = block_buffer_head planner_after_first_move
      /\ block_buffer_tail p' = block_buffer_tail planner_after_first_move
      /\ position p' = position planner_after_first_move
      /\ previous_speed p' = previous_speed planner_after_first_move
      /\ previous_nominal_speed p' = previous_nominal_speed planner_after_first_move
      /\ last_extruder p' = last_extruder planner_after_first_move
      /\ forall j, same_move (block_buffer planner_after_first_move j) (block_buffer p' j)
  | None => False
  end.
Proof.
  assert (Hshape : match planner_recalculate cfg_example planner_after_first_move with
                   | Some _ => True
                   | None => False
                   end) by (vm_compute; exact I).
  destruct (planner_recalculate cfg_example planner_after_first_move) as [p'|] eqn:E;
    [|contradiction].
  apply (planner_recalculate_keeps_moves cfg_example planner_after_first_move p' E).
Defined.

Lemma planner_recalculate_keeps_busy_trapezoid_witness :
  match planner_recalculate cfg_example planner_latched_first with
  | Some p' =>
      same_trapezoid (block_buffer planner_latched_first 0) (block_buffer p' 0)
      /\ busy (block_buffer p' 0) = true
  | None => False
  end.
Proof.
  assert (Hshape : match planner_recalculate cfg_example planner_latched_first with
                   | Some _ => True
                   | None => False
                   end) by (vm_compute; exact I).
  destruct (planner_recalculate cfg_example planner_latched_first) as [p'|] eqn:E;
    [|contradiction].
  apply (planner_recalculate_keeps_busy_trapezoid cfg_example planner_latched_first p' 0 E).
  vm_compute. reflexivity.
Defined.

Lemma plan_buffer_line_keeps_rate_floor_witness :
  rate_floor (block_buffer planner_after_first_move 0).
Proof.
  apply (plan_buffer_line_keeps_rate_floor cfg_example settings_example planner_empty
           planner_after_first_move (ratio 1 8) zero zero zero (F32.of_Z 60) 0 0
           first_move_appended).
  intros j _. split; cbn; lia.
Defined.

Lemma appended_block_encodes_displacement_witness :
  DROP_SEGMENTS cfg_example
  < step_event_count (block_buffer planner_after_first_move (block_buffer_head planner_empty))
  /\ busy (block_buffer planner_after_first_move (block_buffer_head planner_empty)) = false
  /\ (forall a, a <> E_AXIS ->
        - 2 ^ 31 < position planner_after_first_move a - position planner_empty a < 2 ^ 31 ->
        steps (block_buffer planner_after_first_move (block_buffer_head planner_empty)) a
        = Z.abs (position planner_after_first_move a - position planner_empty a)
        /\ signed_steps
             (block_buffer planner_after_first_move (block_buffer_head planner_empty)) a
           = position planner_after_first_move a - position planner_empty a)
  /\ ((forall a, 0 <= steps (block_buffer planner_after_first_move
                                (block_buffer_head planner_empty)) a) ->
      step_event_count (block_buffer planner_after_first_move
                          (block_buffer_head planner_empty)) < 2 ^ 31
      /\ forall a, steps (block_buffer planner_after_first_move
                            (block_buffer_head planner_empty)) a
                   <= step_event_count (block_buffer planner_after_first_move
                                          (block_buffer_head planner_empty))).
Proof.
  exact (appended_block_encodes_displacement cfg_example settings_example planner_empty
           planner_after_first_move (ratio 1 8) zero zero zero (F32.of_Z 60) 0 0
           first_move_appended).
Defined.

Lemma appended_move_lengthens_queue_witness :
  ring_ok cfg_example planner_after_first_move
  /\ block_buffer_tail planner_after_first_move = block_buffer_tail planner_empty
  /\ block_buffer_head planner_after_first_move
     = next_block_index cfg_example (block_buffer_head planner_empty)
  /\ movesplanned cfg_example planner_after_first_move
     = movesplanned cfg_example planner_empty + 1
  /\ movesplanned cfg_example planner_after_first_move < BLOCK_BUFFER_SIZE cfg_example
  /\ blocks_queued planner_after_first_move = true.
Proof.
  exact (appended_move_lengthens_queue cfg_example settings_example planner_empty
           planner_after_first_move (ratio 1 8) zero zero zero (F32.of_Z 60) 0 0
           first_move_appended ring_ok_empty ltac:(cbn; lia)).
Defined.

Lemma planner_recalculate_clears_flags_witness :
  match planner_recalculate cfg_example planner_after_first_move with
  | Some p' =>
      recalculate_flag (block_buffer p' (slot cfg_example planner_after_first_move 0)) = false
  | None => False
  end.
Proof.
  assert (Hshape : match planner_recalculate cfg_example planner_after_first_move with
                   | Some _ => True
                   | None => False
                   end) by (vm_compute; exact I).
  assert (Hm : movesplanned cfg_example planner_after_first_move = 1)
    by (vm_compute; reflexivity).
  assert (Hj : 0 <= 0 < movesplanned cfg_example planner_after_first_move)
    by (rewrite Hm; lia).
  destruct (planner_recalculate cfg_example planner_after_first_move) as [p'|] eqn:E;
    [|contradiction].
  exact (planner_recalculate_clears_flags cfg_example planner_after_first_move p' 0 E
           ring_ok_first_move ltac:(cbn; lia) Hj).
Defined.

Lemma handler_period_floor_witness :
  100 <= OCR1A (stepper (run_ISR cfg_example
                           ([input_quiet]
                            ++ [{| endstop_read := fun _ => false;
                                   TCNT1 := 3000; TCNT1_reread := 3002 |}])
                           machine_first_move)).
Proof.
  apply (handler_period_floor cfg_example [input_quiet]
           {| endstop_read := fun _ => false; TCNT1 := 3000; TCNT1_reread := 3002 |}
           machine_first_move).
  - reflexivity.
  - unfold timer_not_behind. cbn. lia.
Defined.

Lemma handler_hit_bits_only_grow_witness :
  0 <= endstop_hit_bits (stepper (run_ISR cfg_example [input_active X_MIN] machine_homing_x))
    < 256
  /\ (forall k, TEST (endstop_hit_bits (stepper machine_homing_x)) k = true ->
        TEST (endstop_hit_bits
                (stepper (run_ISR cfg_example [input_active X_MIN] machine_homing_x))) k
        = true)
  /\ (forall k, 3 <= k ->
        TEST (endstop_hit_bits
                (stepper (run_ISR cfg_example [input_active X_MIN] machine_homing_x))) k
        = TEST (endstop_hit_bits (stepper machine_homing_x)) k).
Proof.
  apply (handler_hit_bits_only_grow cfg_example [input_active X_MIN] machine_homing_x).
  cbn. lia.
Defined.

Lemma idle_handler_only_rearms_witness :
  run_ISR cfg_example [input_quiet; input_active X_MIN] machine_idle
  = {| planner := planner machine_idle;
       stepper := with_OCR1A (stepper machine_idle) 2000 |}.
Proof.
  apply (idle_handler_only_rearms cfg_example [input_quiet; input_active X_MIN] machine_idle);
    reflexivity.
Defined.

Lemma cleaning_handler_takes_no_step_witness :
  cleaning_buffer_counter
    (stepper (run_ISR cfg_example [input_quiet; input_quiet] machine_cleaning))
  = cleaning_buffer_counter (stepper machine_cleaning)
    - Z.of_nat (length [input_quiet; input_quiet])
  /\ count_position (stepper (run_ISR cfg_example [input_quiet; input_quiet] machine_cleaning))
     = count_position (stepper machine_cleaning)
  /\ endstop_hit_bits
       (stepper (run_ISR cfg_example [input_quiet; input_quiet] machine_cleaning))
     = endstop_hit_bits (stepper machine_cleaning)
  /\ block_buffer_head
       (planner (run_ISR cfg_example [input_quiet; input_quiet] machine_cleaning))
     = block_buffer_head (planner machine_cleaning)
  /\ block_buffer (planner (run_ISR cfg_example [input_quiet; input_quiet] machine_cleaning))
     = block_buffer (planner machine_cleaning)
  /\ position (planner (run_ISR cfg_example [input_quiet; input_quiet] machine_cleaning))
     = position (planner machine_cleaning)
  /\ ([input_quiet; input_quiet] <> [] ->
      current_block
        (stepper (run_ISR cfg_example [input_quiet; input_quiet] machine_cleaning)) = None
      /\ OCR1A (stepper (run_ISR cfg_example [input_quiet; input_quiet] machine_cleaning))
         = 200).
Proof.
  apply (cleaning_handler_takes_no_step cfg_example [input_quiet; input_quiet]
           machine_cleaning).
  cbn. lia.
Defined.

Lemma quickStop_empties_queue_witness :
  exists m', quickStop cfg_example (Z.to_nat (BLOCK_BUFFER_SIZE cfg_example))
               machine_first_move = Some m'
    /\ blocks_queued (planner m') = false
    /\ block_buffer_head (planner m') = block_buffer_head (planner machine_first_move)
    /\ block_buffer (planner m') = block_buffer (planner machine_first_move)
    /\ position (planner m') = position (planner machine_first_move)
    /\ current_block (stepper m') = None
    /\ cleaning_buffer_counter (stepper m') = 5000
    /\ count_position (stepper m') = count_position (stepper machine_first_move)
    /\ forall inps, (length inps <= 5000)%nat ->
         count_position (stepper (run_ISR cfg_example inps m'))
         = count_position (stepper machine_first_move)
         /\ planner (run_ISR cfg_example inps m') = planner m'
         /\ cleaning_buffer_counter (stepper (run_ISR cfg_example inps m'))
            = 5000 - Z.of_nat (length inps).
Proof.
  apply (quickStop_empties_queue cfg_example machine_first_move).
  exact ring_ok_first_move.
Defined.

Lemma check_axes_activity_spares_queued_axes_witness :
  (disabled (check_axes_activity cfg_example idle_all settings_example
               planner_after_first_move) X_AXIS = true <->
   DISABLE idle_all X_AXIS = true
   /\ forall j, 0 <= j < movesplanned cfg_example planner_after_first_move ->
        steps (block_buffer planner_after_first_move
                 (slot cfg_example planner_after_first_move j)) X_AXIS = 0)
  /\ fan_output (check_axes_activity cfg_example idle_all settings_example
                   planner_after_first_move)
     = uint8 (if blocks_queued planner_after_first_move
              then fan_speed (block_buffer planner_after_first_move
                                (block_buffer_tail planner_after_first_move))
              else fanSpeed settings_example).
Proof.
  apply (check_axes_activity_spares_queued_axes cfg_example idle_all settings_example
           planner_after_first_move X_AXIS).
  - exact ring_ok_first_move.
  - cbn. lia.
Defined.

Lemma move_to_set_position_is_dropped_witness :
  match plan_set_position settings_example machine_idle (F32.of_Z 10) zero zero zero 0 with
  | Some m' =>
      (forall a, st_get_position (axis_index a) (stepper m') = Some (position (planner m') a))
      /\ exists p2,
           plan_buffer_line cfg_example settings_example (planner m')
             (F32.of_Z 10) zero zero zero (F32.of_Z 60) 0 0 = Discarded p2
           /\ position p2 = position (planner m')
           /\ block_buffer_head p2 = block_buffer_head (planner machine_idle)
           /\ block_buffer_tail p2 = block_buffer_tail (planner machine_idle)
  | None => False
  end.
Proof.
  assert (Hshape : match plan_set_position settings_example machine_idle
                           (F32.of_Z 10) zero zero zero 0 with
                   | Some _ => True
                   | None => False
                   end) by (vm_compute; exact I).
  destruct (plan_set_position settings_example machine_idle (F32.of_Z 10) zero zero zero 0)
    as [m'|] eqn:E; [|contradiction].
  apply (move_to_set_position_is_dropped cfg_example settings_example machine_idle m'
           (F32.of_Z 10) zero zero zero (F32.of_Z 60) 0 0 E).
  - vm_compute. discriminate.
  - vm_compute. discriminate.
  - reflexivity.
Defined.

Lemma plan_buffer_line_waits_iff_full_witness :
  plan_buffer_line cfg_example settings_example (with_block_buffer_head planner_empty 15)
    (ratio 1 8) zero zero zero (F32.of_Z 60) 0 0 = Waiting
  <-> movesplanned cfg_example (with_block_buffer_head planner_empty 15)
      = BLOCK_BUFFER_SIZE cfg_example - 1.
Proof.
  apply (plan_buffer_line_waits_iff_full cfg_example settings_example
           (with_block_buffer_head planner_empty 15)
           (ratio 1 8) zero zero zero (F32.of_Z 60) 0 0).
  - split; [exists 4; split; [lia|reflexivity]|cbn; lia].
  - cbn. lia.
Defined.


Lemma single_sample_never_triggers_witness :
  endstop_hit_bits (stepper (ISR cfg_example (input_active X_MIN) machine_first_move))
  = endstop_hit_bits (stepper machine_first_move)
  /\ endstops_trigsteps (stepper (ISR cfg_example (input_active X_MIN) machine_first_move))
     = endstops_trigsteps (stepper machine_first_move).
Proof.
  apply (single_sample_never_triggers cfg_example (input_active X_MIN) machine_first_move).
  reflexivity.
Defined.

Lemma plan_buffer_line_keeps_entry_below_limit_witness :
  F32.gtb (entry_speed (block_buffer planner_after_first_move 0))
          (max_entry_speed (block_buffer planner_after_first_move 0)) = false.
Proof.
  apply (plan_buffer_line_keeps_entry_below_limit cfg_example settings_example planner_empty
           planner_after_first_move (ratio 1 8) zero zero zero (F32.of_Z 60) 0 0
           first_move_appended).
  intros j _. reflexivity.
Defined.

Lemma appended_move_is_executed_witness :
  exists k, (1 <= k <= 10)%nat
    /\ current_block
         (stepper (run_ISR cfg_example (firstn k (repeat input_quiet 10))
                     {| planner := planner_after_first_move;
                        stepper := stepper_idle true 0 false |})) = None
    /\ blocks_queued
         (planner (run_ISR cfg_example (firstn k (repeat input_quiet 10))
                     {| planner := planner_after_first_move;
                        stepper := stepper_idle true 0 false |})) = false
    /\ (forall a, a <> E_AXIS ->
          count_position
            (stepper (run_ISR cfg_example (firstn k (repeat input_quiet 10))
                        {| planner := planner_after_first_move;
                           stepper := stepper_idle true 0 false |})) a
          = position planner_after_first_move a).
Proof.
  apply (appended_move_is_executed cfg_example settings_example
           {| planner := planner_empty; stepper := stepper_idle true 0 false |}
           (ratio 1 8) zero zero zero (F32.of_Z 60) 0 0 planner_after_first_move
           (repeat input_quiet 10)).
  - exact first_move_appended.
  - exact ring_ok_empty.
  - cbn. lia.
  - reflexivity.
  - vm_compute. discriminate.
  - reflexivity.
  - reflexivity.
  - intros a; destruct a; reflexivity.
  - intros a; destruct a; vm_compute; discriminate.
  - intros a; destruct a; vm_compute; split; discriminate || reflexivity.
  - intros a Ha; destruct a; try congruence; reflexivity.
  - intros j inp Hn _. apply quiet_poll_ends_no_block.
    apply nth_error_In, repeat_spec in Hn. subst inp. intros e. reflexivity.
  - vm_compute. repeat constructor.
Defined.

End Instances.
